(** * Academic Resources: the persistence layer

    A shallow embedding of the server-side storage code of the
    repository: [lib/projects-server.ts] (project records),
    [lib/files.ts] (file metadata and uploaded content) and
    [lib/auth-server.ts] (the admin-session check).

    The TypeScript code is effectful: it reads [process.env], talks to a
    remote Redis/KV service and to a blob service, reads and writes the
    local filesystem, and reads the clock.  All of that is threaded
    explicitly through a [World] value; every function of the source
    becomes a computation in the monad [M] of world transformers that
    either return a value or throw. *)

From stdpp Require Import base gmap strings list pretty.
From Stdlib Require Import ZArith Lia.

Local Open Scope Z_scope.

(** ** JavaScript values used by the code *)

Module Js.

(** [!!s] for [s : string | undefined]: the empty string and
    [undefined] are falsy. *)
Definition truthy (o : option string) : bool :=
  match o with
  | Some s => negb (String.eqb s EmptyString)
  | None => false
  end.

(** [a || b] on [string | undefined]. *)
Definition or_else (a b : option string) : option string :=
  if truthy a then a else b.

(** What a [throw] carries.  [JsError msg] is [new Error(msg)];
    the other constructors are the rejections of the libraries. *)
Inductive Error :=
| JsError (msg : string)
| RedisError (msg : string)
| BlobError (msg : string)
| FsError (code : string) (path : string)
| SyntaxError
| CookiesError (msg : string).

Inductive Outcome (A : Type) :=
| Return (a : A)
| Throw (e : Error).
Arguments Return {A} a.
Arguments Throw {A} e.

(** [Number.prototype.toString()] on an integer. *)
Definition toString (n : Z) : string := pretty n.

(** Zero-padded decimal of a non-negative number, [w] digits wide. *)
Definition pad (w : nat) (n : Z) : string :=
  let s := pretty (Z.to_N n) in
  String.concat EmptyString (replicate (w - String.length s)%nat "0") +:+ s.

(** Proleptic Gregorian date of a day count since 1970-01-01. *)
Definition civil_from_days (days : Z) : Z * Z * Z :=
  let z := days + 719468 in
  let era := z `div` 146097 in
  let doe := z `mod` 146097 in
  let yoe := (doe - doe `div` 1460 + doe `div` 36524 - doe `div` 146096) `div` 365 in
  let doy := doe - (365 * yoe + yoe `div` 4 - yoe `div` 100) in
  let mp := (5 * doy + 2) `div` 153 in
  let d := doy - (153 * mp + 2) `div` 5 + 1 in
  let m := if mp <? 10 then mp + 3 else mp - 9 in
  let y := yoe + era * 400 + (if m <=? 2 then 1 else 0) in
  (y, m, d).

(** [new Date(t).toISOString()] for [t] milliseconds since the epoch:
    [YYYY-MM-DDTHH:mm:ss.sssZ], with the signed six-digit year outside
    years 0 to 9999. *)
Definition toISOString (t : Z) : string :=
  let '(y, m, d) := civil_from_days (t `div` 86400000) in
  let r := t `mod` 86400000 in
  let year :=
    if (0 <=? y) && (y <=? 9999) then pad 4 y
    else (if y <? 0 then "-" else "+") +:+ pad 6 (Z.abs y) in
  year +:+ "-" +:+ pad 2 m +:+ "-" +:+ pad 2 d +:+ "T"
    +:+ pad 2 (r `div` 3600000) +:+ ":"
    +:+ pad 2 ((r `mod` 3600000) `div` 60000) +:+ ":"
    +:+ pad 2 ((r `mod` 60000) `div` 1000) +:+ "."
    +:+ pad 3 (r `mod` 1000) +:+ "Z".

(** The white space and line terminators of ECMAScript among the code
    units below 256, which is what a [string] holds here: TAB, LF, VT,
    FF, CR, SPACE and NBSP. *)
Definition is_whitespace (c : Ascii.ascii) : bool :=
  let n := Ascii.nat_of_ascii c in
  (n =? 9)%nat || (n =? 10)%nat || (n =? 11)%nat || (n =? 12)%nat || (n =? 13)%nat
  || (n =? 32)%nat || (n =? 160)%nat.

(** [String.prototype.trimStart()], [trimEnd()] and [trim()]. *)
Fixpoint trimStart (s : string) : string :=
  match s with
  | EmptyString => EmptyString
  | String c rest => if is_whitespace c then trimStart rest else s
  end.

Fixpoint trimEnd (s : string) : string :=
  match s with
  | EmptyString => EmptyString
  | String c rest =>
      match trimEnd rest with
      | EmptyString => if is_whitespace c then EmptyString else String c EmptyString
      | kept => String c kept
      end
  end.

Definition trim (s : string) : string := trimEnd (trimStart s).

(** *** [node:path] on a POSIX host *)

Definition is_slash (c : Ascii.ascii) : bool := (Ascii.nat_of_ascii c =? 47)%nat.

Definition is_absolute (path : string) : bool :=
  match path with
  | String c _ => is_slash c
  | EmptyString => false
  end.

Fixpoint ends_with_slash (path : string) : bool :=
  match path with
  | EmptyString => false
  | String c EmptyString => is_slash c
  | String _ rest => ends_with_slash rest
  end.

(** The segments of a path: what stands between its slashes, the
    empty segments included. *)
Fixpoint split_path (path : string) : list string :=
  match path with
  | EmptyString => [EmptyString]
  | String c rest =>
      if is_slash c then EmptyString :: split_path rest
      else match split_path rest with
           | segment :: segments => String c segment :: segments
           | [] => [String c EmptyString]
           end
  end.

(** [normalizeString(path, allowAboveRoot, '/', isPosixPathSeparator)]
    over the segments of the path; [res] holds the segments kept so
    far, the last one first.  An empty segment and [.] are dropped;
    [..] takes the last segment away, unless there is none or it is
    [..] itself, in which case [..] is kept when [allowAboveRoot]. *)
Fixpoint normalizeString (allowAboveRoot : bool) (res segments : list string)
  : list string :=
  match segments with
  | [] => res
  | segment :: rest =>
      if String.eqb segment EmptyString || String.eqb segment "." then
        normalizeString allowAboveRoot res rest
      else if String.eqb segment ".." then
        match res with
        | last :: before =>
            if String.eqb last ".." then
              normalizeString allowAboveRoot (if allowAboveRoot then ".." :: res else res) rest
            else normalizeString allowAboveRoot before rest
        | [] => normalizeString allowAboveRoot (if allowAboveRoot then [".."] else []) rest
        end
      else normalizeString allowAboveRoot (segment :: res) rest
  end.

(** [path.normalize(path)] *)
Definition path_normalize (path : string) : string :=
  if String.eqb path EmptyString then "."
  else
    let isAbsolute := is_absolute path in
    let trailingSeparator := ends_with_slash path in
    let res :=
      String.concat "/" (rev (normalizeString (negb isAbsolute) [] (split_path path))) in
    if String.eqb res EmptyString then
      if isAbsolute then "/" else if trailingSeparator then "./" else "."
    else
      (if isAbsolute then "/" else EmptyString) +:+ res
      +:+ (if trailingSeparator then "/" else EmptyString).

(** [path.join(...paths)]: the arguments that are not empty, joined
    with a slash and normalised.  The paths of the code start at
    [process.cwd()] and are written here from there: ['data'] is
    [path.join(process.cwd(), 'data')]. *)
Definition path_join (paths : list string) : string :=
  match filter (λ arg, arg ≠ EmptyString) paths with
  | [] => "."
  | args => path_normalize (String.concat "/" args)
  end.

End Js.
Export Js.

(** ** Records *)

(** [interface Project], imported from [lib/projects.ts] and declared
    with these fields in [app/page.tsx]. *)
Record Project := mkProject {
  id : string;
  name : string;
  description : option string;
  moduleName : option string;
  supervisorName : option string;
  createdAt : string;
  updatedAt : string;
}.

(** [interface FileMetadata] of [lib/files.ts]. *)
Record FileMetadata := mkFileMetadata {
  f_id : string;
  projectId : string;
  categoryId : string;
  filename : string;
  originalName : string;
  size : Z;
  mimeType : string;
  uploadedAt : string;
  blobUrl : option string;
}.

(** ** The world the code runs in *)

(** A JSON document on disk: [JSON.parse] either yields the array of
    records that [JSON.stringify] wrote, or throws on content that is
    not such a document. *)
Inductive JsonFile (A : Type) :=
| Parsed (records : list A)
| Corrupt.
Arguments Parsed {A} records.
Arguments Corrupt {A}.

(** The [data] directory with its two documents, each of which may be
    missing. *)
Record DataDir := mkDataDir {
  projects_json : option (JsonFile Project);
  files_json : option (JsonFile FileMetadata);
}.

(** What a path other than those of the [data] directory and its two
    documents leads to, when it leads somewhere. *)
Inductive Entry :=
| RegularFile
| Directory.

Global Instance Entry_eq_dec : EqDecision Entry.
Proof. solve_decision. Defined.

(** The directory tree around the [data] directory: where
    [process.cwd()] is, by the names of its directories from the root,
    and what exists at every other place, a place being the names from
    the root to it. *)
Record Tree := mkTree {
  cwd : list string;
  nodes : gmap (list string) Entry;
}.

(** The local filesystem: the [data] directory below
    [process.cwd()], when it exists, and the tree around it. *)
Record FS := mkFS {
  read_only : bool;
  data_dir : option DataDir;
  tree : Tree;
}.

Definition projects_doc (f : FS) : option (JsonFile Project) :=
  data_dir f ≫= projects_json.
Definition files_doc (f : FS) : option (JsonFile FileMetadata) :=
  data_dir f ≫= files_json.

(** The remote key-value store: the values under the keys
    ['projects'] and ['files']. *)
Record KV := mkKV {
  kv_projects : option (list Project);
  kv_files : option (list FileMetadata);
}.

(** Every call that leaves the process, in program order. *)
Inductive Event :=
| FsExists (path : string)
| FsMkdir (path : string)
| FsWriteFile (path : string)
| FsReadFile (path : string)
| FsUnlink (path : string)
| RedisGet (url : string) (token : option string) (key : string)
| RedisSet (url : string) (token : option string) (key : string)
| BlobDel (url : string).

Record World := mkWorld {
  env : gmap string string;          (* process.env *)
  kv : KV;
  kv_faults : list (option string);  (* upcoming Redis requests: Some msg rejects *)
  blobs : gset string;               (* URLs held by the blob service *)
  blob_faults : list (option string);
  fs : FS;
  clock : nat → Z;                   (* successive readings of the clock, in ms *)
  reads : nat;                       (* how many readings were taken *)
  cookie_jar : option (gmap string string); (* None: cookies() rejects *)
  log : list Event;
}.

Definition set_kv (k : KV) (w : World) : World :=
  mkWorld (env w) k (kv_faults w) (blobs w) (blob_faults w) (fs w)
          (clock w) (reads w) (cookie_jar w) (log w).
Definition set_kv_faults (l : list (option string)) (w : World) : World :=
  mkWorld (env w) (kv w) l (blobs w) (blob_faults w) (fs w)
          (clock w) (reads w) (cookie_jar w) (log w).
Definition set_blobs (b : gset string) (w : World) : World :=
  mkWorld (env w) (kv w) (kv_faults w) b (blob_faults w) (fs w)
          (clock w) (reads w) (cookie_jar w) (log w).
Definition set_blob_faults (l : list (option string)) (w : World) : World :=
  mkWorld (env w) (kv w) (kv_faults w) (blobs w) l (fs w)
          (clock w) (reads w) (cookie_jar w) (log w).
Definition set_fs (f : FS) (w : World) : World :=
  mkWorld (env w) (kv w) (kv_faults w) (blobs w) (blob_faults w) f
          (clock w) (reads w) (cookie_jar w) (log w).
Definition set_reads (n : nat) (w : World) : World :=
  mkWorld (env w) (kv w) (kv_faults w) (blobs w) (blob_faults w) (fs w)
          (clock w) n (cookie_jar w) (log w).
Definition set_cookie_jar (j : option (gmap string string)) (w : World) : World :=
  mkWorld (env w) (kv w) (kv_faults w) (blobs w) (blob_faults w) (fs w)
          (clock w) (reads w) j (log w).
Definition emit (e : Event) (w : World) : World :=
  mkWorld (env w) (kv w) (kv_faults w) (blobs w) (blob_faults w) (fs w)
          (clock w) (reads w) (cookie_jar w) (log w ++ [e]).

(** ** The monad of the code: state and exceptions *)

Definition M (A : Type) : Type := World → Outcome A * World.

Definition ret {A} (a : A) : M A := λ w, (Return a, w).
Definition throw {A} (e : Error) : M A := λ w, (Throw e, w).
Definition bind {A B} (m : M A) (k : A → M B) : M B :=
  λ w, match m w with
       | (Return a, w') => k a w'
       | (Throw e, w') => (Throw e, w')
       end.
(** [try { m } catch (e) { h e }] *)
Definition try_catch {A} (m : M A) (h : Error → M A) : M A :=
  λ w, match m w with
       | (Return a, w') => (Return a, w')
       | (Throw e, w') => h e w'
       end.
Definition when_ (b : bool) (m : M unit) : M unit := if b then m else ret tt.

Notation "'let*' x ':=' m 'in' k" := (bind m (λ x, k))
  (at level 10, x name, m at level 100, k at level 200).
Notation "m ';;' k" := (bind m (λ _, k))
  (at level 100, k at level 200, right associativity).

(** *** Primitives *)

Definition process_env : M (gmap string string) := λ w, (Return (env w), w).

(** [Date.now()], and the instant of [new Date()]. *)
Definition Date_now : M Z :=
  λ w, (Return (clock w (reads w)), set_reads (S (reads w)) w).

(** Takes the verdict of the next request off a fault schedule. *)
Definition next_fault (l : list (option string)) : option string * list (option string) :=
  match l with
  | [] => (None, [])
  | f :: l' => (f, l')
  end.

Module fs_prim.

Definition DATA_DIR : string := "data".

Definition existsSync (path : string) (present : FS → bool) : M bool :=
  λ w, (Return (present (fs w)), emit (FsExists path) w).

(** [fs.mkdirSync(DATA_DIR, { recursive: true })]: an existing
    directory is left as it is. *)
Definition mkdirSync_data : M unit :=
  λ w, let w := emit (FsMkdir DATA_DIR) w in
       if read_only (fs w) then (Throw (FsError "EROFS" DATA_DIR), w)
       else (Return tt,
             set_fs (mkFS (read_only (fs w))
                          (Some (default (mkDataDir None None) (data_dir (fs w))))
                          (tree (fs w))) w).

Definition put_projects (d : JsonFile Project) (dir : DataDir) : DataDir :=
  mkDataDir (Some d) (files_json dir).
Definition put_files (d : JsonFile FileMetadata) (dir : DataDir) : DataDir :=
  mkDataDir (projects_json dir) (Some d).

(** Where a path leads, by the names from the root: a relative path
    starts at [process.cwd()], an empty segment and [.] stay where
    they are, [..] goes to the parent, which for the root is the root.
    (The paths [path.join] hands to [fs] have [..] in front only.) *)
Fixpoint walk (place : list string) (segments : list string) : list string :=
  match segments with
  | [] => place
  | segment :: rest =>
      if String.eqb segment EmptyString || String.eqb segment "." then walk place rest
      else if String.eqb segment ".." then walk (tail place) rest
      else walk (segment :: place) rest
  end.

Definition locate (t : Tree) (path : string) : list string :=
  rev (walk (if is_absolute path then [] else rev (cwd t)) (split_path path)).

Definition data_place (t : Tree) : list string := cwd t ++ [DATA_DIR].
Definition projects_place (t : Tree) : list string := data_place t ++ ["projects.json"].
Definition files_place (t : Tree) : list string := data_place t ++ ["files.json"].

(** What is at the place: [process.cwd()] and the directories above it
    are there; the [data] directory and its two documents are there
    when [data_dir] has them; the tree knows the rest. *)
Definition entry_of (f : FS) (place : list string) : option Entry :=
  if bool_decide (place `prefix_of` cwd (tree f)) then Some Directory
  else if bool_decide (place = data_place (tree f)) then
    match data_dir f with Some _ => Some Directory | None => None end
  else if bool_decide (place = projects_place (tree f)) then
    match projects_doc f with Some _ => Some RegularFile | None => None end
  else if bool_decide (place = files_place (tree f)) then
    match files_doc f with Some _ => Some RegularFile | None => None end
  else nodes (tree f) !! place.

(** What the path leads to; a path that ends with a slash leads to a
    directory or nowhere. *)
Definition entry_at (f : FS) (path : string) : option Entry :=
  match entry_of f (locate (tree f) path) with
  | Some RegularFile => if ends_with_slash path then None else Some RegularFile
  | found => found
  end.

Definition remove_projects (dir : DataDir) : DataDir := mkDataDir None (files_json dir).
Definition remove_files (dir : DataDir) : DataDir := mkDataDir (projects_json dir) None.

(** The filesystem without the regular file the path leads to. *)
Definition remove_at (path : string) (f : FS) : FS :=
  let place := locate (tree f) path in
  if bool_decide (place = projects_place (tree f)) then
    mkFS (read_only f) (remove_projects <$> data_dir f) (tree f)
  else if bool_decide (place = files_place (tree f)) then
    mkFS (read_only f) (remove_files <$> data_dir f) (tree f)
  else
    mkFS (read_only f) (data_dir f) (mkTree (cwd (tree f)) (delete place (nodes (tree f)))).

(** [fs.writeFileSync(path, JSON.stringify(...))] into the data
    directory: refused when the directory is missing and on a
    read-only filesystem. *)
Definition writeFileSync (path : string) (store : DataDir → DataDir) : M unit :=
  λ w, let w := emit (FsWriteFile path) w in
       match data_dir (fs w) with
       | None => (Throw (FsError "ENOENT" path), w)
       | Some dir =>
           if read_only (fs w) then (Throw (FsError "EROFS" path), w)
           else (Return tt,
                 set_fs (mkFS (read_only (fs w)) (Some (store dir)) (tree (fs w))) w)
       end.

(** [fs.readFileSync(path, 'utf-8')] *)
Definition readFileSync {A} (path : string) (content : FS → option (JsonFile A))
  : M (JsonFile A) :=
  λ w, let w := emit (FsReadFile path) w in
       match content (fs w) with
       | Some d => (Return d, w)
       | None => (Throw (FsError "ENOENT" path), w)
       end.

Definition JSON_parse {A} (d : JsonFile A) : M (list A) :=
  match d with
  | Parsed l => ret l
  | Corrupt => throw SyntaxError
  end.

(** [fs.existsSync(path)] answers with this: whether the path leads
    somewhere. *)
Definition exists_at (path : string) (f : FS) : bool :=
  bool_decide (is_Some (entry_at f path)).

(** [fs.unlinkSync(path)]: a regular file is removed; a directory is
    refused ([EISDIR] on Linux), and so is every path on a read-only
    filesystem. *)
Definition unlinkSync (path : string) : M unit :=
  λ w, let w := emit (FsUnlink path) w in
       if read_only (fs w) then (Throw (FsError "EROFS" path), w)
       else match entry_at (fs w) path with
            | Some RegularFile => (Return tt, set_fs (remove_at path (fs w)) w)
            | Some Directory => (Throw (FsError "EISDIR" path), w)
            | None => (Throw (FsError "ENOENT" path), w)
            end.

End fs_prim.

(** *** The Upstash Redis client *)

Module redis.

Definition request {A} (ev : Event) (run : World → Outcome A * World) : M A :=
  λ w, let w := emit ev w in
       match next_fault (kv_faults w) with
       | (Some msg, rest) => (Throw (RedisError msg), set_kv_faults rest w)
       | (None, rest) => run (set_kv_faults rest w)
       end.

(** [redis.get<Project[]>('projects')]: the stored value, or [null]. *)
Definition get_projects (url : string) (token : option string) (key : string)
  : M (option (list Project)) :=
  request (RedisGet url token key) (λ w, (Return (kv_projects (kv w)), w)).

Definition set_projects (url : string) (token : option string) (key : string)
    (v : list Project) : M unit :=
  request (RedisSet url token key)
          (λ w, (Return tt, set_kv (mkKV (Some v) (kv_files (kv w))) w)).

Definition get_files (url : string) (token : option string) (key : string)
  : M (option (list FileMetadata)) :=
  request (RedisGet url token key) (λ w, (Return (kv_files (kv w)), w)).

Definition set_files (url : string) (token : option string) (key : string)
    (v : list FileMetadata) : M unit :=
  request (RedisSet url token key)
          (λ w, (Return tt, set_kv (mkKV (kv_projects (kv w)) (Some v)) w)).

End redis.

(** [del(url)] of [@vercel/blob]; removing a URL that is not there is
    not an error of the service. *)
Definition blob_del (url : string) : M unit :=
  λ w, let w := emit (BlobDel url) w in
       match next_fault (blob_faults w) with
       | (Some msg, rest) => (Throw (BlobError msg), set_blob_faults rest w)
       | (None, rest) => (Return tt, set_blobs (blobs w ∖ {[url]}) (set_blob_faults rest w))
       end.

(** ** [lib/projects-server.ts] *)

Module ProjectsServer.
Import fs_prim.

Definition PROJECTS_KEY : string := "projects".

Definition isVercelPlatform (e : gmap string string) : bool :=
  bool_decide (e !! "VERCEL" = Some "1") || truthy (e !! "VERCEL_ENV").

Definition hasRedisConfig (e : gmap string string) : bool :=
  truthy (or_else (e !! "UPSTASH_REDIS_REST_URL") (e !! "KV_REST_API_URL")).

Definition shouldUseRedis (e : gmap string string) : bool :=
  if isVercelPlatform e then true else hasRedisConfig e.

(** [url && token] as a condition, yielding [{ url, token }]. *)
Definition credentials (url token : option string) : option (string * string) :=
  match url, token with
  | Some u, Some t => if truthy (Some u) && truthy (Some t) then Some (u, t) else None
  | _, _ => None
  end.

Definition getRedisConfig (e : gmap string string) : option (string * string) :=
  match credentials (e !! "KV_REST_API_URL") (e !! "KV_REST_API_TOKEN") with
  | Some config => Some config
  | None => credentials (e !! "UPSTASH_REDIS_REST_URL") (e !! "UPSTASH_REDIS_REST_TOKEN")
  end.

Definition config_required : string :=
  "Redis/KV configuration is required on Vercel. Please set either KV_REST_API_URL/KV_REST_API_TOKEN (for Vercel KV) or UPSTASH_REDIS_REST_URL/UPSTASH_REDIS_REST_TOKEN (for Upstash Redis) in your Vercel environment variables.".

(** The spec's [ConfigurationMissing]. *)
Definition ConfigurationMissing : Error := JsError config_required.

Definition PROJECTS_FILE : string := path_join [DATA_DIR; "projects.json"].

Definition ensureDataDir : M unit :=
  try_catch
    (let* dir := existsSync DATA_DIR (λ f, bool_decide (is_Some (data_dir f))) in
     when_ (negb dir) mkdirSync_data ;;
     let* file := existsSync PROJECTS_FILE (λ f, bool_decide (is_Some (projects_doc f))) in
     when_ (negb file) (writeFileSync PROJECTS_FILE (put_projects (Parsed []))))
    (λ error, throw error).

Definition getAllProjectsLocal : M (list Project) :=
  try_catch
    (ensureDataDir ;;
     let* data := readFileSync PROJECTS_FILE projects_doc in
     JSON_parse data)
    (λ _, ret []).

Definition saveProjectsLocal (projects : list Project) : M unit :=
  try_catch
    (ensureDataDir ;;
     writeFileSync PROJECTS_FILE (put_projects (Parsed projects)))
    (λ error, throw error).

Definition getAllProjectsFromKV : M (list Project) :=
  let* e := process_env in
  if negb (shouldUseRedis e) then getAllProjectsLocal
  else
    try_catch
      (match getRedisConfig e with
       | None =>
           if isVercelPlatform e then throw ConfigurationMissing
           else getAllProjectsLocal
       | Some (url, token) =>
           let* projects := redis.get_projects url (Some token) PROJECTS_KEY in
           ret (default [] projects)
       end)
      (λ error,
         if isVercelPlatform e then throw error
         else getAllProjectsLocal).

Definition saveProjectsToKV (projects : list Project) : M unit :=
  let* e := process_env in
  if negb (shouldUseRedis e) then
    try_catch (saveProjectsLocal projects) (λ error, throw error)
  else
    try_catch
      (match getRedisConfig e with
       | None =>
           if isVercelPlatform e then throw ConfigurationMissing
           else saveProjectsLocal projects
       | Some (url, token) =>
           redis.set_projects url (Some token) PROJECTS_KEY projects
       end)
      (λ error,
         if isVercelPlatform e then throw error
         else try_catch (saveProjectsLocal projects) (λ localError, throw localError)).

Definition getAllProjects : M (list Project) := getAllProjectsFromKV.

(** [projects.find(p => p.id === id) || null] *)
Definition getProject (i : string) : M (option Project) :=
  let* projects := getAllProjectsFromKV in
  ret (find (λ p, bool_decide (id p = i)) projects).

Definition createProject (name : string) (description moduleName supervisorName : option string)
  : M Project :=
  let* projects := getAllProjectsFromKV in
  let* t_id := Date_now in
  let* t_created := Date_now in
  let* t_updated := Date_now in
  let newProject :=
    mkProject (toString t_id) name description moduleName supervisorName
              (toISOString t_created) (toISOString t_updated) in
  saveProjectsToKV (projects ++ [newProject]) ;;
  ret newProject.

(** [Partial<Pick<Project, 'name' | 'description' | 'moduleName' |
    'supervisorName'>>]: [None] is a key that is absent; for the
    optional fields a present key may carry [undefined]. *)
Record Updates := mkUpdates {
  u_name : option string;
  u_description : option (option string);
  u_moduleName : option (option string);
  u_supervisorName : option (option string);
}.

(** [{ ...existingProject, ...updates, updatedAt }] *)
Definition spread (existing : Project) (updates : Updates) (now : string) : Project :=
  mkProject (id existing)
            (default (name existing) (u_name updates))
            (default (description existing) (u_description updates))
            (default (moduleName existing) (u_moduleName updates))
            (default (supervisorName existing) (u_supervisorName updates))
            (createdAt existing)
            now.

(** [projects.findIndex(p => p.id === id)], with [None] for [-1]. *)
Fixpoint findIndex (i : string) (projects : list Project) : option nat :=
  match projects with
  | [] => None
  | p :: rest => if bool_decide (id p = i) then Some 0%nat else S <$> findIndex i rest
  end.

Definition updateProject (i : string) (updates : Updates) : M (option Project) :=
  let* projects := getAllProjectsFromKV in
  match findIndex i projects with
  | None => ret None
  | Some projectIndex =>
      match projects !! projectIndex with
      | None => ret None (* not reached: findIndex answers an index of the list *)
      | Some existingProject =>
          let* t := Date_now in
          let projects' :=
            <[projectIndex := spread existingProject updates (toISOString t)]> projects in
          saveProjectsToKV projects' ;;
          ret (projects' !! projectIndex)
      end
  end.

End ProjectsServer.

(** ** [lib/files.ts] *)

Module Files.
Import fs_prim.

Definition FILES_KEY : string := "files".

Definition isVercelEnvironment (e : gmap string string) : bool :=
  truthy (e !! "BLOB_READ_WRITE_TOKEN") && truthy (e !! "UPSTASH_REDIS_REST_URL").

Definition UPLOADS_DIR : string := "uploads".
Definition FILES_DATA_FILE : string := path_join [DATA_DIR; "files.json"].

Definition ensureFilesDataFile : M unit :=
  let* dir := existsSync DATA_DIR (λ f, bool_decide (is_Some (data_dir f))) in
  when_ (negb dir) mkdirSync_data ;;
  let* file := existsSync FILES_DATA_FILE (λ f, bool_decide (is_Some (files_doc f))) in
  when_ (negb file) (writeFileSync FILES_DATA_FILE (put_files (Parsed []))).

Definition getAllFilesLocal : M (list FileMetadata) :=
  ensureFilesDataFile ;;
  try_catch
    (let* data := readFileSync FILES_DATA_FILE files_doc in
     JSON_parse data)
    (λ _, ret []).

Definition saveFilesLocal (files : list FileMetadata) : M unit :=
  ensureFilesDataFile ;;
  writeFileSync FILES_DATA_FILE (put_files (Parsed files)).

Definition getAllFilesFromKV : M (list FileMetadata) :=
  let* e := process_env in
  if negb (isVercelEnvironment e) then getAllFilesLocal
  else
    try_catch
      (match e !! "UPSTASH_REDIS_REST_URL" with
       | Some url =>
           if truthy (Some url) then
             let* files := redis.get_files url (e !! "UPSTASH_REDIS_REST_TOKEN") FILES_KEY in
             ret (default [] files)
           else ret []
       | None => ret []
       end)
      (λ _, getAllFilesLocal).

Definition saveFilesToKV (files : list FileMetadata) : M unit :=
  let* e := process_env in
  if negb (isVercelEnvironment e) then saveFilesLocal files
  else
    try_catch
      (match e !! "UPSTASH_REDIS_REST_URL" with
       | Some url =>
           if truthy (Some url) then
             redis.set_files url (e !! "UPSTASH_REDIS_REST_TOKEN") FILES_KEY files
           else ret tt
       | None => ret tt
       end)
      (λ _, saveFilesLocal files).

Definition getAllFiles : M (list FileMetadata) := getAllFilesFromKV.

Definition getFilesByProject (project : string) : M (list FileMetadata) :=
  let* files := getAllFiles in
  ret (filter (λ f, projectId f = project) files).

Definition getFilesByCategory (project category : string) : M (list FileMetadata) :=
  let* files := getAllFiles in
  ret (filter (λ f, projectId f = project ∧ categoryId f = category) files).

Definition saveFileMetadata (metadata : FileMetadata) : M unit :=
  let* files := getAllFilesFromKV in
  saveFilesToKV (files ++ [metadata]).

Definition getFilePath (project category file : string) : string :=
  path_join [UPLOADS_DIR; project; category; file].

(** The lookup key of a metadata record. *)
Definition is_file (project category file : string) (f : FileMetadata) : Prop :=
  projectId f = project ∧ categoryId f = category ∧ filename f = file.

Global Instance is_file_dec project category file f :
  Decision (is_file project category file f).
Proof. unfold is_file. apply _. Defined.

Definition deleteFile (project category file : string) : M unit :=
  let* files := getAllFilesFromKV in
  let fileMetadata := find (λ f, bool_decide (is_file project category file f)) files in
  let* e := process_env in
  (if truthy (fileMetadata ≫= blobUrl) && isVercelEnvironment e then
     try_catch (blob_del (default EmptyString (fileMetadata ≫= blobUrl)))
               (λ _, ret tt)
   else if negb (isVercelEnvironment e) then
     let filePath := getFilePath project category file in
     let* present := existsSync filePath (exists_at filePath) in
     when_ present (unlinkSync filePath)
   else ret tt) ;;
  let filtered := filter (λ f, ¬ is_file project category file f) files in
  saveFilesToKV filtered.

Definition getFileBlobUrl (project category file : string) : M (option string) :=
  let* files := getAllFilesFromKV in
  let fileMetadata := find (λ f, bool_decide (is_file project category file f)) files in
  ret (or_else (fileMetadata ≫= blobUrl) None).

End Files.

(** ** [lib/auth-server.ts] *)

Module AuthServer.

Definition ADMIN_COOKIE_NAME : string := "admin_session".

(** [await cookies()] of [next/headers]. *)
Definition cookies : M (gmap string string) :=
  λ w, match cookie_jar w with
       | Some store => (Return store, w)
       | None => (Throw (CookiesError "cookies was called outside a request scope"), w)
       end.

Definition isAdminServer : M bool :=
  try_catch
    (let* cookieStore := cookies in
     ret (bool_decide (cookieStore !! ADMIN_COOKIE_NAME = Some "authenticated")))
    (λ _, ret false).

(** [(process.env.ADMIN_PASSWORD || 'admin123').trim()], read from the
    environment the module is loaded in. *)
Definition ADMIN_PASSWORD (e : gmap string string) : string :=
  trim (default "admin123" (or_else (e !! "ADMIN_PASSWORD") (Some "admin123"))).

Definition verifyAdminPassword (e : gmap string string) (password : string) : bool :=
  if negb (truthy (Some password)) then false
  else String.eqb (trim password) (ADMIN_PASSWORD e).

(** [cookieStore.set(name, value, options)] and
    [cookieStore.delete(name)] on the store [cookies()] gave; the
    store keeps names and values, the attributes of a cookie are not
    part of it. *)
Definition cookieStore_set (name value : string) : M unit :=
  λ w, (Return tt, set_cookie_jar (insert name value <$> cookie_jar w) w).

Definition cookieStore_delete (name : string) : M unit :=
  λ w, (Return tt, set_cookie_jar (delete name <$> cookie_jar w) w).

Definition setAdminSession : M unit :=
  cookies ;; cookieStore_set ADMIN_COOKIE_NAME "authenticated".

Definition clearAdminSession : M unit :=
  cookies ;; cookieStore_delete ADMIN_COOKIE_NAME.

End AuthServer.

(** ** [app/api/projects/route.ts] *)

Module ProjectsRoute.
Import ProjectsServer AuthServer.

(** A property of the parsed body, as far as the handler looks at it:
    [null], a string, or a value without a [trim] method (a number, a
    boolean, an array, an object). *)
Inductive JsValue :=
| JNull
| JString (s : string)
| JOther.

(** What [request.json()] resolves to: [null], an object with its
    properties, or a value that has none of the properties asked for
    (a number, a boolean, a string, an array). *)
Inductive Body :=
| BodyNull
| BodyObject (properties : gmap string JsValue)
| BodyOther.

(** The request: [json] is [None] when [request.json()] rejects. *)
Record NextRequest := mkRequest { json : option Body }.

(** [NextResponse.json(payload, { status })]: the payload is the data,
    or the [error] field of an error object (its [details], [stack] and
    [hint] fields are not kept). *)
Inductive Payload :=
| ProjectList (projects : list Project)
| ProjectCreated (project : Project)
| ErrorPayload (error : string).

Record NextResponse := mkResponse { payload : Payload; status : Z }.

Definition GET : M NextResponse :=
  try_catch
    (let* projects := getAllProjects in
     ret (mkResponse (ProjectList projects) 200))
    (λ _, ret (mkResponse (ErrorPayload "Failed to fetch projects") 500)).

Definition request_json (request : NextRequest) : M Body :=
  match json request with
  | Some body => ret body
  | None => throw SyntaxError
  end.

(** [const { name, description, moduleName, supervisorName } = body] *)
Definition destructure (body : Body) : M (gmap string JsValue) :=
  match body with
  | BodyNull => throw (JsError "Cannot destructure property 'name' of 'body' as it is null.")
  | BodyObject properties => ret properties
  | BodyOther => ret ∅
  end.

(** [value?.trim()] *)
Definition optional_trim (value : option JsValue) : M (option string) :=
  match value with
  | None | Some JNull => ret None
  | Some (JString s) => ret (Some (trim s))
  | Some JOther => throw (JsError "trim is not a function")
  end.

(** [value.trim()] *)
Definition method_trim (value : option JsValue) : M string :=
  match value with
  | Some (JString s) => ret (trim s)
  | _ => throw (JsError "trim is not a function")
  end.

(** [!name || typeof name !== 'string' || name.trim().length === 0] *)
Definition name_missing (name : option JsValue) : bool :=
  match name with
  | Some (JString s) => negb (truthy (Some s)) || (String.length (trim s) =? 0)%nat
  | _ => true
  end.

Definition POST (request : NextRequest) : M NextResponse :=
  try_catch
    (let* isAdmin := isAdminServer in
     if negb isAdmin then
       ret (mkResponse (ErrorPayload "Unauthorized. Admin access required.") 403)
     else
       let* body := try_catch (let* b := request_json request in ret (Some b))
                              (λ _, ret None) in
       match body with
       | None => ret (mkResponse (ErrorPayload "Invalid request body. Expected JSON.") 400)
       | Some body =>
           let* properties := destructure body in
           if name_missing (properties !! "name") then
             ret (mkResponse (ErrorPayload "Project name is required") 400)
           else
             let* name := method_trim (properties !! "name") in
             let* description := optional_trim (properties !! "description") in
             let* moduleName := optional_trim (properties !! "moduleName") in
             let* supervisorName := optional_trim (properties !! "supervisorName") in
             let* project :=
               createProject name description moduleName supervisorName in
             ret (mkResponse (ProjectCreated project) 201)
       end)
    (λ _, ret (mkResponse (ErrorPayload "Failed to create project") 500)).

End ProjectsRoute.

(** * Properties *)

(** ** Vocabulary of the statements *)

Definition fs_event (ev : Event) : bool :=
  match ev with
  | FsExists _ | FsMkdir _ | FsWriteFile _ | FsReadFile _ | FsUnlink _ => true
  | _ => false
  end.

Definition fs_write_event (ev : Event) : bool :=
  match ev with
  | FsMkdir _ | FsWriteFile _ | FsUnlink _ => true
  | _ => false
  end.

Definition redis_set_event (ev : Event) : bool :=
  match ev with
  | RedisSet _ _ _ => true
  | _ => false
  end.

(** The calls that remove uploaded content. *)
Definition content_removal (ev : Event) : bool :=
  match ev with
  | BlobDel _ | FsUnlink _ => true
  | _ => false
  end.

(** The calls that replace the stored file metadata. *)
Definition metadata_write (ev : Event) : bool :=
  match ev with
  | RedisSet _ _ key => String.eqb key Files.FILES_KEY
  | FsWriteFile path => String.eqb path Files.FILES_DATA_FILE
  | _ => false
  end.

(** No request of the schedule is going to be rejected. *)
Definition no_rejection (l : list (option string)) : Prop :=
  Forall (λ f, f = None) l.

(** A host with nothing stored, a writable disk and no scheduled fault. *)
Definition fresh_world (e : gmap string string) (ticks : nat → Z) : World :=
  mkWorld e (mkKV None None) [] ∅ [] (mkFS false None (mkTree ["srv"; "app"] ∅))
          ticks 0 None [].

(** A clock that advances one millisecond at every reading. *)
Definition ticking (start : Z) : nat → Z := λ n, start + Z.of_nat n.

Lemma no_rejection_next (l : list (option string)) :
  no_rejection l → (l = None :: tail l ∨ l = []) ∧ no_rejection (tail l).
Proof.
  intros [|f l' -> Hl']; [by split; [right|constructor]|].
  split; [by left|done].
Qed.

Lemma try_catch_rethrow {A} (m : M A) (w : World) :
  try_catch m (λ error, throw error) w = m w.
Proof. unfold try_catch, throw. by destruct (m w) as [[a|e] w']. Qed.

(** ** The admin-session check *)

Section auth.
Import AuthServer.

(** C10. [isAdminServer] never throws: it answers [true] exactly when
    the cookie store can be read and holds [admin_session] with the
    value ['authenticated'], and [false] otherwise, also when
    [cookies()] itself rejects. *)
Theorem isAdminServer_never_throws (w : World) :
  ∃ b, isAdminServer w = (Return b, w) ∧
       (b = true ↔ ∃ store, cookie_jar w = Some store
                            ∧ store !! ADMIN_COOKIE_NAME = Some "authenticated").
Proof.
  unfold isAdminServer, try_catch, bind, cookies, ret.
  destruct (cookie_jar w) as [store|] eqn:Hjar.
  - eexists; split; [reflexivity|].
    rewrite bool_decide_eq_true. split.
    + intros H. by exists store.
    + by intros (s & [= <-] & H).
  - exists false. split; [done|]. split; [done|]. by intros (s & ? & _).
Qed.

End auth.

(** ** The environment detector of the projects store *)

Section detector.
Import ProjectsServer.

(** A complete credential set: URL and token of the same service. *)
Definition matched_credentials (e : gmap string string) : Prop :=
  (truthy (e !! "KV_REST_API_URL") ∧ truthy (e !! "KV_REST_API_TOKEN"))
  ∨ (truthy (e !! "UPSTASH_REDIS_REST_URL") ∧ truthy (e !! "UPSTASH_REDIS_REST_TOKEN")).

Lemma credentials_Some url token u t :
  credentials url token = Some (u, t) →
  url = Some u ∧ token = Some t ∧ truthy url ∧ truthy token.
Proof.
  unfold credentials. destruct url as [u'|], token as [t'|]; try done.
  destruct (truthy (Some u')) eqn:Hu, (truthy (Some t')) eqn:Ht; try done.
  by intros [= <- <-].
Qed.

Lemma credentials_None url token :
  credentials url token = None ↔ ¬ (truthy url ∧ truthy token).
Proof.
  unfold credentials. destruct url as [u'|], token as [t'|]; simpl;
    try (split; [intros _ [H1 H2]; done | done]).
  destruct (negb (String.eqb u' EmptyString)), (negb (String.eqb t' EmptyString)); simpl;
    split; try done; try (intros H; exfalso; apply H; done); by intros _ [? ?].
Qed.

Lemma getRedisConfig_None (e : gmap string string) :
  getRedisConfig e = None ↔ ¬ matched_credentials e.
Proof.
  unfold getRedisConfig, matched_credentials.
  destruct (credentials (e !! "KV_REST_API_URL") _) as [c|] eqn:Hkv.
  - destruct c as [u t]. apply credentials_Some in Hkv as (_ & _ & Hu & Ht).
    split; [done|]. intros H. exfalso. apply H. by left.
  - apply credentials_None in Hkv. rewrite credentials_None.
    split; [intros H [?|?]; done | intros H ?; apply H; by right].
Qed.

Lemma getRedisConfig_Some (e : gmap string string) u t :
  getRedisConfig e = Some (u, t) →
  u ≠ EmptyString ∧ t ≠ EmptyString
  ∧ ((e !! "KV_REST_API_URL" = Some u ∧ e !! "KV_REST_API_TOKEN" = Some t)
     ∨ (e !! "UPSTASH_REDIS_REST_URL" = Some u ∧ e !! "UPSTASH_REDIS_REST_TOKEN" = Some t)).
Proof.
  assert (Hne : ∀ s, truthy (Some s) → s ≠ EmptyString).
  { intros s Hs ->. done. }
  unfold getRedisConfig.
  destruct (credentials (e !! "KV_REST_API_URL") _) as [c|] eqn:Hkv.
  - intros [= ->]. apply credentials_Some in Hkv as (Hu & Ht & Hu' & Ht').
    rewrite Hu in Hu'. rewrite Ht in Ht'. auto.
  - intros Hup. apply credentials_Some in Hup as (Hu & Ht & Hu' & Ht').
    rewrite Hu in Hu'. rewrite Ht in Ht'. auto.
Qed.

Lemma getRedisConfig_hasRedisConfig (e : gmap string string) c :
  getRedisConfig e = Some c → hasRedisConfig e = true.
Proof.
  destruct c as [u t]. intros H.
  apply getRedisConfig_Some in H as (Hu & _ & H).
  assert (truthy (Some u) = true) as Htu by (simpl; by destruct u).
  unfold hasRedisConfig, or_else.
  destruct (truthy (e !! "UPSTASH_REDIS_REST_URL")) eqn:E; [exact E|].
  destruct H as [[H _]|[H _]]; rewrite H in *; congruence.
Qed.

Lemma getRedisConfig_shouldUseRedis (e : gmap string string) c :
  getRedisConfig e = Some c → shouldUseRedis e = true.
Proof.
  intros H. unfold shouldUseRedis. rewrite (getRedisConfig_hasRedisConfig e c H).
  by destruct (isVercelPlatform e).
Qed.

(** An environment with the URL of the Upstash store and no token. *)
Definition url_without_token : gmap string string :=
  {[ "UPSTASH_REDIS_REST_URL" := "https://eu1-example.upstash.io" ]}.

(** C3, as stated: [hasRedisConfig] and [shouldUseRedis] answer [true]
    on a URL without its token, where no matched pair is present. *)
Lemma hasRedisConfig_url_without_token :
  ¬ (∀ e : gmap string string, hasRedisConfig e = true → matched_credentials e).
Proof.
  intros H. specialize (H url_without_token).
  assert (hasRedisConfig url_without_token = true) as Hh by (by vm_compute).
  destruct (H Hh) as [[H1 _]|[_ H1]]; vm_compute in H1; done.
Qed.

End detector.

(** ** The collection store of the projects *)

Section projects_store.
Import ProjectsServer fs_prim.
Local Arguments isVercelPlatform : simpl never.
Local Arguments hasRedisConfig : simpl never.
Local Arguments getRedisConfig : simpl never.

Ltac run :=
  unfold getAllProjectsFromKV, saveProjectsToKV, getAllProjectsLocal, saveProjectsLocal,
    ensureDataDir, shouldUseRedis, redis.get_projects, redis.set_projects, redis.request,
    existsSync, mkdirSync_data, writeFileSync, readFileSync, JSON_parse, when_,
    process_env, bind, try_catch, ret, throw, next_fault, emit,
    set_fs, set_kv, set_kv_faults in *; simpl in *.

(** The world right after a Redis request was sent and answered. *)
Definition requested (ev : Event) (w : World) : World :=
  set_kv_faults (tail (kv_faults w)) (emit ev w).

(** On a managed platform without a credential pair both operations
    throw the configuration error, and the world is untouched: no
    request, no filesystem call. *)
Lemma projects_managed_without_credentials (w : World) (projects : list Project) :
  isVercelPlatform (env w) = true →
  getRedisConfig (env w) = None →
  getAllProjectsFromKV w = (Throw ConfigurationMissing, w)
  ∧ saveProjectsToKV projects w = (Throw ConfigurationMissing, w).
Proof.
  intros Hv Hc. run. rewrite Hv, Hc. simpl. done.
Qed.

(** With a credential pair, a healthy request is all either operation
    does. *)
Lemma projects_remote_ok (w : World) (projects : list Project) u t rest :
  getRedisConfig (env w) = Some (u, t) →
  kv_faults w = None :: rest ∨ kv_faults w = [] →
  getAllProjectsFromKV w
    = (Return (default [] (kv_projects (kv w))),
       requested (RedisGet u (Some t) PROJECTS_KEY) w)
  ∧ saveProjectsToKV projects w
    = (Return tt,
       set_kv (mkKV (Some projects) (kv_files (kv w)))
              (requested (RedisSet u (Some t) PROJECTS_KEY) w)).
Proof.
  intros Hc Hf. pose proof (getRedisConfig_shouldUseRedis _ _ Hc) as Hs.
  unfold requested. run. rewrite Hs, Hc. simpl.
  destruct Hf as [-> | ->]; simpl; done.
Qed.

(** A failing request on a managed platform: the rejection reaches the
    caller as it is, and nothing but the request happened. *)
Lemma projects_remote_failure_managed (w : World) (projects : list Project) u t msg rest :
  isVercelPlatform (env w) = true →
  getRedisConfig (env w) = Some (u, t) →
  kv_faults w = Some msg :: rest →
  getAllProjectsFromKV w
    = (Throw (RedisError msg), requested (RedisGet u (Some t) PROJECTS_KEY) w)
  ∧ saveProjectsToKV projects w
    = (Throw (RedisError msg), requested (RedisSet u (Some t) PROJECTS_KEY) w).
Proof.
  intros Hv Hc Hf. unfold requested. run. rewrite Hv, Hc. simpl. rewrite Hf. simpl.
  done.
Qed.

(** A failing request elsewhere: the call goes on with the local file,
    from the world the failed request left. *)
Lemma projects_remote_failure_unmanaged (w : World) (projects : list Project) u t msg rest :
  isVercelPlatform (env w) = false →
  getRedisConfig (env w) = Some (u, t) →
  kv_faults w = Some msg :: rest →
  getAllProjectsFromKV w
    = getAllProjectsLocal (requested (RedisGet u (Some t) PROJECTS_KEY) w)
  ∧ saveProjectsToKV projects w
    = saveProjectsLocal projects (requested (RedisSet u (Some t) PROJECTS_KEY) w).
Proof.
  intros Hv Hc Hf. pose proof (getRedisConfig_hasRedisConfig _ _ Hc) as Hh.
  unfold requested. run. rewrite Hv, Hh, Hc. simpl. rewrite Hf. simpl.
  split; [done|].
  match goal with |- match ?m with _ => _ end = _ => by destruct m as [[[]|?] ?] end.
Qed.

(** The fallback is taken for the failing call alone: the next read
    asks the remote store again. *)
Lemma projects_fallback_is_per_call (w : World) u t msg :
  isVercelPlatform (env w) = false →
  getRedisConfig (env w) = Some (u, t) →
  kv_faults w = [Some msg] →
  ∃ local w1 w2,
    getAllProjectsFromKV w = (Return local, w1)
    ∧ getAllProjectsFromKV w1 = (Return (default [] (kv_projects (kv w))), w2).
Proof.
  intros Hv Hc Hf.
  destruct (projects_remote_failure_unmanaged w [] u t msg [] Hv Hc Hf) as [Hread _].
  destruct (getAllProjectsFromKV w) as [r w1] eqn:Hrun.
  assert (env w1 = env w ∧ kv w1 = kv w ∧ kv_faults w1 = [] ∧ ∃ local, r = Return local)
    as (He & Hkv & Hf1 & local & ->).
  { symmetry in Hread. revert Hread. unfold requested. run.
    repeat match goal with
           | |- context [if ?b then _ else _] => destruct b; simpl
           | |- context [match ?o with Some _ => _ | None => _ end] => destruct o; simpl
           | |- context [match ?d with Parsed _ => _ | Corrupt => _ end] => destruct d; simpl
           end; intros [= <- <-]; simpl; rewrite Hf; eauto. }
  rewrite <- He in Hc.
  destruct (projects_remote_ok w1 [] u t [] Hc (or_intror Hf1)) as [Hnext _].
  exists local, w1. eexists. split; [done|]. rewrite Hnext, Hkv. done.
Qed.

(** Without a credential pair off the managed platform the read is the
    read of the local file, whatever [hasRedisConfig] said. *)
Lemma projects_unmanaged_without_credentials (w : World) :
  isVercelPlatform (env w) = false →
  getRedisConfig (env w) = None →
  getAllProjectsFromKV w = getAllProjectsLocal w.
Proof.
  intros Hv Hc. run. rewrite Hv, Hc. simpl.
  destruct (hasRedisConfig (env w)); simpl; [|done].
  repeat match goal with
         | |- context [if ?b then _ else _] => destruct b; simpl
         | |- context [match ?o with Some _ => _ | None => _ end] => destruct o; simpl
         | |- context [match ?d with Parsed _ => _ | Corrupt => _ end] => destruct d; simpl
         end; done.
Qed.

End projects_store.

Section detector_effect.
Import ProjectsServer.

(** C3, amended. [getRedisConfig] yields credentials exactly when a
    complete pair of one service is present, and yields that pair; an
    environment with a partial set is then treated by the projects
    store as one without a remote store: off the managed platform it
    reads the local file, on it the configuration error is thrown. *)
Theorem getRedisConfig_needs_matched_pair (e : gmap string string) :
  (is_Some (getRedisConfig e) ↔ matched_credentials e)
  ∧ (∀ u t, getRedisConfig e = Some (u, t) →
       u ≠ EmptyString ∧ t ≠ EmptyString
       ∧ ((e !! "KV_REST_API_URL" = Some u ∧ e !! "KV_REST_API_TOKEN" = Some t)
          ∨ (e !! "UPSTASH_REDIS_REST_URL" = Some u
             ∧ e !! "UPSTASH_REDIS_REST_TOKEN" = Some t)))
  ∧ (∀ w, env w = e → ¬ matched_credentials e →
       getAllProjectsFromKV w
       = if isVercelPlatform e then (Throw ConfigurationMissing, w)
         else getAllProjectsLocal w).
Proof.
  split; [|split].
  - destruct (getRedisConfig e) as [c|] eqn:Hc.
    + split; [intros _|by eauto].
      destruct (decide (matched_credentials e)) as [|Hn]; [done|].
      apply getRedisConfig_None in Hn. congruence.
    + split; [by intros [? ?]|]. intros Hm. by apply getRedisConfig_None in Hc.
  - apply getRedisConfig_Some.
  - intros w <- Hn. apply getRedisConfig_None in Hn.
    destruct (isVercelPlatform (env w)) eqn:Hv.
    + by apply (projects_managed_without_credentials w []).
    + by apply projects_unmanaged_without_credentials.
Qed.

End detector_effect.

(** ** The collection store of the file metadata *)

Section files_store.
Import Files fs_prim.
Local Arguments isVercelEnvironment : simpl never.

Ltac run_files :=
  unfold getAllFilesFromKV, saveFilesToKV, getAllFilesLocal, saveFilesLocal,
    ensureFilesDataFile, redis.get_files, redis.set_files, redis.request,
    existsSync, mkdirSync_data, writeFileSync, readFileSync, JSON_parse, when_,
    process_env, bind, try_catch, ret, throw, next_fault, emit,
    set_fs, set_kv, set_kv_faults in *; simpl in *.

(** Only [isVercelEnvironment] decides: when it is false both
    operations are the local ones, on every platform. *)
Lemma files_local_backend (w : World) (files : list FileMetadata) :
  isVercelEnvironment (env w) = false →
  getAllFilesFromKV w = getAllFilesLocal w
  ∧ saveFilesToKV files w = saveFilesLocal files w.
Proof. intros He. unfold getAllFilesFromKV, saveFilesToKV, bind, process_env. by rewrite He. Qed.

Lemma isVercelEnvironment_url (e : gmap string string) :
  isVercelEnvironment e = true →
  ∃ url, e !! "UPSTASH_REDIS_REST_URL" = Some url ∧ truthy (Some url) = true.
Proof.
  unfold isVercelEnvironment. intros [_ H]%andb_true_iff.
  destruct (e !! "UPSTASH_REDIS_REST_URL") as [url|]; [by exists url | done].
Qed.

Lemma files_remote_ok (w : World) (files : list FileMetadata) url rest :
  isVercelEnvironment (env w) = true →
  env w !! "UPSTASH_REDIS_REST_URL" = Some url →
  kv_faults w = None :: rest ∨ kv_faults w = [] →
  getAllFilesFromKV w
    = (Return (default [] (kv_files (kv w))),
       requested (RedisGet url (env w !! "UPSTASH_REDIS_REST_TOKEN") FILES_KEY) w)
  ∧ saveFilesToKV files w
    = (Return tt,
       set_kv (mkKV (kv_projects (kv w)) (Some files))
              (requested (RedisSet url (env w !! "UPSTASH_REDIS_REST_TOKEN") FILES_KEY) w)).
Proof.
  intros He Hu Hf. destruct (isVercelEnvironment_url _ He) as (url' & Hu' & Ht).
  rewrite Hu in Hu'. injection Hu' as <-.
  unfold requested. run_files. rewrite He, Hu. simpl in *. rewrite Ht.
  destruct Hf as [-> | ->]; simpl; done.
Qed.

(** A failing request is answered from the local file on every
    platform: the rejection is dropped. *)
Lemma files_remote_failure (w : World) (files : list FileMetadata) url msg rest :
  isVercelEnvironment (env w) = true →
  env w !! "UPSTASH_REDIS_REST_URL" = Some url →
  kv_faults w = Some msg :: rest →
  getAllFilesFromKV w
    = getAllFilesLocal
        (requested (RedisGet url (env w !! "UPSTASH_REDIS_REST_TOKEN") FILES_KEY) w)
  ∧ saveFilesToKV files w
    = saveFilesLocal files
        (requested (RedisSet url (env w !! "UPSTASH_REDIS_REST_TOKEN") FILES_KEY) w).
Proof.
  intros He Hu Hf. destruct (isVercelEnvironment_url _ He) as (url' & Hu' & Ht).
  rewrite Hu in Hu'. injection Hu' as <-.
  unfold requested, getAllFilesFromKV, saveFilesToKV, redis.get_files, redis.set_files,
    redis.request, process_env, bind, try_catch, next_fault.
  rewrite He, Hu. simpl in *. rewrite Ht. simpl. rewrite Hf. done.
Qed.

(** The platform plays no part: on the managed platform without the
    Upstash URL both operations are the local ones. *)
Lemma files_managed_without_credentials (w : World) (files : list FileMetadata) :
  ProjectsServer.isVercelPlatform (env w) = true →
  env w !! "UPSTASH_REDIS_REST_URL" = None →
  getAllFilesFromKV w = getAllFilesLocal w
  ∧ saveFilesToKV files w = saveFilesLocal files w.
Proof.
  intros _ Hu. apply files_local_backend.
  unfold isVercelEnvironment. rewrite Hu. apply andb_false_r.
Qed.

End files_store.

Definition sample_file : FileMetadata :=
  mkFileMetadata "1700000000123" "1700000000000" "reports" "1700000000123-draft.pdf"
                 "draft.pdf" 48213 "application/pdf" "2023-11-14T22:13:20.123Z" None.

Definition stale_file : FileMetadata :=
  mkFileMetadata "1690000000456" "1690000000000" "slides" "1690000000456-intro.pptx"
                 "intro.pptx" 910224 "application/vnd.ms-powerpoint"
                 "2023-07-22T04:26:40.456Z" None.

(** The managed platform, no key-value credentials at all. *)
Definition managed_without_credentials : gmap string string := {[ "VERCEL" := "1" ]}.

(** The same platform with the read-only disk it has in production. *)
Definition managed_read_only : World :=
  mkWorld managed_without_credentials (mkKV None None) [] ∅ [] (mkFS true None (mkTree ["var"; "task"] ∅))
          (ticking 1700000000000) 0 None [].

(** C1 at the files collection: on the managed platform without
    credentials the projects store throws the configuration error, the
    files store does not; it reads and writes the local
    [data/files.json], and on a read-only disk it fails in [mkdirSync]
    with the error of the filesystem. *)
Theorem files_store_managed_without_credentials :
  let w := fresh_world managed_without_credentials (ticking 1700000000000) in
  ProjectsServer.isVercelPlatform (env w) = true
  ∧ ProjectsServer.getRedisConfig (env w) = None
  ∧ fst (ProjectsServer.getAllProjectsFromKV w) = Throw ProjectsServer.ConfigurationMissing
  ∧ fst (Files.getAllFilesFromKV w) = Return []
  ∧ log (snd (Files.getAllFilesFromKV w))
    = [FsExists "data"; FsMkdir "data"; FsExists "data/files.json";
       FsWriteFile "data/files.json"; FsReadFile "data/files.json"]
  ∧ fst (Files.saveFilesToKV [sample_file] w) = Return tt
  ∧ files_doc (fs (snd (Files.saveFilesToKV [sample_file] w))) = Some (Parsed [sample_file])
  ∧ fst (Files.getAllFilesFromKV managed_read_only) = Throw (FsError "EROFS" "data")
  ∧ log (snd (Files.saveFilesToKV [sample_file] managed_read_only))
    = [FsExists "data"; FsMkdir "data"].
Proof. cbv zeta. repeat split; vm_compute; reflexivity. Qed.

(** The files store has a detector of its own, [isVercelEnvironment],
    which never looks at a token: with the blob token and the Upstash
    URL alone it sends its request, without a token. *)
Lemma files_url_without_token_uses_redis :
  let e : gmap string string :=
    {[ "BLOB_READ_WRITE_TOKEN" := "vercel_blob_rw_example";
       "UPSTASH_REDIS_REST_URL" := "https://eu1-example.upstash.io" ]} in
  Files.isVercelEnvironment e = true
  ∧ ProjectsServer.getRedisConfig e = None
  ∧ log (snd (Files.getAllFilesFromKV (fresh_world e (ticking 1700000000000))))
    = [RedisGet "https://eu1-example.upstash.io" None "files"].
Proof. cbv zeta. repeat split; vm_compute; reflexivity. Qed.

(** The managed platform with Upstash credentials and the blob token. *)
Definition managed_with_credentials : gmap string string :=
  {[ "VERCEL" := "1";
     "BLOB_READ_WRITE_TOKEN" := "vercel_blob_rw_example";
     "UPSTASH_REDIS_REST_URL" := "https://eu1-example.upstash.io";
     "UPSTASH_REDIS_REST_TOKEN" := "example-token" ]}.

(** A managed host whose next Redis request is rejected, with an older
    [data/files.json] on disk. *)
Definition managed_world_redis_down : World :=
  mkWorld managed_with_credentials (mkKV None (Some [sample_file]))
          [Some "fetch failed"] ∅ []
          (mkFS false (Some (mkDataDir None (Some (Parsed [stale_file]))))
                (mkTree ["var"; "task"] ∅))
          (ticking 1700000000000) 0 None [].

(** C2 at the files collection: on the managed platform a rejected
    request does not reach the caller; the files store answers from,
    and writes to, the local file. *)
Theorem files_store_remote_failure_managed :
  let w := managed_world_redis_down in
  ProjectsServer.isVercelPlatform (env w) = true
  ∧ fst (ProjectsServer.getAllProjectsFromKV w) = Throw (RedisError "fetch failed")
  ∧ fst (Files.getAllFilesFromKV w) = Return [stale_file]
  ∧ log (snd (Files.getAllFilesFromKV w))
    = [RedisGet "https://eu1-example.upstash.io" (Some "example-token") "files";
       FsExists "data"; FsExists "data/files.json"; FsReadFile "data/files.json"]
  ∧ fst (Files.saveFilesToKV [] w) = Return tt
  ∧ files_doc (fs (snd (Files.saveFilesToKV [] w))) = Some (Parsed [])
  ∧ kv_files (kv (snd (Files.saveFilesToKV [] w))) = Some [sample_file].
Proof. cbv zeta. repeat split; vm_compute; reflexivity. Qed.

(** ** The local file backend *)

(** What [readAll] of the local backend sees: a missing or unparsable
    document reads as the empty collection. *)
Definition local_projects (f : FS) : list Project :=
  match projects_doc f with
  | Some (Parsed l) => l
  | _ => []
  end.

Definition local_files (f : FS) : list FileMetadata :=
  match files_doc f with
  | Some (Parsed l) => l
  | _ => []
  end.

(** [w] after filesystem calls [evs] that left the filesystem [f]:
    everything else is as in [w]. *)
Definition with_fs (f : FS) (evs : list Event) (w : World) : World :=
  mkWorld (env w) (kv w) (kv_faults w) (blobs w) (blob_faults w) f
          (clock w) (reads w) (cookie_jar w) (log w ++ evs).

Section local_backend.
Import ProjectsServer Files fs_prim.

Ltac run_local :=
  unfold getAllProjectsLocal, saveProjectsLocal, ensureDataDir,
    getAllFilesLocal, saveFilesLocal, ensureFilesDataFile,
    existsSync, mkdirSync_data, writeFileSync, readFileSync, JSON_parse, when_,
    bind, try_catch, ret, throw, emit, set_fs, with_fs,
    projects_doc, files_doc, local_projects, local_files in *; cbn in *.

Local Tactic Notation "crush_local" integer(n) :=
  run_local; rewrite <- ?app_assoc; cbn;
  do n eexists; (split; [reflexivity|]); repeat split; eauto; repeat constructor.

(** The local read of the projects never throws, answers the local
    collection and does not change it. *)
Lemma getAllProjectsLocal_total (w : World) :
  ∃ f evs,
    getAllProjectsLocal w = (Return (local_projects (fs w)), with_fs f evs w)
    ∧ local_projects f = local_projects (fs w)
    ∧ files_doc f = files_doc (fs w)
    ∧ tree f = tree (fs w)
    ∧ read_only f = read_only (fs w)
    ∧ Forall (λ ev, fs_event ev = true) evs
    ∧ (is_Some (projects_doc (fs w)) → Forall (λ ev, fs_write_event ev = false) evs).
Proof.
  destruct w as [e k kf b bf [ro [[pj fj]|] up] c r cj l].
  - destruct pj as [[ps|]|], ro; crush_local 2;
      match goal with H : is_Some None |- _ => by destruct H end.
  - destruct ro; crush_local 2;
      match goal with H : is_Some None |- _ => by destruct H end.
Qed.

(** A document that parses is what the local read answers, without
    any write. *)
Lemma getAllProjectsLocal_parsed (w : World) (l : list Project) :
  projects_doc (fs w) = Some (Parsed l) →
  getAllProjectsLocal w
  = (Return l,
     with_fs (fs w) [FsExists DATA_DIR; FsExists PROJECTS_FILE; FsReadFile PROJECTS_FILE] w).
Proof.
  destruct w as [e k kf b bf [ro [[pj fj]|] up] c r cj l']; [|done].
  run_local. intros ->. simpl. by rewrite <- !app_assoc.
Qed.

(** The local write of the projects: on a writable disk it succeeds
    and leaves the document holding the sequence; on a read-only disk
    it throws and the filesystem is as before. *)
Lemma saveProjectsLocal_any (w : World) (projects : list Project) :
  ∃ r f evs,
    saveProjectsLocal projects w = (r, with_fs f evs w)
    ∧ files_doc f = files_doc (fs w)
    ∧ tree f = tree (fs w)
    ∧ read_only f = read_only (fs w)
    ∧ Forall (λ ev, fs_event ev = true) evs
    ∧ ((r = Return tt ∧ read_only (fs w) = false
        ∧ projects_doc f = Some (Parsed projects))
       ∨ ((∃ e, r = Throw e) ∧ read_only (fs w) = true ∧ f = fs w)).
Proof.
  destruct w as [e k kf b bf [ro [[pj fj]|] up] c r cj l].
  - destruct pj as [[ps|]|], ro; crush_local 3.
  - destruct ro; crush_local 3.
Qed.

Lemma getAllFilesLocal_parsed (w : World) (l : list FileMetadata) :
  files_doc (fs w) = Some (Parsed l) →
  getAllFilesLocal w
  = (Return l,
     with_fs (fs w) [FsExists DATA_DIR; FsExists FILES_DATA_FILE; FsReadFile FILES_DATA_FILE] w).
Proof.
  destruct w as [e k kf b bf [ro [[pj fj]|] up] c r cj l']; [|done].
  run_local. intros ->. simpl. by rewrite <- !app_assoc.
Qed.

(** The local read of the file metadata on a writable disk. *)
Lemma getAllFilesLocal_writable (w : World) :
  read_only (fs w) = false →
  ∃ f evs,
    getAllFilesLocal w = (Return (local_files (fs w)), with_fs f evs w)
    ∧ local_files f = local_files (fs w)
    ∧ projects_doc f = projects_doc (fs w)
    ∧ tree f = tree (fs w)
    ∧ read_only f = false
    ∧ is_Some (files_doc f)
    ∧ Forall (λ ev, fs_event ev = true) evs
    ∧ Forall (λ ev, content_removal ev = false) evs
    ∧ (is_Some (files_doc (fs w)) → Forall (λ ev, fs_write_event ev = false) evs).
Proof.
  destruct w as [e k kf b bf [ro [[pj fj]|] up] c r cj l]; simpl; intros ->.
  - destruct fj as [[ps|]|]; crush_local 2;
      match goal with H : is_Some None |- _ => by destruct H end.
  - crush_local 2; match goal with H : is_Some None |- _ => by destruct H end.
Qed.

Lemma saveFilesLocal_writable (w : World) (files : list FileMetadata) :
  read_only (fs w) = false →
  ∃ f evs,
    saveFilesLocal files w = (Return tt, with_fs f (evs ++ [FsWriteFile FILES_DATA_FILE]) w)
    ∧ files_doc f = Some (Parsed files)
    ∧ projects_doc f = projects_doc (fs w)
    ∧ tree f = tree (fs w)
    ∧ read_only f = false
    ∧ Forall (λ ev, fs_event ev = true) evs
    ∧ Forall (λ ev, content_removal ev = false) evs
    ∧ (is_Some (files_doc (fs w)) → Forall (λ ev, fs_write_event ev = false) evs).
Proof.
  destruct w as [e k kf b bf [ro [[pj fj]|] up] c r cj l]; simpl; intros ->.
  - destruct fj as [[ps|]|]; run_local; rewrite <- ?app_assoc; cbn.
    + exists (mkFS false (Some (mkDataDir pj (Some (Parsed files)))) up),
        [FsExists DATA_DIR; FsExists FILES_DATA_FILE].
      repeat split; repeat constructor.
    + exists (mkFS false (Some (mkDataDir pj (Some (Parsed files)))) up),
        [FsExists DATA_DIR; FsExists FILES_DATA_FILE].
      repeat split; repeat constructor.
    + exists (mkFS false (Some (mkDataDir pj (Some (Parsed files)))) up),
        [FsExists DATA_DIR; FsExists FILES_DATA_FILE; FsWriteFile FILES_DATA_FILE].
      repeat split; repeat constructor.
      match goal with H : is_Some None |- _ => by destruct H end.
  - run_local; rewrite <- ?app_assoc; cbn.
    exists (mkFS false (Some (mkDataDir None (Some (Parsed files)))) up),
      [FsExists DATA_DIR; FsMkdir DATA_DIR; FsExists FILES_DATA_FILE;
       FsWriteFile FILES_DATA_FILE].
    repeat split; repeat constructor;
      match goal with H : is_Some None |- _ => by destruct H end.
Qed.

End local_backend.

(** ** Write, then read *)

Inductive Backend := RemoteKV | LocalFile.

Section roundtrip.
Import ProjectsServer Files.

(** The backend the projects store works on in [w]: the remote store
    when a credential pair is set and no request is going to fail, the
    local file off the managed platform without a pair, on a writable
    disk. *)
Definition projects_on (b : Backend) (w : World) : Prop :=
  match b with
  | RemoteKV => is_Some (getRedisConfig (env w)) ∧ no_rejection (kv_faults w)
  | LocalFile =>
      isVercelPlatform (env w) = false ∧ getRedisConfig (env w) = None
      ∧ read_only (fs w) = false
  end.

Definition files_on (b : Backend) (w : World) : Prop :=
  match b with
  | RemoteKV => isVercelEnvironment (env w) = true ∧ no_rejection (kv_faults w)
  | LocalFile => isVercelEnvironment (env w) = false ∧ read_only (fs w) = false
  end.

(** Where a collection sits after a write through backend [b]. *)
Definition projects_held (b : Backend) (w : World) : option (list Project) :=
  match b with
  | RemoteKV => kv_projects (kv w)
  | LocalFile => match projects_doc (fs w) with Some (Parsed l) => Some l | _ => None end
  end.

Definition files_held (b : Backend) (w : World) : option (list FileMetadata) :=
  match b with
  | RemoteKV => kv_files (kv w)
  | LocalFile => match files_doc (fs w) with Some (Parsed l) => Some l | _ => None end
  end.

(** Off the managed platform and without a credential pair the write
    is the local write, tried a second time after a failure when a URL
    alone made [hasRedisConfig] true. *)
Lemma projects_save_unmanaged_without_credentials (w : World) (projects : list Project) :
  isVercelPlatform (env w) = false →
  getRedisConfig (env w) = None →
  saveProjectsToKV projects w
  = if hasRedisConfig (env w)
    then try_catch (saveProjectsLocal projects) (λ _, saveProjectsLocal projects) w
    else saveProjectsLocal projects w.
Proof.
  intros Hv Hc. unfold saveProjectsToKV, bind, process_env, shouldUseRedis.
  rewrite Hv, Hc. destruct (hasRedisConfig (env w)); simpl.
  - unfold try_catch at 1 3.
    destruct (saveProjectsLocal projects w) as [[[]|e] w1]; [done|].
    apply try_catch_rethrow.
  - apply try_catch_rethrow.
Qed.

Lemma projects_roundtrip (b : Backend) (w : World) (projects : list Project) :
  projects_on b w →
  ∃ w1 w2,
    saveProjectsToKV projects w = (Return tt, w1)
    ∧ projects_held b w1 = Some projects
    ∧ getAllProjectsFromKV w1 = (Return projects, w2).
Proof.
  destruct b; simpl.
  - intros [[[u t] Hc] Hf]. destruct (no_rejection_next _ Hf) as [Hnext Hf'].
    destruct (projects_remote_ok w projects u t _ Hc Hnext) as [_ Hsave].
    match type of Hsave with _ = (_, ?w1) =>
      destruct (projects_remote_ok w1 [] u t _ Hc (proj1 (no_rejection_next _ Hf')))
        as [Hread _]
    end.
    eexists _, _. split; [exact Hsave|]. split; [done|]. exact Hread.
  - intros (Hv & Hc & Hro).
    destruct (saveProjectsLocal_any w projects)
      as (r & f & evs & Hsave & _ & _ & _ & _ & [(-> & _ & Hdoc)|(_ & Hro' & _)]);
      [|congruence].
    exists (with_fs f evs w). eexists. split; [|split].
    + rewrite projects_save_unmanaged_without_credentials by done.
      unfold try_catch. rewrite Hsave. by destruct (hasRedisConfig (env w)).
    + simpl. by rewrite Hdoc.
    + rewrite projects_unmanaged_without_credentials by done.
      by apply getAllProjectsLocal_parsed.
Qed.

Lemma files_roundtrip (b : Backend) (w : World) (files : list FileMetadata) :
  files_on b w →
  ∃ w1 w2,
    saveFilesToKV files w = (Return tt, w1)
    ∧ files_held b w1 = Some files
    ∧ getAllFilesFromKV w1 = (Return files, w2).
Proof.
  destruct b; simpl.
  - intros [He Hf]. destruct (isVercelEnvironment_url _ He) as (url & Hu & _).
    destruct (no_rejection_next _ Hf) as [Hnext Hf'].
    destruct (files_remote_ok w files url _ He Hu Hnext) as [_ Hsave].
    match type of Hsave with _ = (_, ?w1) =>
      destruct (files_remote_ok w1 [] url _ He Hu (proj1 (no_rejection_next _ Hf')))
        as [Hread _]
    end.
    eexists _, _. split; [exact Hsave|]. split; [done|]. exact Hread.
  - intros [He Hro].
    destruct (saveFilesLocal_writable w files Hro) as (f & evs & Hsave & Hdoc & _).
    eexists _, _. split; [|split].
    + destruct (files_local_backend w files He) as [_ ->]. exact Hsave.
    + simpl. by rewrite Hdoc.
    + match goal with |- ?m ?w1 = _ => destruct (files_local_backend w1 [] He) as [-> _] end.
      by apply getAllFilesLocal_parsed.
Qed.

(** C8. On either backend, and for both collections, [writeAll] of a
    sequence succeeds, leaves the sequence in that backend, and the
    [readAll] that follows answers the sequence. *)
Theorem writeAll_readAll_roundtrip
    (b : Backend) (w : World) (projects : list Project) (files : list FileMetadata) :
  (projects_on b w →
   ∃ w1 w2,
     saveProjectsToKV projects w = (Return tt, w1)
     ∧ projects_held b w1 = Some projects
     ∧ getAllProjectsFromKV w1 = (Return projects, w2))
  ∧ (files_on b w →
     ∃ w1 w2,
       saveFilesToKV files w = (Return tt, w1)
       ∧ files_held b w1 = Some files
       ∧ getAllFilesFromKV w1 = (Return files, w2)).
Proof. split; [apply projects_roundtrip | apply files_roundtrip]. Qed.

End roundtrip.

(** ** The projects store in any world *)

Section projects_any.
Import ProjectsServer.

(** What a call of the projects store leaves alone. *)
Definition projects_call_frame (w w1 : World) : Prop :=
  env w1 = env w ∧ clock w1 = clock w ∧ reads w1 = reads w
  ∧ cookie_jar w1 = cookie_jar w ∧ blobs w1 = blobs w ∧ blob_faults w1 = blob_faults w
  ∧ tree (fs w1) = tree (fs w) ∧ read_only (fs w1) = read_only (fs w)
  ∧ files_doc (fs w1) = files_doc (fs w) ∧ kv_files (kv w1) = kv_files (kv w).

Lemma fs_event_not_set ev : fs_event ev = true → redis_set_event ev = false.
Proof. by destruct ev. Qed.

Lemma fs_events_not_set evs :
  Forall (λ ev, fs_event ev = true) evs → Forall (λ ev, redis_set_event ev = false) evs.
Proof. intros H. eapply Forall_impl; [exact H|]. apply fs_event_not_set. Qed.

Ltac finish_any :=
  simpl in *; repeat split; eauto; try done;
  try (intros ? [= <-]; first [by left | by right]);
  try (exists []; rewrite app_nil_r; split; [done|split; [constructor|by constructor]]);
  try (rewrite <- ?app_assoc; eexists; split; [reflexivity|]; simpl; split;
       [ repeat constructor; try done; by apply fs_events_not_set
       | intros; repeat constructor; by eauto ]).

(** [readAll] in any world: it changes neither store, and what it
    answers is the remote collection or the local one. *)
Lemma getAllProjectsFromKV_any (w : World) r w1 :
  getAllProjectsFromKV w = (r, w1) →
  projects_call_frame w w1
  ∧ kv w1 = kv w
  ∧ local_projects (fs w1) = local_projects (fs w)
  ∧ (∀ ps, r = Return ps →
       ps = default [] (kv_projects (kv w)) ∨ ps = local_projects (fs w))
  ∧ ∃ evs, log w1 = log w ++ evs
           ∧ Forall (λ ev, redis_set_event ev = false) evs
           ∧ (is_Some (projects_doc (fs w)) → Forall (λ ev, fs_write_event ev = false) evs).
Proof.
  unfold projects_call_frame.
  destruct (getRedisConfig (env w)) as [[u t]|] eqn:Hc.
  - destruct (kv_faults w) as [|[msg|] rest] eqn:Hf.
    + destruct (projects_remote_ok w [] u t [] Hc (or_intror Hf)) as [-> _].
      intros [= <- <-]. finish_any.
    + destruct (isVercelPlatform (env w)) eqn:Hv.
      * destruct (projects_remote_failure_managed w [] u t msg rest Hv Hc Hf) as [-> _].
        intros [= <- <-]. finish_any.
      * destruct (projects_remote_failure_unmanaged w [] u t msg rest Hv Hc Hf) as [-> _].
        match goal with |- getAllProjectsLocal ?w0 = _ → _ =>
          destruct (getAllProjectsLocal_total w0)
            as (f & evs & -> & Hl & Hfd & Hup & Hro & Hev & Hwr)
        end.
        intros [= <- <-]. finish_any.
    + destruct (projects_remote_ok w [] u t rest Hc (or_introl Hf)) as [-> _].
      intros [= <- <-]. finish_any.
  - destruct (isVercelPlatform (env w)) eqn:Hv.
    + destruct (projects_managed_without_credentials w [] Hv Hc) as [-> _].
      intros [= <- <-]. finish_any.
    + rewrite projects_unmanaged_without_credentials by done.
      destruct (getAllProjectsLocal_total w)
        as (f & evs & -> & Hl & Hfd & Hup & Hro & Hev & Hwr).
      intros [= <- <-]. finish_any.
Qed.

Lemma local_projects_parsed f l : projects_doc f = Some (Parsed l) → local_projects f = l.
Proof. unfold local_projects. by intros ->. Qed.

(** [writeAll] in any world: each store keeps what it held or takes
    the sequence. *)
Lemma saveProjectsToKV_any (w : World) (projects : list Project) r w1 :
  saveProjectsToKV projects w = (r, w1) →
  projects_call_frame w w1
  ∧ (kv_projects (kv w1) = kv_projects (kv w) ∨ kv_projects (kv w1) = Some projects)
  ∧ (local_projects (fs w1) = local_projects (fs w) ∨ local_projects (fs w1) = projects).
Proof.
  unfold projects_call_frame.
  assert (Hlocal : ∀ w0 r0 w2, saveProjectsLocal projects w0 = (r0, w2) →
            (env w2 = env w0 ∧ clock w2 = clock w0 ∧ reads w2 = reads w0
             ∧ cookie_jar w2 = cookie_jar w0 ∧ blobs w2 = blobs w0
             ∧ blob_faults w2 = blob_faults w0
             ∧ tree (fs w2) = tree (fs w0) ∧ read_only (fs w2) = read_only (fs w0)
             ∧ files_doc (fs w2) = files_doc (fs w0) ∧ kv w2 = kv w0)
            ∧ (local_projects (fs w2) = local_projects (fs w0)
               ∨ local_projects (fs w2) = projects)).
  { intros w0 r0 w2.
    destruct (saveProjectsLocal_any w0 projects)
      as (r' & f & evs & -> & Hfd & Hup & Hro & _ & Hres).
    intros [= <- <-]. simpl.
    split; [by repeat split|].
    destruct Hres as [(_ & _ & Hdoc)|(_ & _ & ->)]; [right|by left].
    by apply local_projects_parsed. }
  destruct (getRedisConfig (env w)) as [[u t]|] eqn:Hc.
  - destruct (kv_faults w) as [|[msg|] rest] eqn:Hf.
    + destruct (projects_remote_ok w projects u t [] Hc (or_intror Hf)) as [_ ->].
      intros [= <- <-]. simpl. repeat split; eauto.
    + destruct (isVercelPlatform (env w)) eqn:Hv.
      * destruct (projects_remote_failure_managed w projects u t msg rest Hv Hc Hf) as [_ ->].
        intros [= <- <-]. simpl. repeat split; eauto.
      * destruct (projects_remote_failure_unmanaged w projects u t msg rest Hv Hc Hf)
          as [_ ->].
        intros Hs. apply Hlocal in Hs as [(?&?&?&?&?&?&?&?&?&Hkv) Hl]. simpl in *.
        rewrite Hkv. repeat split; eauto.
    + destruct (projects_remote_ok w projects u t rest Hc (or_introl Hf)) as [_ ->].
      intros [= <- <-]. simpl. repeat split; eauto.
  - destruct (isVercelPlatform (env w)) eqn:Hv.
    + destruct (projects_managed_without_credentials w projects Hv Hc) as [_ ->].
      intros [= <- <-]. repeat split; eauto.
    + rewrite projects_save_unmanaged_without_credentials by done.
      destruct (hasRedisConfig (env w)).
      * unfold try_catch.
        destruct (saveProjectsLocal projects w) as [[[]|e] w0] eqn:Hfirst.
        -- intros [= <- <-]. apply Hlocal in Hfirst as [(?&?&?&?&?&?&?&?&?&Hkv) Hl].
           rewrite Hkv. repeat split; eauto.
        -- intros Hsecond.
           destruct (saveProjectsLocal_any w projects)
             as (r' & f & evs & Heq & _ & _ & _ & _ & Hres).
           rewrite Hfirst in Heq. injection Heq as <- ->.
           destruct Hres as [([=] & _)|(_ & _ & ->)].
           apply Hlocal in Hsecond as [(?&?&?&?&?&?&?&?&?&Hkv) Hl]. simpl in *.
           rewrite Hkv. repeat split; eauto.
      * intros Hs. apply Hlocal in Hs as [(?&?&?&?&?&?&?&?&?&Hkv) Hl].
        rewrite Hkv. repeat split; eauto.
Qed.

End projects_any.

(** ** The project repository *)

Section repository.
Import ProjectsServer.

Lemma findIndex_None (i : string) (projects : list Project) :
  findIndex i projects = None ↔ ∀ p, p ∈ projects → id p ≠ i.
Proof.
  induction projects as [|q rest IH]; simpl.
  - split; [intros _ p Hp; by apply elem_of_nil in Hp | done].
  - case_bool_decide as Hq.
    + split; [done|]. intros H. exfalso. apply (H q); [by left | done].
    + destruct (findIndex i rest) as [k|]; simpl.
      * split; [done|]. intros H. exfalso.
        assert (Some k = None) as [=]. apply IH. intros p Hp. apply H. by right.
      * split; [|done]. intros _ p [->|Hp]%elem_of_cons; [done|].
        by apply IH.
Qed.

Lemma findIndex_Some (i : string) (projects : list Project) (k : nat) :
  findIndex i projects = Some k →
  ∃ p, projects !! k = Some p ∧ id p = i
       ∧ ∀ j q, (j < k)%nat → projects !! j = Some q → id q ≠ i.
Proof.
  revert k. induction projects as [|q rest IH]; simpl; [done|]. intros k.
  case_bool_decide as Hq.
  - intros [= <-]. exists q. repeat split; [done|]. intros j q' Hj. lia.
  - destruct (findIndex i rest) as [k'|]; simpl; [|done]. intros [= <-].
    destruct (IH k' eq_refl) as (p & Hp & Hid & Hfirst).
    exists p. repeat split; [done..|].
    intros [|j] q' Hj; simpl; [by intros [= <-]|].
    apply Hfirst. lia.
Qed.

(** C7. When the collection that [readAll] answers holds no record
    with the given id, [updateProject] returns [null] (a value, not a
    throw) and ends in the world the read left: neither store is
    changed, no [set] request is sent, and with the local document in
    place no filesystem write happens either. *)
Theorem updateProject_not_found
    (w : World) (i : string) (updates : Updates) (projects : list Project) (w1 : World) :
  getAllProjectsFromKV w = (Return projects, w1) →
  (∀ p, p ∈ projects → id p ≠ i) →
  updateProject i updates w = (Return None, w1)
  ∧ kv w1 = kv w
  ∧ local_projects (fs w1) = local_projects (fs w)
  ∧ ∃ evs, log w1 = log w ++ evs
           ∧ Forall (λ ev, redis_set_event ev = false) evs
           ∧ (is_Some (projects_doc (fs w)) → Forall (λ ev, fs_write_event ev = false) evs).
Proof.
  intros Hread Hnone. apply findIndex_None in Hnone.
  split.
  - unfold updateProject, bind. rewrite Hread, Hnone. done.
  - apply getAllProjectsFromKV_any in Hread as (_ & Hkv & Hlocal & _ & Hlog). done.
Qed.

(** *** A store that works *)

(** No request is going to fail, the disk takes writes, and the
    managed platform has its credential pair. *)
Definition projects_store_ok (w : World) : Prop :=
  no_rejection (kv_faults w) ∧ read_only (fs w) = false
  ∧ (isVercelPlatform (env w) = true → is_Some (getRedisConfig (env w))).

(** The collection such a store holds. *)
Definition projects_collection (w : World) : list Project :=
  match getRedisConfig (env w) with
  | Some _ => default [] (kv_projects (kv w))
  | None => local_projects (fs w)
  end.

Lemma readAll_ok (w : World) :
  projects_store_ok w →
  ∃ w1,
    getAllProjectsFromKV w = (Return (projects_collection w), w1)
    ∧ projects_store_ok w1
    ∧ projects_collection w1 = projects_collection w
    ∧ env w1 = env w ∧ clock w1 = clock w ∧ reads w1 = reads w.
Proof.
  unfold projects_store_ok, projects_collection. intros (Hf & Hro & Hcfg).
  destruct (no_rejection_next _ Hf) as [Hnext Hf'].
  destruct (getRedisConfig (env w)) as [[u t]|] eqn:Hc.
  - destruct (projects_remote_ok w [] u t _ Hc Hnext) as [-> _].
    eexists. split; [done|]. simpl. rewrite Hc. done.
  - destruct (isVercelPlatform (env w)) eqn:Hv.
    { destruct (Hcfg eq_refl) as [? [=]]. }
    rewrite projects_unmanaged_without_credentials by done.
    destruct (getAllProjectsLocal_total w) as (f & evs & -> & Hl & _ & _ & Hro' & _).
    eexists. split; [done|]. simpl. rewrite Hc, Hv. repeat split; try done; congruence.
Qed.

Lemma writeAll_ok (w : World) (projects : list Project) :
  projects_store_ok w →
  ∃ w1,
    saveProjectsToKV projects w = (Return tt, w1)
    ∧ projects_store_ok w1
    ∧ projects_collection w1 = projects
    ∧ env w1 = env w ∧ clock w1 = clock w ∧ reads w1 = reads w.
Proof.
  unfold projects_store_ok, projects_collection. intros (Hf & Hro & Hcfg).
  destruct (no_rejection_next _ Hf) as [Hnext Hf'].
  destruct (getRedisConfig (env w)) as [[u t]|] eqn:Hc.
  - destruct (projects_remote_ok w projects u t _ Hc Hnext) as [_ ->].
    eexists. split; [done|]. simpl. rewrite Hc. done.
  - destruct (isVercelPlatform (env w)) eqn:Hv.
    { destruct (Hcfg eq_refl) as [? [=]]. }
    rewrite projects_save_unmanaged_without_credentials by done.
    destruct (saveProjectsLocal_any w projects)
      as (r & f & evs & Hsave & _ & _ & Hro' & _ & [(-> & _ & Hdoc)|(_ & ? & _)]);
      [|congruence].
    exists (with_fs f evs w). split.
    + unfold try_catch. rewrite Hsave. by destruct (hasRedisConfig (env w)).
    + simpl. rewrite Hc, Hv. repeat split; try done; try congruence.
      by apply local_projects_parsed.
Qed.

(** The record [createProject] builds from three readings of the
    clock. *)
Definition created (w : World) (name : string) (description moduleName supervisorName : option string)
  : Project :=
  mkProject (toString (clock w (reads w))) name description moduleName supervisorName
            (toISOString (clock w (S (reads w))))
            (toISOString (clock w (S (S (reads w))))).

(** On a store that works [createProject] returns the record it
    built and appends it to the collection. *)
Lemma createProject_ok (w : World) name description moduleName supervisorName :
  projects_store_ok w →
  ∃ w',
    createProject name description moduleName supervisorName w
    = (Return (created w name description moduleName supervisorName), w')
    ∧ projects_collection w'
      = projects_collection w ++ [created w name description moduleName supervisorName]
    ∧ projects_store_ok w'
    ∧ env w' = env w ∧ clock w' = clock w ∧ reads w' = (3 + reads w)%nat.
Proof.
  intros Hok. destruct (readAll_ok w Hok) as (w1 & Hread & Hok1 & Hcol & He & Hc & Hr).
  set (w3 := set_reads (S (S (S (reads w1))))
                (set_reads (S (S (reads w1))) (set_reads (S (reads w1)) w1))).
  assert (projects_store_ok w3) as Hok3 by exact Hok1.
  destruct (writeAll_ok w3
              (projects_collection w ++ [created w name description moduleName supervisorName])
              Hok3) as (w' & Hsave & Hok' & Hcol' & He' & Hc' & Hr').
  exists w'. split.
  - unfold createProject, bind, Date_now. rewrite Hread. simpl.
    unfold created in Hsave. rewrite <- Hc, <- Hr in Hsave. fold w3. rewrite Hsave. simpl.
    unfold created. by rewrite <- Hc, <- Hr.
  - split; [exact Hcol'|]. split; [exact Hok'|].
    split; [rewrite He'; exact He|]. split; [rewrite Hc'; exact Hc|].
    rewrite Hr'. simpl. by rewrite Hr.
Qed.

End repository.

Section repository_claims.
Import ProjectsServer.

(** When the two [new Date()] readings agree, so do the timestamps. *)
Lemma createProject_equal_timestamps (w : World) (title : string)
    (about module_ supervisor : option string) :
  projects_store_ok w →
  clock w (S (reads w)) = clock w (S (S (reads w))) →
  ∃ p w',
    createProject title about module_ supervisor w = (Return p, w')
    ∧ id p = toString (clock w (reads w))
    ∧ name p = title
    ∧ createdAt p = updatedAt p.
Proof.
  intros Hok Hsame.
  destruct (createProject_ok w title about module_ supervisor Hok) as (w' & Hrun & _).
  eexists _, w'. split; [exact Hrun|]. simpl. by rewrite Hsame.
Qed.

(** A clock that moves on by one millisecond after [n] readings. *)
Definition ticks_after (n : nat) (start : Z) : nat → Z :=
  λ k, if (k <? n)%nat then start else start + 1.

(** C5 at a clock that ticks between the two [new Date()] calls: the
    record has its id and the given name, and [updatedAt] is one
    millisecond after [createdAt]. *)
Theorem createProject_timestamps_may_differ :
  let w := fresh_world ∅ (ticks_after 2 1700000000000) in
  let r := fst (createProject "Thesis" None None None w) in
  r = Return (mkProject "1700000000000" "Thesis" None None None
                        "2023-11-14T22:13:20.000Z" "2023-11-14T22:13:20.001Z")
  ∧ ∃ p, r = Return p ∧ createdAt p ≠ updatedAt p.
Proof.
  cbv zeta.
  assert (fst (createProject "Thesis" None None None
                 (fresh_world ∅ (ticks_after 2 1700000000000)))
          = Return (mkProject "1700000000000" "Thesis" None None None
                              "2023-11-14T22:13:20.000Z" "2023-11-14T22:13:20.001Z")) as Hrun.
  { vm_compute. reflexivity. }
  split; [exact Hrun|]. eexists. split; [exact Hrun|]. simpl. discriminate.
Qed.


End repository_claims.

(** ** Uniqueness of the project ids *)

Section uniqueness.
Import ProjectsServer.

Definition ids (l : list Project) : list string := id <$> l.

(** No two records of a stored collection share an id: in the remote
    value and in the local document. *)
Definition unique_ids (w : World) : Prop :=
  NoDup (ids (default [] (kv_projects (kv w))))
  ∧ NoDup (ids (local_projects (fs w))).

(** Between two calls anything but the stored collections may change:
    the environment, the faults to come, the clock, the disk. *)
Definition same_collections (w w' : World) : Prop :=
  kv_projects (kv w') = kv_projects (kv w)
  ∧ local_projects (fs w') = local_projects (fs w).

(** The worlds that calls of [createProject] and [updateProject] lead
    to from empty collections, with the readings of the clock at which
    the [createProject] calls began. *)
Inductive reachable : list Z → World → Prop :=
| reach_empty w :
    default [] (kv_projects (kv w)) = [] → local_projects (fs w) = [] →
    reachable [] w
| reach_create ts w title about module_ supervisor r w' :
    reachable ts w →
    createProject title about module_ supervisor w = (r, w') →
    reachable (clock w (reads w) :: ts) w'
| reach_update ts w i updates r w' :
    reachable ts w →
    updateProject i updates w = (r, w') →
    reachable ts w'
| reach_drift ts w w' :
    reachable ts w → same_collections w w' → reachable ts w'.

(** Ids are distinct and each is the rendering of a recorded reading. *)
Definition ids_from (ts : list Z) (l : list Project) : Prop :=
  NoDup (ids l) ∧ ∀ x, x ∈ ids l → ∃ t, t ∈ ts ∧ x = toString t.

Lemma ids_from_nil ts : ids_from ts [].
Proof. split; [constructor|]. intros x Hx. by apply elem_of_nil in Hx. Qed.

Lemma ids_from_mono ts t l : ids_from ts l → ids_from (t :: ts) l.
Proof.
  intros [Hnd Hin]. split; [done|]. intros x Hx.
  destruct (Hin x Hx) as (t' & Ht' & ->). exists t'. split; [by right|done].
Qed.

Lemma ids_from_snoc ts t l p :
  ids_from ts l → t ∉ ts → id p = toString t → ids_from (t :: ts) (l ++ [p]).
Proof.
  intros [Hnd Hin] Hfresh Hid. unfold ids_from, ids. rewrite fmap_app. simpl. split.
  - apply NoDup_app. split; [done|]. split; [|apply NoDup_singleton].
    intros x Hx Hp. apply list_elem_of_singleton in Hp. subst x.
    destruct (Hin _ Hx) as (t' & Ht' & Heq). rewrite Hid in Heq.
    apply (inj pretty) in Heq. by subst t'.
  - intros x [Hx|Hx]%elem_of_app.
    + destruct (Hin x Hx) as (t' & Ht' & ->). exists t'. split; [by right|done].
    + apply list_elem_of_singleton in Hx. subst x. exists t. split; [by left|done].
Qed.

Lemma ids_insert l k existing updates now :
  l !! k = Some existing → ids (<[k := spread existing updates now]> l) = ids l.
Proof.
  intros Hk. unfold ids. rewrite list_fmap_insert. apply list_insert_id.
  rewrite list_lookup_fmap, Hk. done.
Qed.

Lemma ids_from_insert ts l k existing updates now :
  ids_from ts l → l !! k = Some existing →
  ids_from ts (<[k := spread existing updates now]> l).
Proof. intros H Hk. unfold ids_from. by rewrite (ids_insert _ _ _ _ _ Hk). Qed.

Definition stored_ids_from (ts : list Z) (w : World) : Prop :=
  ids_from ts (default [] (kv_projects (kv w)))
  ∧ ids_from ts (local_projects (fs w)).

Lemma stored_ids_from_same ts w w' :
  same_collections w w' → stored_ids_from ts w → stored_ids_from ts w'.
Proof. intros [Hkv Hl] [H1 H2]. unfold stored_ids_from. by rewrite Hkv, Hl. Qed.

Lemma stored_ids_from_mono ts t w : stored_ids_from ts w → stored_ids_from (t :: ts) w.
Proof. intros [H1 H2]. split; by apply ids_from_mono. Qed.

(** A write of a good sequence keeps the stores good. *)
Lemma stored_ids_from_save ts w projects r w' :
  stored_ids_from ts w → ids_from ts projects →
  saveProjectsToKV projects w = (r, w') →
  stored_ids_from ts w'.
Proof.
  intros [H1 H2] Hp Hsave.
  apply saveProjectsToKV_any in Hsave as (_ & [Hkv|Hkv] & [Hl|Hl]);
    unfold stored_ids_from; rewrite Hkv, Hl; done.
Qed.

Lemma reachable_stored_ids_from ts w :
  reachable ts w → NoDup ts → stored_ids_from ts w.
Proof.
  induction 1 as [w Hkv Hl|ts w title about module_ supervisor r w' Hreach IH Hrun
                 |ts w i updates r w' Hreach IH Hrun|ts w w' Hreach IH Hsame]; intros Hnd.
  - unfold stored_ids_from. rewrite Hkv, Hl. split; apply ids_from_nil.
  - apply NoDup_cons in Hnd as [Hfresh Hnd]. specialize (IH Hnd).
    unfold createProject, bind, Date_now in Hrun.
    destruct (getAllProjectsFromKV w) as [[projects|e] w1] eqn:Hread.
    + apply getAllProjectsFromKV_any in Hread
        as ((_ & Hc & Hr & _) & Hkv & Hl & Hfrom & _).
      simpl in Hrun. rewrite Hc, Hr in Hrun.
      match type of Hrun with
      | (let (_, _) := saveProjectsToKV ?ps ?w3 in _) = _ =>
          destruct (saveProjectsToKV ps w3) as [r3 w3'] eqn:Hsave;
          assert (w' = w3') as -> by (destruct r3; by injection Hrun);
          assert (stored_ids_from (clock w (reads w) :: ts) w3) as Hw3
      end.
      { apply stored_ids_from_mono. destruct IH as [H1 H2].
        unfold stored_ids_from. simpl. by rewrite Hkv, Hl. }
      eapply stored_ids_from_save; [exact Hw3| |exact Hsave].
      apply ids_from_snoc; [|done|done].
      destruct IH as [H1 H2]. by destruct (Hfrom _ eq_refl) as [-> | ->].
    + injection Hrun as <- <-.
      apply getAllProjectsFromKV_any in Hread as (_ & Hkv & Hl & _).
      apply stored_ids_from_mono. destruct IH as [H1 H2].
      unfold stored_ids_from. by rewrite Hkv, Hl.
  - specialize (IH Hnd). unfold updateProject, bind, Date_now in Hrun.
    destruct (getAllProjectsFromKV w) as [[projects|e] w1] eqn:Hread.
    + apply getAllProjectsFromKV_any in Hread as (_ & Hkv & Hl & Hfrom & _).
      assert (stored_ids_from ts w1) as Hw1.
      { destruct IH as [H1 H2]. unfold stored_ids_from. by rewrite Hkv, Hl. }
      assert (ids_from ts projects) as Hps.
      { destruct IH as [H1 H2]. by destruct (Hfrom _ eq_refl) as [-> | ->]. }
      destruct (findIndex i projects) as [k|]; [|by injection Hrun as <- <-].
      destruct (projects !! k) as [existing|] eqn:Hk; [|by injection Hrun as <- <-].
      simpl in Hrun.
      match type of Hrun with
      | (let (_, _) := saveProjectsToKV ?ps ?w2 in _) = _ =>
          destruct (saveProjectsToKV ps w2) as [r2 w2'] eqn:Hsave;
          assert (w' = w2') as -> by (destruct r2; by injection Hrun)
      end.
      eapply stored_ids_from_save; [|by apply ids_from_insert|exact Hsave].
      exact Hw1.
    + injection Hrun as <- <-.
      apply getAllProjectsFromKV_any in Hread as (_ & Hkv & Hl & _).
      destruct IH as [H1 H2]. unfold stored_ids_from. by rewrite Hkv, Hl.
  - eapply stored_ids_from_same; [exact Hsame|]. by apply IH.
Qed.

(** C4, amended. In every world that calls of [createProject] and
    [updateProject] lead to from empty collections, no two stored
    records share an id, provided no two [createProject] calls began
    at the same reading of the clock. *)
Theorem ids_unique_when_clock_readings_differ (ts : list Z) (w : World) :
  reachable ts w → NoDup ts → unique_ids w.
Proof.
  intros Hreach Hnd.
  destruct (reachable_stored_ids_from ts w Hreach Hnd) as [[H1 _] [H2 _]].
  by split.
Qed.

End uniqueness.

Section uniqueness_counterexample.
Import ProjectsServer.

(** A host whose clock shows the same millisecond at every reading. *)
Definition same_millisecond : World := fresh_world ∅ (λ _, 1700000000000).

Definition after_two_creates : World :=
  snd (createProject "Essay" None None None
         (snd (createProject "Thesis" None None None same_millisecond))).

Lemma after_two_creates_reachable :
  reachable [1700000000000; 1700000000000] after_two_creates.
Proof.
  pose (w1 := snd (createProject "Thesis" None None None same_millisecond)).
  pose proof (reach_empty same_millisecond eq_refl eq_refl) as H0.
  pose proof (reach_create [] same_millisecond "Thesis" None None None _ _ H0
                (surjective_pairing _)) as H1.
  pose proof (reach_create _ w1 "Essay" None None None _ _ H1
                (surjective_pairing _)) as H2.
  assert ([clock w1 (reads w1); clock same_millisecond (reads same_millisecond)]
          = [1700000000000; 1700000000000]) as Hts by (vm_compute; reflexivity).
  rewrite Hts in H2. exact H2.
Qed.

(** C4, as stated: two [createProject] calls within one millisecond
    leave two records with the same id. *)
Lemma ids_not_unique_within_one_millisecond :
  ¬ (∀ ts w, reachable ts w → unique_ids w).
Proof.
  intros H. destruct (H _ _ after_two_creates_reachable) as [_ Hlocal].
  assert (ids (local_projects (fs after_two_creates))
          = ["1700000000000"; "1700000000000"]) as Hids by (vm_compute; reflexivity).
  rewrite Hids in Hlocal. apply NoDup_cons in Hlocal as [Hnot _].
  apply Hnot. by left.
Qed.

End uniqueness_counterexample.

(** ** Deleting a file *)

Section delete_file.
Import Files fs_prim.

(** No Redis request is going to fail and the disk takes writes; the
    blob service may fail as it likes. *)
Definition files_store_ok (w : World) : Prop :=
  no_rejection (kv_faults w) ∧ read_only (fs w) = false.

(** The metadata collection such a store holds. *)
Definition files_collection (w : World) : list FileMetadata :=
  if isVercelEnvironment (env w) then default [] (kv_files (kv w))
  else local_files (fs w).

Lemma quiet_not_metadata_write evs :
  Forall (λ ev, fs_event ev = true) evs →
  Forall (λ ev, fs_write_event ev = false) evs →
  Forall (λ ev, metadata_write ev = false) evs.
Proof.
  intros H1 H2. induction H1 as [|ev evs Hev _ IH]; [constructor|].
  apply Forall_cons in H2 as [Hw H2]. constructor; [|by apply IH].
  by destruct ev.
Qed.

(** What the three steps of [deleteFile] share about a step from [w]
    to [w1] with events [evs]. *)
Definition files_step (w w1 : World) (evs : list Event) : Prop :=
  files_store_ok w1 ∧ env w1 = env w ∧ log w1 = log w ++ evs.

Lemma files_readAll_ok (w : World) :
  files_store_ok w →
  ∃ w1 evs,
    getAllFilesFromKV w = (Return (files_collection w), w1)
    ∧ files_step w w1 evs
    ∧ files_collection w1 = files_collection w
    ∧ blobs w1 = blobs w ∧ blob_faults w1 = blob_faults w
    ∧ tree (fs w1) = tree (fs w)
    ∧ (isVercelEnvironment (env w) = false → is_Some (files_doc (fs w1)))
    ∧ Forall (λ ev, content_removal ev = false) evs
    ∧ (isVercelEnvironment (env w) = true ∨ is_Some (files_doc (fs w)) →
       Forall (λ ev, metadata_write ev = false) evs).
Proof.
  unfold files_step, files_store_ok, files_collection. intros [Hf Hro].
  destruct (no_rejection_next _ Hf) as [Hnext Hf'].
  destruct (isVercelEnvironment (env w)) eqn:He.
  - destruct (isVercelEnvironment_url _ He) as (url & Hu & _).
    destruct (files_remote_ok w [] url _ He Hu Hnext) as [-> _].
    eexists _, _. split; [done|]. cbn. rewrite He.
    repeat split; try done; by repeat constructor.
  - destruct (files_local_backend w [] He) as [-> _].
    destruct (getAllFilesLocal_writable w Hro)
      as (f & evs & -> & Hl & _ & Hup & Hro' & Hdoc & Hev & Hrm & Hwr).
    exists (with_fs f evs w), evs. split; [done|]. cbn. rewrite He.
    repeat split; try done.
    intros [[=]|Hsome]. apply quiet_not_metadata_write; [done|by apply Hwr].
Qed.

Lemma files_writeAll_ok (w : World) (files : list FileMetadata) :
  files_store_ok w →
  ∃ w1 evs last,
    saveFilesToKV files w = (Return tt, w1)
    ∧ files_step w w1 (evs ++ [last])
    ∧ files_collection w1 = files
    ∧ blobs w1 = blobs w ∧ tree (fs w1) = tree (fs w)
    ∧ metadata_write last = true
    ∧ Forall (λ ev, content_removal ev = false) evs
    ∧ (isVercelEnvironment (env w) = true ∨ is_Some (files_doc (fs w)) →
       Forall (λ ev, metadata_write ev = false) evs).
Proof.
  unfold files_step, files_store_ok, files_collection. intros [Hf Hro].
  destruct (no_rejection_next _ Hf) as [Hnext Hf'].
  destruct (isVercelEnvironment (env w)) eqn:He.
  - destruct (isVercelEnvironment_url _ He) as (url & Hu & _).
    destruct (files_remote_ok w files url _ He Hu Hnext) as [_ ->].
    eexists _, [], _. split; [done|]. cbn. rewrite He.
    repeat split; try done; by repeat constructor.
  - destruct (files_local_backend w files He) as [_ ->].
    destruct (saveFilesLocal_writable w files Hro)
      as (f & evs & -> & Hdoc & _ & Hup & Hro' & Hev & Hrm & Hwr).
    exists (with_fs f (evs ++ [FsWriteFile FILES_DATA_FILE]) w), evs, (FsWriteFile FILES_DATA_FILE).
    split; [done|]. cbn. rewrite He.
    repeat split; try done.
    + unfold local_files. by rewrite Hdoc.
    + intros [[=]|Hsome]. apply quiet_not_metadata_write; [done|by apply Hwr].
Qed.

(** The blob branch: [del] is sent, and a rejection is swallowed. *)
Lemma blob_del_tolerant (url : string) (w : World) :
  ∃ w2,
    try_catch (blob_del url) (λ _, ret tt) w = (Return tt, w2)
    ∧ kv w2 = kv w ∧ kv_faults w2 = kv_faults w ∧ fs w2 = fs w ∧ env w2 = env w
    ∧ log w2 = log w ++ [BlobDel url]
    ∧ (head (blob_faults w) = None ∨ head (blob_faults w) = Some None → url ∉ blobs w2).
Proof.
  unfold try_catch, blob_del, next_fault, ret. cbn.
  destruct (blob_faults w) as [|[msg|] rest]; cbn; eexists; (split; [reflexivity|]); cbn;
    repeat split; try done;
    first [ by intros [[=]|[=]]
          | intros _; apply not_elem_of_difference; right; by apply elem_of_singleton ].
Qed.

(** *** The paths of uploaded content *)

Fixpoint has_slash (s : string) : bool :=
  match s with
  | EmptyString => false
  | String c rest => is_slash c || has_slash rest
  end.

(** A name: a string that is one segment of a path and names an
    entry, which the empty string, [.] and [..] do not. *)
Definition is_name (s : string) : bool :=
  negb (String.eqb s EmptyString) && negb (String.eqb s ".")
  && negb (String.eqb s "..") && negb (has_slash s).

(** The path leads below the [uploads] directory of [process.cwd()],
    or to that directory, and what is there is not a directory. *)
Definition upload_path (f : FS) (path : string) : Prop :=
  (∃ rest, locate (tree f) path = cwd (tree f) ++ UPLOADS_DIR :: rest)
  ∧ entry_at f path ≠ Some Directory.

Lemma split_path_no_slash (s : string) : has_slash s = false → split_path s = [s].
Proof.
  induction s as [|c rest IH]; [done|]. simpl.
  intros [-> Hrest]%orb_false_iff. by rewrite IH.
Qed.

Lemma split_path_segment (a b : string) :
  has_slash a = false → split_path (a +:+ "/" +:+ b) = a :: split_path b.
Proof.
  induction a as [|c rest IH]; [done|]. simpl.
  intros [-> Hrest]%orb_false_iff. by rewrite IH.
Qed.

Lemma split_path_concat (a : string) (b : string) (rest : list string) :
  has_slash a = false →
  split_path (String.concat "/" (a :: b :: rest)) = a :: split_path (String.concat "/" (b :: rest)).
Proof. intros Ha. by apply split_path_segment. Qed.

Lemma ends_with_slash_no_slash (s : string) : has_slash s = false → ends_with_slash s = false.
Proof.
  induction s as [|c rest IH]; [done|]. simpl.
  intros [Hc Hrest]%orb_false_iff. destruct rest; [done|]. by apply IH.
Qed.

Lemma ends_with_slash_app (a b : string) :
  b ≠ EmptyString → ends_with_slash (a +:+ b) = ends_with_slash b.
Proof.
  intros Hb. induction a as [|c rest IH]; [done|]. simpl.
  destruct (rest +:+ b) eqn:Hrest; [|exact IH].
  destruct rest; [done|discriminate Hrest].
Qed.

Lemma append_not_empty (a b : string) : a ≠ EmptyString → a +:+ b ≠ EmptyString.
Proof. by destruct a. Qed.

Lemma append_empty_r (a : string) : a +:+ EmptyString = a.
Proof.
  induction a as [|c rest IH]; [done|].
  change (String c (rest +:+ EmptyString) = String c rest). by rewrite IH.
Qed.

Lemma is_name_spec (s : string) :
  is_name s = true →
  s ≠ EmptyString ∧ String.eqb s EmptyString = false ∧ String.eqb s "." = false
  ∧ String.eqb s ".." = false ∧ has_slash s = false.
Proof.
  unfold is_name. rewrite !andb_true_iff, !negb_true_iff. intros [[[H1 H2] H3] H4].
  split; [|done]. intros ->. discriminate H1.
Qed.

Lemma normalizeString_name (above : bool) (res : list string) (s : string) (rest : list string) :
  is_name s = true →
  normalizeString above res (s :: rest) = normalizeString above (s :: res) rest.
Proof. intros (_ & H0 & H1 & H2 & _)%is_name_spec. cbn [normalizeString]. by rewrite H0, H1, H2. Qed.

Lemma walk_name (place : list string) (s : string) (rest : list string) :
  is_name s = true → walk place (s :: rest) = walk (s :: place) rest.
Proof. intros (_ & H0 & H1 & H2 & _)%is_name_spec. cbn [walk]. by rewrite H0, H1, H2. Qed.

(** For a key made of names [path.join] has nothing to normalise. *)
Lemma getFilePath_names (project category file : string) :
  is_name project = true → is_name category = true → is_name file = true →
  getFilePath project category file
  = "uploads/" +:+ project +:+ "/" +:+ category +:+ "/" +:+ file.
Proof.
  intros Hpn Hcn Hfn.
  destruct (is_name_spec _ Hpn) as (Hp & _ & _ & _ & Hps).
  destruct (is_name_spec _ Hcn) as (Hc & _ & _ & _ & Hcs).
  destruct (is_name_spec _ Hfn) as (Hf & _ & _ & _ & Hfs).
  unfold getFilePath, path_join, UPLOADS_DIR.
  rewrite !filter_cons_True, filter_nil by done.
  set (joined := String.concat "/" ["uploads"; project; category; file]).
  assert (split_path joined = ["uploads"; project; category; file]) as Hsplit.
  { unfold joined. rewrite !split_path_concat by done. by rewrite split_path_no_slash. }
  assert (ends_with_slash joined = false) as Hend.
  { unfold joined. cbn [String.concat].
    rewrite (ends_with_slash_app "uploads") by done.
    rewrite (ends_with_slash_app "/") by by apply append_not_empty.
    rewrite (ends_with_slash_app project) by done.
    rewrite (ends_with_slash_app "/") by by apply append_not_empty.
    rewrite (ends_with_slash_app category) by done.
    rewrite (ends_with_slash_app "/") by done.
    by apply ends_with_slash_no_slash. }
  unfold path_normalize. rewrite Hsplit, Hend.
  replace (String.eqb joined EmptyString) with false by done.
  replace (is_absolute joined) with false by done.
  cbn [negb]. rewrite !normalizeString_name by done.
  cbn [normalizeString rev app]. fold joined.
  replace (String.eqb joined EmptyString) with false by done.
  by rewrite append_empty_r.
Qed.

(** ... and the path leads to [uploads/project/category/file] below
    [process.cwd()]. *)
Lemma locate_names (t : Tree) (project category file : string) :
  is_name project = true → is_name category = true → is_name file = true →
  locate t (getFilePath project category file)
  = cwd t ++ [UPLOADS_DIR; project; category; file]
  ∧ ends_with_slash (getFilePath project category file) = false.
Proof.
  intros Hp Hc Hf. rewrite getFilePath_names by done.
  destruct (is_name_spec _ Hp) as (Hp' & Hp0 & Hp1 & Hp2 & Hps).
  destruct (is_name_spec _ Hc) as (Hc' & Hc0 & Hc1 & Hc2 & Hcs).
  destruct (is_name_spec _ Hf) as (Hf' & Hf0 & Hf1 & Hf2 & Hfs).
  split.
  - unfold locate.
    change ("uploads/" +:+ project +:+ "/" +:+ category +:+ "/" +:+ file)
      with (String.concat "/" ["uploads"; project; category; file]).
    rewrite !split_path_concat by done. rewrite split_path_no_slash by done.
    replace (is_absolute (String.concat "/" ["uploads"; project; category; file]))
      with false by done.
    rewrite !walk_name by done. cbn [walk rev]. rewrite rev_involutive.
    by rewrite <- !app_assoc.
  - rewrite (ends_with_slash_app "uploads/") by by apply append_not_empty.
    rewrite (ends_with_slash_app project) by done.
    rewrite (ends_with_slash_app "/") by by apply append_not_empty.
    rewrite (ends_with_slash_app category) by done.
    rewrite (ends_with_slash_app "/") by done.
    by apply ends_with_slash_no_slash.
Qed.

(** Below [uploads] the tree alone says what exists. *)
Lemma entry_of_upload (f : FS) (rest : list string) :
  entry_of f (cwd (tree f) ++ UPLOADS_DIR :: rest)
  = nodes (tree f) !! (cwd (tree f) ++ UPLOADS_DIR :: rest).
Proof.
  unfold entry_of, projects_place, files_place, data_place.
  rewrite bool_decide_false.
  2:{ intros Hpre%prefix_length. rewrite length_app in Hpre. simpl in Hpre. lia. }
  rewrite <- !app_assoc.
  rewrite !bool_decide_false; [done|..]; by intros [=]%app_inv_head.
Qed.

Lemma remove_at_upload (f : FS) (path : string) (rest : list string) :
  locate (tree f) path = cwd (tree f) ++ UPLOADS_DIR :: rest →
  remove_at path f
  = mkFS (read_only f) (data_dir f)
         (mkTree (cwd (tree f)) (delete (locate (tree f) path) (nodes (tree f)))).
Proof.
  intros Hplace. unfold remove_at, projects_place, files_place, data_place.
  rewrite Hplace, <- !app_assoc.
  rewrite !bool_decide_false; [done|..]; by intros [=]%app_inv_head.
Qed.

Lemma entry_at_remove_at (f : FS) (path : string) (rest : list string) :
  locate (tree f) path = cwd (tree f) ++ UPLOADS_DIR :: rest →
  entry_at (remove_at path f) path = None
  ∧ data_dir (remove_at path f) = data_dir f
  ∧ read_only (remove_at path f) = read_only f
  ∧ cwd (tree (remove_at path f)) = cwd (tree f).
Proof.
  intros Hplace. rewrite (remove_at_upload _ _ rest Hplace).
  split; [|done]. rewrite Hplace.
  set (f' := mkFS _ _ _). unfold entry_at.
  change (locate (tree f') path) with (locate (tree f) path). rewrite Hplace.
  change (cwd (tree f)) with (cwd (tree f')).
  rewrite entry_of_upload. cbn. by rewrite lookup_delete_eq.
Qed.

(** What the [data] directory holds does not matter to such a path. *)
Lemma upload_path_tree (f f' : FS) (path : string) :
  tree f' = tree f →
  (∃ rest, locate (tree f) path = cwd (tree f) ++ UPLOADS_DIR :: rest) →
  entry_at f' path = entry_at f path.
Proof.
  intros Ht [rest Hplace]. unfold entry_at. rewrite Ht, Hplace.
  rewrite <- Ht at 1 2. rewrite entry_of_upload, Ht. by rewrite entry_of_upload.
Qed.

(** The local branch: the regular file is unlinked when it is there,
    and nothing happens when nothing is there. *)
Lemma unlink_if_present (path : string) (w : World) :
  read_only (fs w) = false →
  upload_path (fs w) path →
  ∃ w2 evs,
    bind (existsSync path (exists_at path))
         (λ present, when_ present (unlinkSync path)) w = (Return tt, w2)
    ∧ kv w2 = kv w ∧ kv_faults w2 = kv_faults w ∧ env w2 = env w
    ∧ data_dir (fs w2) = data_dir (fs w) ∧ read_only (fs w2) = false
    ∧ blobs w2 = blobs w
    ∧ cwd (tree (fs w2)) = cwd (tree (fs w))
    ∧ entry_at (fs w2) path = None
    ∧ log w2 = log w ++ evs
    ∧ (entry_at (fs w) path = Some RegularFile → FsUnlink path ∈ evs)
    ∧ Forall (λ ev, metadata_write ev = false) evs.
Proof.
  intros Hro [[rest Hplace] Hdir].
  unfold bind, existsSync, exists_at, when_, unlinkSync, ret.
  cbn -[entry_at remove_at].
  destruct (entry_at (fs w) path) as [[|]|] eqn:Hentry; [| |].
  - rewrite bool_decide_true by done. cbn -[entry_at remove_at]. rewrite Hro, Hentry.
    eexists _, [FsExists path; FsUnlink path]. split; [reflexivity|].
    cbn -[entry_at remove_at].
    destruct (entry_at_remove_at (fs w) path rest Hplace) as (Hgone & Hdd & Hro' & Hcwd).
    do 3 (split; [done|]). split; [exact Hdd|]. split; [by rewrite Hro'|].
    split; [done|]. split; [exact Hcwd|]. split; [exact Hgone|].
    split; [by rewrite <- app_assoc|]. split; [intros _; right; by left|].
    by repeat constructor.
  - done.
  - rewrite bool_decide_false by (by intros [? ?]). cbn -[entry_at].
    eexists _, [FsExists path]. split; [reflexivity|].
    cbn -[entry_at].
    do 7 (split; [done|]). split; [exact Hentry|]. split; [done|].
    split; [done|]. by repeat constructor.
Qed.

Lemma locate_cwd (t t' : Tree) (path : string) :
  cwd t' = cwd t → locate t' path = locate t path.
Proof. unfold locate. by intros ->. Qed.

Lemma upload_path_frame (f f' : FS) (path : string) :
  tree f' = tree f → upload_path f path → upload_path f' path.
Proof.
  intros Ht [Hplace Hdir]. split; [by rewrite Ht|].
  by rewrite (upload_path_tree f f' path Ht Hplace).
Qed.


End delete_file.

Section delete_file_counterexample.
Import Files fs_prim.





End delete_file_counterexample.

(** ** The statements at concrete worlds *)

Section witnesses.
Import ProjectsServer Files fs_prim.

Definition thesis : Project :=
  mkProject "1700000000000" "Thesis" None None None
            "2023-11-14T22:13:20.000Z" "2023-11-14T22:13:20.000Z".

(** A development host, with [process.cwd()] at [/srv/app]: no
    environment variable set, the data directory in place with one
    project and one file record, whose content is no longer there
    (nothing exists outside the data directory). *)
Definition development_host : World :=
  mkWorld ∅ (mkKV None None) [] ∅ []
          (mkFS false (Some (mkDataDir (Some (Parsed [thesis])) (Some (Parsed [sample_file]))))
                (mkTree ["srv"; "app"] ∅))
          (ticking 1700000600000) 0 None [].

Definition rename : Updates := mkUpdates (Some "Thesis v2") None None None.

Lemma development_host_ok : projects_store_ok development_host.
Proof. split; [constructor|]. split; [done|]. by vm_compute. Defined.


(** C7 on the development host: an id no record carries. *)
Lemma updateProject_not_found_witness :
  let w := development_host in
  let w1 := snd (getAllProjectsFromKV w) in
  getAllProjectsFromKV w = (Return [thesis], w1)
  ∧ updateProject "1700000000001" rename w = (Return None, w1)
  ∧ kv w1 = kv w
  ∧ local_projects (fs w1) = [thesis].
Proof.
  cbv zeta.
  assert (getAllProjectsFromKV development_host
          = (Return [thesis], snd (getAllProjectsFromKV development_host))) as Hread.
  { rewrite (surjective_pairing (getAllProjectsFromKV development_host)) at 1.
    f_equal. }
  assert (∀ p, p ∈ [thesis] → id p ≠ "1700000000001") as Hnone.
  { intros p Hp. apply list_elem_of_singleton in Hp. by subst p. }
  destruct (updateProject_not_found development_host "1700000000001" rename
              [thesis] _ Hread Hnone) as (Hrun & Hkv & Hlocal & _).
  split; [exact Hread|]. split; [exact Hrun|]. split; [exact Hkv|]. exact Hlocal.
Defined.

(** A host with the Upstash credentials and the blob token, nothing
    stored yet. *)
Definition hosted : World :=
  fresh_world managed_with_credentials (ticking 1700000600000).

(** C8 on the development host, through the local files, and on the
    hosted one, through the remote store. *)
Lemma writeAll_readAll_roundtrip_witness :
  (projects_on LocalFile development_host ∧ files_on LocalFile development_host
   ∧ projects_on RemoteKV hosted ∧ files_on RemoteKV hosted)
  ∧ (∃ w1 w2,
        saveProjectsToKV [thesis; thesis] development_host = (Return tt, w1)
        ∧ projects_held LocalFile w1 = Some [thesis; thesis]
        ∧ getAllProjectsFromKV w1 = (Return [thesis; thesis], w2))
  ∧ (∃ w1 w2,
        saveFilesToKV [] development_host = (Return tt, w1)
        ∧ files_held LocalFile w1 = Some []
        ∧ getAllFilesFromKV w1 = (Return [], w2))
  ∧ (∃ w1 w2,
        saveProjectsToKV [thesis] hosted = (Return tt, w1)
        ∧ projects_held RemoteKV w1 = Some [thesis]
        ∧ getAllProjectsFromKV w1 = (Return [thesis], w2))
  ∧ (∃ w1 w2,
        saveFilesToKV [sample_file; stale_file] hosted = (Return tt, w1)
        ∧ files_held RemoteKV w1 = Some [sample_file; stale_file]
        ∧ getAllFilesFromKV w1 = (Return [sample_file; stale_file], w2)).
Proof.
  assert (projects_on LocalFile development_host) as Hp by (by vm_compute).
  assert (files_on LocalFile development_host) as Hf by (by vm_compute).
  assert (projects_on RemoteKV hosted) as Hp'.
  { split; [|constructor]. exists ("https://eu1-example.upstash.io", "example-token").
    vm_compute. reflexivity. }
  assert (files_on RemoteKV hosted) as Hf' by (split; [by vm_compute|constructor]).
  split; [done|].
  split; [exact (proj1 (writeAll_readAll_roundtrip LocalFile development_host
                          [thesis; thesis] []) Hp)|].
  split; [exact (proj2 (writeAll_readAll_roundtrip LocalFile development_host
                          [thesis; thesis] []) Hf)|].
  split; [exact (proj1 (writeAll_readAll_roundtrip RemoteKV hosted
                          [thesis] [sample_file; stale_file]) Hp')|].
  exact (proj2 (writeAll_readAll_roundtrip RemoteKV hosted
                  [thesis] [sample_file; stale_file]) Hf').
Defined.

(** The development host with the content of its file record in
    place. *)
Definition uploaded_host : World :=
  mkWorld ∅ (mkKV None None) [] ∅ []
          (mkFS false (Some (mkDataDir (Some (Parsed [thesis])) (Some (Parsed [sample_file]))))
                (mkTree ["srv"; "app"]
                   {[ ["srv"; "app"; "uploads"] := Directory;
                      ["srv"; "app"; "uploads"; "1700000000000"] := Directory;
                      ["srv"; "app"; "uploads"; "1700000000000"; "reports"] := Directory;
                      ["srv"; "app"; "uploads"; "1700000000000"; "reports";
                       "1700000000123-draft.pdf"] := RegularFile ]}))
          (ticking 1700000600000) 0 None [].


(** Two projects created on a host whose clock ticks at every
    reading. *)
Definition after_two_timely_creates : World :=
  snd (createProject "Essay" None None None
         (snd (createProject "Thesis" None None None
                 (fresh_world ∅ (ticking 1700000000000))))).

Lemma after_two_timely_creates_reachable :
  reachable [1700000000003; 1700000000000] after_two_timely_creates.
Proof.
  pose (w0 := fresh_world ∅ (ticking 1700000000000)).
  pose (w1 := snd (createProject "Thesis" None None None w0)).
  pose proof (reach_empty w0 eq_refl eq_refl) as H0.
  pose proof (reach_create [] w0 "Thesis" None None None _ _ H0
                (surjective_pairing _)) as H1.
  pose proof (reach_create _ w1 "Essay" None None None _ _ H1
                (surjective_pairing _)) as H2.
  assert ([clock w1 (reads w1); clock w0 (reads w0)]
          = [1700000000003; 1700000000000]) as Hts by (vm_compute; reflexivity).
  rewrite Hts in H2. exact H2.
Qed.

(** C4, amended, after two creations at different readings. *)
Lemma ids_unique_when_clock_readings_differ_witness :
  NoDup [1700000000003; 1700000000000]
  ∧ unique_ids after_two_timely_creates
  ∧ ids (local_projects (fs after_two_timely_creates))
    = ["1700000000000"; "1700000000003"].
Proof.
  assert (NoDup [1700000000003; 1700000000000]) as Hnd.
  { apply NoDup_cons. split; [|apply NoDup_singleton].
    intros H%list_elem_of_singleton. discriminate H. }
  split; [exact Hnd|]. split.
  - exact (ids_unique_when_clock_readings_differ _ _ after_two_timely_creates_reachable Hnd).
  - vm_compute. reflexivity.
Defined.

End witnesses.

(** * Further properties of the code *)

(** ** How the two stores fail *)

Section store_failures.
Import ProjectsServer Files fs_prim.

Ltac run_disk :=
  unfold getAllProjectsLocal, saveProjectsLocal, ensureDataDir,
    getAllFilesLocal, saveFilesLocal, ensureFilesDataFile,
    existsSync, mkdirSync_data, writeFileSync, readFileSync, JSON_parse, when_,
    bind, try_catch, ret, throw, emit, set_fs,
    projects_doc, files_doc, local_projects, local_files in *; cbn in *.

(** X3. The local read of the projects never throws: a missing
    document, a document that does not parse and a disk that refuses
    the first write all read as the empty collection, a document that
    parses reads as its records; the remote store and the collection on
    disk are as before, and on a writable disk the document exists
    afterwards. *)
Theorem getAllProjectsLocal_never_throws (w : World) :
  ∃ w1,
    getAllProjectsLocal w = (Return (local_projects (fs w)), w1)
    ∧ kv w1 = kv w
    ∧ local_projects (fs w1) = local_projects (fs w)
    ∧ (projects_doc (fs w) = Some Corrupt → projects_doc (fs w1) = Some Corrupt)
    ∧ (read_only (fs w) = false → is_Some (projects_doc (fs w1))).
Proof.
  destruct w as [e k kf b bf [ro [[pj fj]|] up] c r cj l].
  - destruct pj as [[ps|]|], ro; run_disk; eexists; (split; [reflexivity|]);
      cbn; repeat split; try done; eauto.
  - destruct ro; run_disk; eexists; (split; [reflexivity|]);
      cbn; repeat split; try done; eauto.
Qed.

(** The local read of the file metadata, case by case. *)
Lemma getAllFilesLocal_cases (w : World) :
  (read_only (fs w) = true ∧ files_doc (fs w) = None
   ∧ ∃ path evs,
       getAllFilesLocal w = (Throw (FsError "EROFS" path), with_fs (fs w) evs w)
       ∧ Forall (λ ev, fs_event ev = true) evs)
  ∨ (¬ (read_only (fs w) = true ∧ files_doc (fs w) = None)
     ∧ ∃ f evs,
         getAllFilesLocal w = (Return (local_files (fs w)), with_fs f evs w)
         ∧ local_files f = local_files (fs w)
         ∧ projects_doc f = projects_doc (fs w)
         ∧ tree f = tree (fs w)
         ∧ read_only f = read_only (fs w)
         ∧ Forall (λ ev, fs_event ev = true) evs).
Proof.
  destruct w as [e k kf b bf [ro [[pj fj]|] up] c r cj l].
  - destruct fj as [[ps|]|], ro; run_disk; unfold with_fs; cbn; rewrite <- ?app_assoc; cbn;
      first [ left; split; [done|]; split; [done|]; do 2 eexists;
              split; [reflexivity|]; by repeat constructor
            | right; split; [by intros [? ?]|]; do 2 eexists;
              split; [reflexivity|]; cbn; repeat split; try done; by repeat constructor ].
  - destruct ro; run_disk; unfold with_fs; cbn; rewrite <- ?app_assoc; cbn;
      first [ left; split; [done|]; split; [done|]; do 2 eexists;
              split; [reflexivity|]; by repeat constructor
            | right; split; [by intros [? ?]|]; do 2 eexists;
              split; [reflexivity|]; cbn; repeat split; try done; by repeat constructor ].
Qed.

(** The local write of the file metadata on a read-only disk. *)
Lemma saveFilesLocal_read_only (w : World) (files : list FileMetadata) :
  read_only (fs w) = true →
  ∃ code path evs,
    saveFilesLocal files w = (Throw (FsError code path), with_fs (fs w) evs w)
    ∧ Forall (λ ev, fs_event ev = true) evs.
Proof.
  destruct w as [e k kf b bf [ro [[pj fj]|] up] c r cj l]; cbn; intros ->.
  - destruct fj as [[ps|]|]; run_disk; unfold with_fs; cbn; rewrite <- ?app_assoc; cbn;
      do 3 eexists; (split; [reflexivity|]); by repeat constructor.
  - run_disk; unfold with_fs; cbn; rewrite <- ?app_assoc; cbn;
      do 3 eexists; (split; [reflexivity|]); by repeat constructor.
Qed.

(** X4. The local read of the file metadata throws exactly when the
    disk is read-only and the document is missing (the first-touch
    write sits outside its [try]); in every other case it answers the
    records of the document, or the empty collection when the document
    does not parse. *)
Theorem getAllFilesLocal_throws_iff (w : World) :
  ((∃ e w1, getAllFilesLocal w = (Throw e, w1))
   ↔ read_only (fs w) = true ∧ files_doc (fs w) = None)
  ∧ ((∃ w1, getAllFilesLocal w = (Return (local_files (fs w)), w1))
     ↔ ¬ (read_only (fs w) = true ∧ files_doc (fs w) = None)).
Proof.
  destruct (getAllFilesLocal_cases w)
    as [(Hro & Hdoc & path & evs & Hrun & _)|(Hnot & f & evs & Hrun & _)].
  - split; split.
    + by intros _.
    + intros _. by do 2 eexists.
    + intros [w1 H]. rewrite Hrun in H. discriminate H.
    + intros Hnot. by destruct Hnot.
  - split; split.
    + intros (e & w1 & H). rewrite Hrun in H. discriminate H.
    + intros Hboth. by destruct Hnot.
    + by intros _.
    + intros _. by eexists.
Qed.

End store_failures.

Section store_errors.
Import ProjectsServer Files.

(** X1. Off the managed platform reading the projects never throws:
    whatever the credentials, the remote store and the disk do, the
    caller gets the remote collection or the local one, and neither is
    changed by the read. *)
Theorem getAllProjects_never_throws_off_managed (w : World) :
  isVercelPlatform (env w) = false →
  ∃ projects w1,
    getAllProjects w = (Return projects, w1)
    ∧ (projects = default [] (kv_projects (kv w)) ∨ projects = local_projects (fs w))
    ∧ kv w1 = kv w
    ∧ local_projects (fs w1) = local_projects (fs w).
Proof.
  intros Hv. unfold getAllProjects.
  assert (∃ projects w1, getAllProjectsFromKV w = (Return projects, w1))
    as (projects & w1 & Hrun).
  { destruct (getRedisConfig (env w)) as [[u t]|] eqn:Hc.
    - destruct (kv_faults w) as [|[msg|] rest] eqn:Hf.
      + destruct (projects_remote_ok w [] u t [] Hc (or_intror Hf)) as [-> _]. eauto.
      + destruct (projects_remote_failure_unmanaged w [] u t msg rest Hv Hc Hf) as [-> _].
        match goal with |- ∃ _ _, getAllProjectsLocal ?w0 = _ =>
          destruct (getAllProjectsLocal_total w0) as (f & evs & -> & _)
        end. eauto.
      + destruct (projects_remote_ok w [] u t rest Hc (or_introl Hf)) as [-> _]. eauto.
    - rewrite projects_unmanaged_without_credentials by done.
      destruct (getAllProjectsLocal_total w) as (f & evs & -> & _). eauto. }
  exists projects, w1. split; [exact Hrun|].
  apply getAllProjectsFromKV_any in Hrun as (_ & Hkv & Hl & Hfrom & _).
  split; [by apply Hfrom|]. by split.
Qed.

Lemma redis_event_not_fs ev :
  (∃ u t k, ev = RedisGet u t k ∨ ev = RedisSet u t k) → fs_event ev = false.
Proof. by intros (u & t & k & [-> | ->]). Qed.

(** X2. On the managed platform the projects store never goes near
    the local filesystem: whatever a read or a write answers, the
    filesystem is as before and no filesystem call was made. *)
Theorem projects_store_managed_leaves_disk_alone
    (w : World) (projects : list Project) (r : Outcome (list Project))
    (r' : Outcome unit) (w1 : World) :
  isVercelPlatform (env w) = true →
  getAllProjectsFromKV w = (r, w1) ∨ saveProjectsToKV projects w = (r', w1) →
  fs w1 = fs w
  ∧ ∃ evs, log w1 = log w ++ evs ∧ Forall (λ ev, fs_event ev = false) evs.
Proof.
  intros Hv Hrun.
  destruct (getRedisConfig (env w)) as [[u t]|] eqn:Hc.
  - destruct (kv_faults w) as [|[msg|] rest] eqn:Hf.
    + destruct (projects_remote_ok w projects u t [] Hc (or_intror Hf)) as [Hg Hs].
      rewrite Hg, Hs in Hrun. destruct Hrun as [[= <- <-]|[= <- <-]];
        (split; [done|]); eexists; (split; [reflexivity|]); by repeat constructor.
    + destruct (projects_remote_failure_managed w projects u t msg rest Hv Hc Hf) as [Hg Hs].
      rewrite Hg, Hs in Hrun. destruct Hrun as [[= <- <-]|[= <- <-]];
        (split; [done|]); eexists; (split; [reflexivity|]); by repeat constructor.
    + destruct (projects_remote_ok w projects u t rest Hc (or_introl Hf)) as [Hg Hs].
      rewrite Hg, Hs in Hrun. destruct Hrun as [[= <- <-]|[= <- <-]];
        (split; [done|]); eexists; (split; [reflexivity|]); by repeat constructor.
  - destruct (projects_managed_without_credentials w projects Hv Hc) as [Hg Hs].
    rewrite Hg, Hs in Hrun. destruct Hrun as [[= <- <-]|[= <- <-]];
      (split; [done|]); exists []; by rewrite app_nil_r.
Qed.

(** A write of the projects that throws has written nothing. *)
Lemma saveProjectsToKV_throw (w : World) (projects : list Project) e w1 :
  saveProjectsToKV projects w = (Throw e, w1) → kv w1 = kv w ∧ fs w1 = fs w.
Proof.
  assert (Hlocal : ∀ w0 e0 w2,
            saveProjectsLocal projects w0 = (Throw e0, w2) → kv w2 = kv w0 ∧ fs w2 = fs w0).
  { intros w0 e0 w2.
    destruct (saveProjectsLocal_any w0 projects)
      as (r' & f & evs & Heq & _ & _ & _ & _ & Hres).
    intros H. rewrite Heq in H. injection H as -> <-.
    destruct Hres as [(Hr & _)|(_ & _ & ->)]; [discriminate Hr|done]. }
  destruct (getRedisConfig (env w)) as [[u t]|] eqn:Hc.
  - destruct (kv_faults w) as [|[msg|] rest] eqn:Hf.
    + destruct (projects_remote_ok w projects u t [] Hc (or_intror Hf)) as [_ ->]. done.
    + destruct (isVercelPlatform (env w)) eqn:Hv.
      * destruct (projects_remote_failure_managed w projects u t msg rest Hv Hc Hf) as [_ ->].
        by intros [= <- <-].
      * destruct (projects_remote_failure_unmanaged w projects u t msg rest Hv Hc Hf)
          as [_ ->].
        intros H. by apply Hlocal in H.
    + destruct (projects_remote_ok w projects u t rest Hc (or_introl Hf)) as [_ ->]. done.
  - destruct (isVercelPlatform (env w)) eqn:Hv.
    + destruct (projects_managed_without_credentials w projects Hv Hc) as [_ ->].
      by intros [= <- <-].
    + rewrite projects_save_unmanaged_without_credentials by done.
      destruct (hasRedisConfig (env w)); [|apply Hlocal].
      unfold try_catch.
      destruct (saveProjectsLocal projects w) as [[[]|e0] w0] eqn:Hfirst; [done|].
      intros Hsecond. apply Hlocal in Hfirst as [Hk Hf]. apply Hlocal in Hsecond as [Hk' Hf'].
      split; congruence.
Qed.

(** X6. A [createProject] or [updateProject] call that throws has
    stored nothing: the remote value and the collection on disk are
    what they were before the call. *)
Theorem failed_project_call_stores_nothing
    (w : World) (title : string) (about module_ supervisor : option string)
    (i : string) (updates : Updates) (e : Error) (w1 : World) :
  createProject title about module_ supervisor w = (Throw e, w1)
  ∨ updateProject i updates w = (Throw e, w1) →
  kv w1 = kv w ∧ local_projects (fs w1) = local_projects (fs w).
Proof.
  intros [Hrun|Hrun].
  - unfold createProject, bind, Date_now in Hrun.
    destruct (getAllProjectsFromKV w) as [[projects|e0] w0] eqn:Hread;
      apply getAllProjectsFromKV_any in Hread as (_ & Hkv & Hl & _).
    + simpl in Hrun.
      match type of Hrun with
      | (let (_, _) := saveProjectsToKV ?ps ?w3 in _) = _ =>
          destruct (saveProjectsToKV ps w3) as [[[]|e3] w3'] eqn:Hsave; [done|]
      end.
      injection Hrun as <- <-. apply saveProjectsToKV_throw in Hsave as [Hk Hf].
      cbn in Hk, Hf. rewrite Hk, Hf. done.
    + injection Hrun as <- <-. done.
  - unfold updateProject, bind, Date_now in Hrun.
    destruct (getAllProjectsFromKV w) as [[projects|e0] w0] eqn:Hread;
      apply getAllProjectsFromKV_any in Hread as (_ & Hkv & Hl & _).
    + destruct (findIndex i projects) as [k|]; [|done].
      destruct (projects !! k) as [existing|]; [|done].
      simpl in Hrun.
      match type of Hrun with
      | (let (_, _) := saveProjectsToKV ?ps ?w2 in _) = _ =>
          destruct (saveProjectsToKV ps w2) as [[[]|e2] w2'] eqn:Hsave; [done|]
      end.
      injection Hrun as <- <-. apply saveProjectsToKV_throw in Hsave as [Hk Hf].
      cbn in Hk, Hf. rewrite Hk, Hf. done.
    + injection Hrun as <- <-. done.
Qed.

(** X5. The files store never passes a Redis rejection on: when a read
    or a write of the file metadata throws, the disk is read-only, the
    error is the one of the filesystem, and neither store has
    changed. *)
Theorem files_store_throws_only_filesystem_errors
    (w : World) (files : list FileMetadata) (e : Error) (w1 : World) :
  getAllFilesFromKV w = (Throw e, w1) ∨ saveFilesToKV files w = (Throw e, w1) →
  read_only (fs w) = true
  ∧ (∃ code path, e = FsError code path)
  ∧ kv w1 = kv w ∧ fs w1 = fs w.
Proof.
  assert (Hread : ∀ w0, getAllFilesLocal w0 = (Throw e, w1) →
            read_only (fs w0) = true ∧ (∃ code path, e = FsError code path)
            ∧ kv w1 = kv w0 ∧ fs w1 = fs w0).
  { intros w0 H. destruct (getAllFilesLocal_cases w0)
      as [(Hro & _ & path & evs & Hrun & _)|(_ & f & evs & Hrun & _)];
      rewrite Hrun in H; [|discriminate H].
    injection H as <- <-. split; [done|]. split; [by eauto|]. done. }
  assert (Hsave : ∀ w0, saveFilesLocal files w0 = (Throw e, w1) →
            read_only (fs w0) = true ∧ (∃ code path, e = FsError code path)
            ∧ kv w1 = kv w0 ∧ fs w1 = fs w0).
  { intros w0 H. destruct (read_only (fs w0)) eqn:Hro.
    - destruct (saveFilesLocal_read_only w0 files Hro) as (code & path & evs & Hrun & _).
      rewrite Hrun in H. injection H as <- <-. split; [done|]. split; [by eauto|]. done.
    - destruct (saveFilesLocal_writable w0 files Hro) as (f & evs & Hrun & _).
      rewrite Hrun in H. discriminate H. }
  destruct (isVercelEnvironment (env w)) eqn:He.
  - destruct (isVercelEnvironment_url _ He) as (url & Hu & _).
    destruct (kv_faults w) as [|[msg|] rest] eqn:Hf.
    + destruct (files_remote_ok w files url [] He Hu (or_intror Hf)) as [-> ->].
      intros [[=]|[=]].
    + destruct (files_remote_failure w files url msg rest He Hu Hf) as [-> ->].
      intros [H|H]; [apply Hread in H|apply Hsave in H]; exact H.
    + destruct (files_remote_ok w files url rest He Hu (or_introl Hf)) as [-> ->].
      intros [[=]|[=]].
  - destruct (files_local_backend w files He) as [-> ->].
    intros [H|H]; [by apply Hread|by apply Hsave].
Qed.

End store_errors.

(** ** Creating, updating and looking up projects *)

Section repository_lookups.
Import ProjectsServer.

Lemma find_findIndex (i : string) (projects : list Project) :
  find (λ p, bool_decide (id p = i)) projects
  = findIndex i projects ≫= λ k, projects !! k.
Proof.
  induction projects as [|q rest IH]; [done|]. simpl.
  case_bool_decide; [done|]. rewrite IH. by destruct (findIndex i rest).
Qed.

Lemma find_snoc (i : string) (projects : list Project) (p : Project) :
  find (λ q, bool_decide (id q = i)) (projects ++ [p])
  = match find (λ q, bool_decide (id q = i)) projects with
    | Some q => Some q
    | None => if bool_decide (id p = i) then Some p else None
    end.
Proof.
  induction projects as [|q rest IH]; [reflexivity|]. simpl.
  destruct (bool_decide (id q = i)); [done|exact IH].
Qed.

Lemma findIndex_insert (i : string) (projects : list Project) (k : nat) (x : Project) :
  findIndex i projects = Some k → id x = i →
  findIndex i (<[k := x]> projects) = Some k.
Proof.
  revert k. induction projects as [|q rest IH]; [done|]. intros k. simpl.
  case_bool_decide as Hq.
  - intros [= <-] Hx. simpl. by rewrite bool_decide_true.
  - destruct (findIndex i rest) as [k'|] eqn:Hrest; [|done]. simpl.
    intros [= <-] Hx. simpl. rewrite bool_decide_false by done.
    by rewrite (IH k' eq_refl Hx).
Qed.

Lemma getProject_ok (w : World) (i : string) :
  projects_store_ok w →
  ∃ w1,
    getProject i w
    = (Return (find (λ p, bool_decide (id p = i)) (projects_collection w)), w1)
    ∧ projects_store_ok w1
    ∧ projects_collection w1 = projects_collection w.
Proof.
  intros Hok. destruct (readAll_ok w Hok) as (w1 & Hread & Hok1 & Hcol & _).
  exists w1. unfold getProject, bind. rewrite Hread. done.
Qed.

Lemma updateProject_ok (w : World) (i : string) (updates : Updates) k existing :
  projects_store_ok w →
  findIndex i (projects_collection w) = Some k →
  projects_collection w !! k = Some existing →
  ∃ w',
    updateProject i updates w
    = (Return (Some (spread existing updates (toISOString (clock w (reads w))))), w')
    ∧ projects_store_ok w'
    ∧ projects_collection w'
      = <[k := spread existing updates (toISOString (clock w (reads w)))]>
          (projects_collection w).
Proof.
  intros Hok Hfind Hk.
  destruct (readAll_ok w Hok) as (w1 & Hread & Hok1 & Hcol & He & Hc & Hr).
  set (updated := spread existing updates (toISOString (clock w (reads w)))).
  set (w2 := set_reads (S (reads w1)) w1).
  assert (projects_store_ok w2) as Hok2 by exact Hok1.
  destruct (writeAll_ok w2 (<[k := updated]> (projects_collection w)) Hok2)
    as (w' & Hsave & Hok' & Hcol' & _).
  exists w'. split; [|by split].
  unfold updateProject, bind, Date_now. rewrite Hread, Hfind, Hk. simpl.
  fold w2. rewrite Hc, Hr. fold updated. rewrite Hsave. simpl. unfold ret.
  rewrite list_lookup_insert_eq; [done|]. by eapply lookup_lt_Some.
Qed.

(** X7. On a store that works a created project is appended: the
    listing that follows answers the records that were there, in their
    order, and the new record last. *)
Theorem getAllProjects_after_createProject
    (w : World) (title : string) (about module_ supervisor : option string) :
  projects_store_ok w →
  ∃ p w' w'',
    createProject title about module_ supervisor w = (Return p, w')
    ∧ name p = title
    ∧ getAllProjects w' = (Return (projects_collection w ++ [p]), w'').
Proof.
  intros Hok.
  destruct (createProject_ok w title about module_ supervisor Hok)
    as (w' & Hrun & Hcol & Hok' & _).
  destruct (readAll_ok w' Hok') as (w'' & Hread & _).
  eexists _, w', w''. split; [exact Hrun|]. split; [done|].
  unfold getAllProjects. by rewrite Hread, Hcol.
Qed.

(** X8. Looking the new project up by its id, on a store that works:
    [getProject] answers the new record when no stored record had that
    id, and the older record when one had (the id is the clock reading,
    which nothing compares with the stored ids). *)
Theorem getProject_after_createProject
    (w : World) (title : string) (about module_ supervisor : option string) :
  projects_store_ok w →
  ∃ p w' found w'',
    createProject title about module_ supervisor w = (Return p, w')
    ∧ getProject (id p) w' = (Return (Some found), w'')
    ∧ id found = id p
    ∧ ((∀ q, q ∈ projects_collection w → id q ≠ id p) → found = p)
    ∧ ((∃ q, q ∈ projects_collection w ∧ id q = id p) →
       found ∈ projects_collection w).
Proof.
  intros Hok.
  destruct (createProject_ok w title about module_ supervisor Hok)
    as (w' & Hrun & Hcol & Hok' & _).
  set (p := created w title about module_ supervisor) in *.
  destruct (getProject_ok w' (id p) Hok') as (w'' & Hget & _).
  rewrite Hcol, find_snoc, bool_decide_true in Hget by done.
  destruct (find (λ q, bool_decide (id q = id p)) (projects_collection w))
    as [q|] eqn:Hfind.
  - apply find_some in Hfind as [Hin Hid]. apply bool_decide_eq_true in Hid.
    apply list_elem_of_In in Hin.
    exists p, w', q, w''. split; [exact Hrun|]. split; [exact Hget|]. split; [done|].
    split; [|done]. intros Hfresh. by destruct (Hfresh q Hin).
  - exists p, w', p, w''. split; [exact Hrun|]. split; [exact Hget|]. split; [done|].
    split; [done|]. intros (q & Hin & Hid). exfalso.
    apply list_elem_of_In in Hin.
    eapply (find_none _ _ Hfind) in Hin. by rewrite bool_decide_true in Hin.
Qed.

(** X9. On a store that works, after [updateProject] changed a
    record, [getProject] with the same id answers the record
    [updateProject] returned. *)
Theorem getProject_after_updateProject (w : World) (i : string) (updates : Updates) :
  projects_store_ok w →
  (∃ q, q ∈ projects_collection w ∧ id q = i) →
  ∃ updated w' w'',
    updateProject i updates w = (Return (Some updated), w')
    ∧ getProject i w' = (Return (Some updated), w'').
Proof.
  intros Hok (q & Hq & Hqi).
  destruct (findIndex i (projects_collection w)) as [k|] eqn:Hfind; last first.
  { exfalso. eapply findIndex_None in Hfind; [|exact Hq]. done. }
  destruct (findIndex_Some _ _ _ Hfind) as (existing & Hk & Hid & _).
  destruct (updateProject_ok w i updates k existing Hok Hfind Hk)
    as (w' & Hrun & Hok' & Hcol).
  destruct (getProject_ok w' i Hok') as (w'' & Hget & _).
  eexists _, w', w''. split; [exact Hrun|].
  rewrite Hget, Hcol, find_findIndex.
  rewrite (findIndex_insert _ _ _ _ Hfind) by done. simpl.
  rewrite list_lookup_insert_eq; [done|]. by eapply lookup_lt_Some.
Qed.

End repository_lookups.

(** ** Saving, listing and deleting file metadata *)

Section files_repository.
Import Files fs_prim.

Lemma filter_all {A} (P : A → Prop) `{∀ x, Decision (P x)} (l : list A) :
  (∀ x, x ∈ l → P x) → filter P l = l.
Proof.
  induction l as [|x l IH]; [done|]. intros Hall.
  rewrite filter_cons_True by (apply Hall; by left).
  f_equal. apply IH. intros y Hy. apply Hall. by right.
Qed.

Lemma find_no_match {A} (f : A → bool) (l : list A) :
  (∀ x, x ∈ l → f x = false) → find f l = None.
Proof.
  induction l as [|x l IH]; [done|]. intros Hall. simpl.
  rewrite (Hall x) by (by left). apply IH. intros y Hy. apply Hall. by right.
Qed.

Lemma saveFileMetadata_ok (w : World) (metadata : FileMetadata) :
  files_store_ok w →
  ∃ w',
    saveFileMetadata metadata w = (Return tt, w')
    ∧ files_store_ok w'
    ∧ env w' = env w
    ∧ files_collection w' = files_collection w ++ [metadata]
    ∧ tree (fs w') = tree (fs w).
Proof.
  intros Hok.
  destruct (files_readAll_ok w Hok)
    as (w1 & evs1 & Hread & (Hok1 & He1 & _) & _ & _ & _ & Hup1 & _).
  destruct (files_writeAll_ok w1 (files_collection w ++ [metadata]) Hok1)
    as (w' & evs & last & Hsave & (Hok' & He' & _) & Hcol & _ & Hup' & _).
  exists w'. split; [|split; [done|split; [congruence|split; [done|congruence]]]].
  unfold saveFileMetadata, bind. by rewrite Hread.
Qed.

Lemma getAllFiles_ok (w : World) :
  files_store_ok w →
  ∃ w1, getAllFilesFromKV w = (Return (files_collection w), w1)
        ∧ files_store_ok w1 ∧ env w1 = env w
        ∧ files_collection w1 = files_collection w.
Proof.
  intros Hok.
  destruct (files_readAll_ok w Hok) as (w1 & evs1 & Hread & (Hok1 & He1 & _) & Hcol & _).
  by exists w1.
Qed.

(** What [deleteFile] does to a store that works, for a path below
    [uploads] that is not a directory. *)
Lemma deleteFile_ok (w : World) (project category file : string) :
  files_store_ok w →
  (isVercelEnvironment (env w) = false →
   upload_path (fs w) (getFilePath project category file)) →
  ∃ w',
    deleteFile project category file w = (Return tt, w')
    ∧ files_store_ok w'
    ∧ env w' = env w
    ∧ files_collection w'
      = filter (λ f, ¬ is_file project category file f) (files_collection w)
    ∧ cwd (tree (fs w')) = cwd (tree (fs w))
    ∧ (isVercelEnvironment (env w) = false →
       entry_at (fs w') (getFilePath project category file) = None).
Proof.
  intros Hok Hpath.
  destruct (files_readAll_ok w Hok)
    as (w1 & evs1 & Hread & (Hok1 & He1 & _) & _ & _ & _ & Hup1 & _).
  unfold deleteFile. unfold bind at 1. rewrite Hread.
  unfold bind at 1. unfold process_env at 1. rewrite He1.
  set (found := find (λ f, bool_decide (is_file project category file f))
                     (files_collection w)).
  set (path := getFilePath project category file) in *.
  match goal with
  | |- ∃ w', bind ?step _ w1 = _ ∧ _ =>
      assert (∃ w2, step w1 = (Return tt, w2)
                    ∧ files_store_ok w2 ∧ env w2 = env w
                    ∧ cwd (tree (fs w2)) = cwd (tree (fs w))
                    ∧ (isVercelEnvironment (env w) = false → entry_at (fs w2) path = None))
        as (w2 & Hstep & Hok2 & He2 & Hcwd2 & Hgone)
  end.
  { destruct Hok1 as [Hf1 Hro1].
    destruct (isVercelEnvironment (env w)) eqn:He.
    - rewrite andb_true_r. destruct (truthy (found ≫= blobUrl)).
      + destruct (blob_del_tolerant (default EmptyString (found ≫= blobUrl)) w1)
          as (w2 & Hdel & _ & Hkf & Hfs & He2 & _).
        exists w2. split; [exact Hdel|]. unfold files_store_ok.
        rewrite Hkf, Hfs, He2, Hup1. by repeat split.
      + exists w1. rewrite Hup1. by repeat split.
    - rewrite andb_false_r. cbn [negb].
      assert (upload_path (fs w1) path) as Hpath1.
      { apply (upload_path_frame (fs w)); [exact Hup1|by apply Hpath]. }
      destruct (unlink_if_present path w1 Hro1 Hpath1)
        as (w2 & evs2 & Hrun & _ & Hkf & He2 & _ & Hro2 & _ & Hcwd & Hgone & _).
      exists w2. split; [exact Hrun|]. unfold files_store_ok.
      rewrite Hkf, He2, Hcwd, Hup1. by repeat split. }
  destruct (files_writeAll_ok w2
              (filter (λ f, ¬ is_file project category file f) (files_collection w)) Hok2)
    as (w' & evs3 & last & Hsave & (Hok' & He' & _) & Hcol' & _ & Hup' & _).
  exists w'. split. { unfold bind at 1. rewrite Hstep. exact Hsave. }
  split; [exact Hok'|]. split; [congruence|]. split; [exact Hcol'|].
  split; [by rewrite Hup'|].
  intros He. rewrite (upload_path_tree (fs w2) (fs w') path Hup'); [by apply Hgone|].
  destruct (Hpath He) as [[rest Hplace] _]. exists rest.
  by rewrite (locate_cwd (tree (fs w)) (tree (fs w2)) path Hcwd2), Hcwd2.
Qed.

(** For a key made of names the tree alone says what the path leads
    to. *)
Lemma entry_at_names (f : FS) (project category file : string) :
  is_name project = true → is_name category = true → is_name file = true →
  entry_at f (getFilePath project category file)
  = nodes (tree f) !! (cwd (tree f) ++ [UPLOADS_DIR; project; category; file]).
Proof.
  intros Hp Hc Hf. unfold entry_at.
  destruct (locate_names (tree f) project category file Hp Hc Hf) as [-> ->].
  rewrite entry_of_upload. by destruct (nodes (tree f) !! _) as [[|]|].
Qed.

Lemma upload_path_names (f : FS) (project category file : string) :
  is_name project = true → is_name category = true → is_name file = true →
  nodes (tree f) !! (cwd (tree f) ++ [UPLOADS_DIR; project; category; file])
  ≠ Some Directory →
  upload_path f (getFilePath project category file).
Proof.
  intros Hp Hc Hf Hdir. split.
  - exists [project; category; file]. by apply locate_names.
  - by rewrite entry_at_names.
Qed.

(** X10. On a store that works a saved record is appended without any
    check of its key, and the listing of its project and category that
    follows answers the records that were listed there before, then the
    new one. *)
Theorem getFilesByCategory_after_saveFileMetadata (w : World) (metadata : FileMetadata) :
  files_store_ok w →
  ∃ w' w'',
    saveFileMetadata metadata w = (Return tt, w')
    ∧ files_collection w' = files_collection w ++ [metadata]
    ∧ getFilesByCategory (projectId metadata) (categoryId metadata) w'
      = (Return (filter (λ f, projectId f = projectId metadata
                              ∧ categoryId f = categoryId metadata)
                        (files_collection w) ++ [metadata]), w'').
Proof.
  intros Hok.
  destruct (saveFileMetadata_ok w metadata Hok) as (w' & Hsave & Hok' & _ & Hcol & _).
  destruct (getAllFiles_ok w' Hok') as (w'' & Hread & _).
  exists w', w''. split; [exact Hsave|]. split; [exact Hcol|].
  unfold getFilesByCategory, getAllFiles, bind. rewrite Hread, Hcol. unfold ret.
  rewrite filter_app. by rewrite (filter_singleton_True _ metadata []).
Qed.

(** X11. Deleting by the key of a record that was just saved, on a
    store that works, when off the blob environment the path of the
    key leads below [uploads] and not to a directory: the record is
    gone together with every older record of the same key, the others
    are kept in their order, and the key has no blob URL any more. *)
Theorem deleteFile_after_saveFileMetadata (w : World) (metadata : FileMetadata) :
  files_store_ok w →
  (isVercelEnvironment (env w) = false →
   upload_path (fs w)
     (getFilePath (projectId metadata) (categoryId metadata) (filename metadata))) →
  ∃ w1 w2 w3,
    saveFileMetadata metadata w = (Return tt, w1)
    ∧ deleteFile (projectId metadata) (categoryId metadata) (filename metadata) w1
      = (Return tt, w2)
    ∧ files_collection w2
      = filter (λ f, ¬ is_file (projectId metadata) (categoryId metadata)
                               (filename metadata) f)
               (files_collection w)
    ∧ getFileBlobUrl (projectId metadata) (categoryId metadata) (filename metadata) w2
      = (Return None, w3).
Proof.
  intros Hok Hpath.
  destruct (saveFileMetadata_ok w metadata Hok) as (w1 & Hsave & Hok1 & He1 & Hcol1 & Ht1).
  destruct (deleteFile_ok w1 (projectId metadata) (categoryId metadata) (filename metadata)
              Hok1) as (w2 & Hdel & Hok2 & _ & Hcol2 & _).
  { rewrite He1. intros He. apply (upload_path_frame (fs w)); [exact Ht1|by apply Hpath]. }
  destruct (getAllFiles_ok w2 Hok2) as (w3 & Hread & _).
  exists w1, w2, w3. split; [exact Hsave|]. split; [exact Hdel|].
  assert (files_collection w2
          = filter (λ f, ¬ is_file (projectId metadata) (categoryId metadata)
                                   (filename metadata) f) (files_collection w)) as Hcol.
  { rewrite Hcol2, Hcol1, filter_app.
    rewrite (filter_singleton_False _ metadata []); [by rewrite app_nil_r|].
    intros Hnot. by apply Hnot. }
  split; [exact Hcol|].
  unfold getFileBlobUrl, bind. rewrite Hread. unfold ret.
  rewrite find_no_match; [done|].
  intros m Hm. rewrite Hcol in Hm. apply list_elem_of_filter in Hm as [Hnot _].
  by apply bool_decide_eq_false.
Qed.

(** X12. Deleting a key made of names that no record carries, on a
    store that works: when [uploads/project/category/file] below
    [process.cwd()] is not a directory the call succeeds, the
    collection is written back as it was, and off the blob environment
    a regular file lying there is unlinked all the same: nothing is at
    that place afterwards. *)
Theorem deleteFile_without_record (w : World) (project category file : string) :
  files_store_ok w →
  is_name project = true → is_name category = true → is_name file = true →
  nodes (tree (fs w)) !! (cwd (tree (fs w)) ++ ["uploads"; project; category; file])
  ≠ Some Directory →
  (∀ m, m ∈ files_collection w → ¬ is_file project category file m) →
  ∃ w',
    deleteFile project category file w = (Return tt, w')
    ∧ files_collection w' = files_collection w
    ∧ cwd (tree (fs w')) = cwd (tree (fs w))
    ∧ (isVercelEnvironment (env w) = false →
       nodes (tree (fs w')) !! (cwd (tree (fs w)) ++ ["uploads"; project; category; file])
       = None).
Proof.
  intros Hok Hp Hc Hf Hdir Hnone.
  destruct (deleteFile_ok w project category file Hok)
    as (w' & Hdel & _ & _ & Hcol & Hcwd & Hgone).
  { intros _. by apply upload_path_names. }
  exists w'. split; [exact Hdel|]. split; [rewrite Hcol; by apply filter_all|].
  split; [exact Hcwd|].
  intros He. apply Hgone in He. rewrite entry_at_names in He by done.
  by rewrite Hcwd in He.
Qed.

(** X13. [deleteFile] can be repeated: on a store that works, when off
    the blob environment the path of the key leads below [uploads] and
    not to a directory, the second call with the same key succeeds as
    well and leaves the collection the first call left. *)
Theorem deleteFile_twice (w : World) (project category file : string) :
  files_store_ok w →
  (isVercelEnvironment (env w) = false →
   upload_path (fs w) (getFilePath project category file)) →
  ∃ w1 w2,
    deleteFile project category file w = (Return tt, w1)
    ∧ deleteFile project category file w1 = (Return tt, w2)
    ∧ files_collection w2 = files_collection w1.
Proof.
  intros Hok Hpath.
  destruct (deleteFile_ok w project category file Hok Hpath)
    as (w1 & Hdel & Hok1 & He1 & Hcol & Hcwd & Hgone).
  destruct (deleteFile_ok w1 project category file Hok1)
    as (w2 & Hdel' & _ & _ & Hcol' & _).
  { rewrite He1. intros He. destruct (Hpath He) as [[rest Hplace] _]. split.
    - exists rest. by rewrite (locate_cwd _ _ _ Hcwd), Hcwd.
    - by rewrite (Hgone He). }
  exists w1, w2. split; [exact Hdel|]. split; [exact Hdel'|].
  rewrite Hcol'. apply filter_all. intros m Hm. rewrite Hcol in Hm.
  by apply list_elem_of_filter in Hm as [? _].
Qed.

(** A directory stays one over the read of the metadata. *)
Lemma directory_stays (f f' : FS) (path : string) :
  tree f' = tree f → (is_Some (data_dir f) → is_Some (data_dir f')) →
  entry_at f path = Some Directory → entry_at f' path = Some Directory.
Proof.
  intros Ht Hdata. unfold entry_at, entry_of. rewrite Ht.
  repeat case_bool_decide; try done.
  - destruct (data_dir f) as [dir|] eqn:Hdir; [|done].
    destruct (Hdata (ltac:(by eexists))) as [dir' ->]. done.
  - destruct (projects_doc f), (projects_doc f'); try done;
      by destruct (ends_with_slash path).
  - destruct (files_doc f), (files_doc f'); try done;
      by destruct (ends_with_slash path).
Qed.

(** X25. Off the blob environment, on a store that works, a key whose
    path leads to a directory makes [deleteFile] throw the error of
    [unlinkSync], which sits outside any [try]: the metadata is not
    written, the records of the key stay, and nothing is removed.  For
    a project and a category that are names, the empty filename and
    the filename [.] are such keys when the directory of the category
    exists: both paths are [uploads/project/category]. *)
Theorem deleteFile_of_directory_throws (w : World) (project category file : string) :
  files_store_ok w →
  isVercelEnvironment (env w) = false →
  entry_at (fs w) (getFilePath project category file) = Some Directory →
  (∃ code w',
      deleteFile project category file w
      = (Throw (FsError code (getFilePath project category file)), w')
      ∧ files_collection w' = files_collection w
      ∧ tree (fs w') = tree (fs w))
  ∧ (is_name project = true → is_name category = true →
     getFilePath project category EmptyString = "uploads/" +:+ project +:+ "/" +:+ category
     ∧ getFilePath project category "." = "uploads/" +:+ project +:+ "/" +:+ category).
Proof.
  intros Hok He Hdir. split.
  - destruct (files_readAll_ok w Hok)
      as (w1 & evs1 & Hread & ([Hf1 Hro1] & He1 & _) & Hcol1 & _ & _ & Hup1 & Hdoc1 & _).
    assert (entry_at (fs w1) (getFilePath project category file) = Some Directory) as Hdir1.
    { apply (directory_stays (fs w)); [exact Hup1| |exact Hdir].
      intros _. destruct (Hdoc1 He) as [doc Hdoc]. unfold files_doc in Hdoc.
      destruct (data_dir (fs w1)); [by eexists|done]. }
    exists "EISDIR", (emit (FsUnlink (getFilePath project category file))
                        (emit (FsExists (getFilePath project category file)) w1)).
    split; [|by split].
    unfold deleteFile. unfold bind at 1. rewrite Hread.
    unfold bind at 1. unfold process_env at 1. rewrite He1, He, andb_false_r. cbn [negb].
    unfold bind, existsSync, exists_at, when_, unlinkSync.
    cbn -[entry_at remove_at getFilePath]. rewrite Hdir1.
    rewrite bool_decide_true by done. cbn -[entry_at remove_at getFilePath].
    by rewrite Hro1, Hdir1.
  - intros Hp Hc.
    destruct (is_name_spec _ Hp) as (Hp' & _ & _ & _ & Hps).
    destruct (is_name_spec _ Hc) as (Hc' & _ & _ & _ & Hcs).
    assert (path_normalize (String.concat "/" ["uploads"; project; category])
            = "uploads/" +:+ project +:+ "/" +:+ category
            ∧ path_normalize (String.concat "/" ["uploads"; project; category; "."])
              = "uploads/" +:+ project +:+ "/" +:+ category) as [Hempty Hdot].
    { unfold path_normalize.
      rewrite !split_path_concat by done. rewrite split_path_no_slash by done.
      replace (split_path ".") with ["."] by done.
      rewrite !normalizeString_name by done. cbn [normalizeString String.eqb Ascii.eqb
        Bool.eqb orb rev app].
      assert (ends_with_slash (String.concat "/" ["uploads"; project; category]) = false)
        as ->.
      { cbn [String.concat].
        rewrite (ends_with_slash_app "uploads") by done.
        rewrite (ends_with_slash_app "/") by by apply append_not_empty.
        rewrite (ends_with_slash_app project) by done.
        rewrite (ends_with_slash_app "/") by done.
        by apply ends_with_slash_no_slash. }
      assert (ends_with_slash (String.concat "/" ["uploads"; project; category; "."])
              = false) as ->.
      { cbn [String.concat].
        rewrite (ends_with_slash_app "uploads") by done.
        rewrite (ends_with_slash_app "/") by by apply append_not_empty.
        rewrite (ends_with_slash_app project) by done.
        rewrite (ends_with_slash_app "/") by by apply append_not_empty.
        rewrite (ends_with_slash_app category) by done.
        done. }
      split; by rewrite append_empty_r. }
    unfold getFilePath, path_join, UPLOADS_DIR. split.
    + rewrite !filter_cons_True by done. rewrite filter_cons_False by (by intros H; apply H).
      rewrite filter_nil. exact Hempty.
    + rewrite !filter_cons_True, filter_nil by done. exact Hdot.
Qed.

(** X14. [getFileBlobUrl] on a store that works: an answer other than
    [null] is the non-empty [blobUrl] of a stored record with the key,
    and the answer is [null] when no record with the key has one. *)
Theorem getFileBlobUrl_answer (w : World) (project category file : string) :
  files_store_ok w →
  ∃ answer w1,
    getFileBlobUrl project category file w = (Return answer, w1)
    ∧ (∀ url, answer = Some url →
         url ≠ EmptyString
         ∧ ∃ m, m ∈ files_collection w ∧ is_file project category file m
                ∧ blobUrl m = Some url)
    ∧ ((∀ m, m ∈ files_collection w → is_file project category file m →
             blobUrl m = None) → answer = None).
Proof.
  intros Hok. destruct (getAllFiles_ok w Hok) as (w1 & Hread & _).
  eexists _, w1. split.
  { unfold getFileBlobUrl, bind. rewrite Hread. reflexivity. }
  destruct (find (λ f, bool_decide (is_file project category file f)) (files_collection w))
    as [m|] eqn:Hfind; cbn.
  - apply find_some in Hfind as [Hin Hkey]. apply bool_decide_eq_true in Hkey.
    apply list_elem_of_In in Hin. unfold or_else.
    destruct (blobUrl m) as [url|] eqn:Hurl; cbn.
    + destruct (String.eqb url EmptyString) eqn:Hempty; cbn.
      * apply String.eqb_eq in Hempty. subst url. split; [done|].
        intros Hall. by rewrite (Hall m Hin Hkey) in Hurl.
      * apply String.eqb_neq in Hempty. split.
        -- intros url' [= <-]. split; [done|]. by exists m.
        -- intros Hall. by rewrite (Hall m Hin Hkey) in Hurl.
    + by split.
  - by split.
Qed.

End files_repository.

(** ** The admin password and the admin session *)

Section admin.
Import AuthServer.

(** A string of white space only (the empty string is one). *)
Fixpoint blank (s : string) : bool :=
  match s with
  | EmptyString => true
  | String c rest => is_whitespace c && blank rest
  end.

Lemma blank_app (s t : string) : blank (s +:+ t) = blank s && blank t.
Proof. induction s as [|c s IH]; [done|]. simpl. rewrite IH. by rewrite andb_assoc. Qed.

Lemma trimStart_empty (s : string) : trimStart s = EmptyString ↔ blank s = true.
Proof.
  induction s as [|c s IH]; [done|]. simpl.
  destruct (is_whitespace c); [exact IH|]. done.
Qed.

Lemma trimEnd_empty (s : string) : trimEnd s = EmptyString ↔ blank s = true.
Proof.
  induction s as [|c s IH]; [done|]. simpl.
  destruct (trimEnd s) as [|c' kept] eqn:Hkept.
  - destruct (is_whitespace c); simpl; [|done].
    split; [intros _; by apply IH|done].
  - split; [done|]. intros [_ Hs]%andb_true_iff. apply IH in Hs. done.
Qed.

Lemma trimStart_blank_prefix (pre s : string) :
  blank pre = true → trimStart (pre +:+ s) = trimStart s.
Proof.
  induction pre as [|c pre IH]; [done|]. simpl.
  intros [-> Hpre]%andb_true_iff. by apply IH.
Qed.

Lemma trimStart_keeps_suffix (s t : string) :
  blank s = false → trimStart (s +:+ t) = trimStart s +:+ t.
Proof.
  induction s as [|c s IH]; [done|]. simpl.
  destruct (is_whitespace c); [exact IH|done].
Qed.

Lemma trimEnd_blank_suffix (s post : string) :
  blank post = true → trimEnd (s +:+ post) = trimEnd s.
Proof.
  intros Hpost. induction s as [|c s IH]; simpl.
  - by apply trimEnd_empty.
  - by rewrite IH.
Qed.

Lemma trimStart_not_blank (s : string) : blank s = false → blank (trimStart s) = false.
Proof.
  induction s as [|c s IH]; [done|]. simpl.
  destruct (is_whitespace c) eqn:Hc; [exact IH|]. intros _. simpl. by rewrite Hc.
Qed.

Lemma trim_empty (s : string) : trim s = EmptyString ↔ blank s = true.
Proof.
  unfold trim. rewrite trimEnd_empty. split.
  - intros H. destruct (blank s) eqn:Hs; [done|].
    apply trimStart_not_blank in Hs. congruence.
  - intros H. apply trimStart_empty in H. by rewrite H.
Qed.

(** White space around a string does not change what [trim] gives. *)
Lemma trim_padded (pre s post : string) :
  blank pre = true → blank post = true → trim (pre +:+ s +:+ post) = trim s.
Proof.
  intros Hpre Hpost. unfold trim. rewrite trimStart_blank_prefix by done.
  destruct (blank s) eqn:Hs.
  - assert (blank (s +:+ post) = true) as Hsp by (by rewrite blank_app, Hs, Hpost).
    apply trimStart_empty in Hsp. apply trimStart_empty in Hs. by rewrite Hsp, Hs.
  - rewrite trimStart_keeps_suffix by done. by apply trimEnd_blank_suffix.
Qed.

Lemma verifyAdminPassword_spec (e : gmap string string) (password : string) :
  verifyAdminPassword e password = true
  ↔ password ≠ EmptyString ∧ trim password = ADMIN_PASSWORD e.
Proof.
  unfold verifyAdminPassword. simpl.
  destruct (String.eqb password EmptyString) eqn:Hempty; simpl.
  - apply String.eqb_eq in Hempty. split; [done|]. by intros [? _].
  - apply String.eqb_neq in Hempty. rewrite String.eqb_eq. split; [done|]. by intros [_ ?].
Qed.

(** X15. The empty password is refused whatever the configured
    password is, and white space around a password does not change the
    verdict. *)
Theorem verifyAdminPassword_ignores_padding
    (e : gmap string string) (pre password post : string) :
  verifyAdminPassword e EmptyString = false
  ∧ (blank pre = true → blank post = true → password ≠ EmptyString →
     verifyAdminPassword e (pre +:+ password +:+ post) = verifyAdminPassword e password).
Proof.
  split; [done|]. intros Hpre Hpost Hne.
  assert (pre +:+ password +:+ post ≠ EmptyString) as Hne'.
  { destruct pre; simpl; [|done]. destruct password; simpl; done. }
  apply eq_true_iff_eq. rewrite !verifyAdminPassword_spec, trim_padded by done.
  split; intros [_ H]; done.
Qed.

(** X16. Without [ADMIN_PASSWORD] in the environment, and also with
    the empty string there, the password is ['admin123']: it is
    accepted, with or without white space around it, and nothing else
    is. *)
Theorem verifyAdminPassword_default (e : gmap string string) (password : string) :
  truthy (e !! "ADMIN_PASSWORD") = false →
  verifyAdminPassword e "admin123" = true
  ∧ (verifyAdminPassword e password = true ↔ trim password = "admin123").
Proof.
  intros Hunset.
  assert (ADMIN_PASSWORD e = "admin123") as Hpw.
  { unfold ADMIN_PASSWORD, or_else. by rewrite Hunset. }
  split.
  - apply verifyAdminPassword_spec. by rewrite Hpw.
  - rewrite verifyAdminPassword_spec, Hpw. split; [by intros [_ ?]|].
    intros H. split; [|done]. intros ->. discriminate H.
Qed.

(** X17. A configured password of white space only is trimmed to the
    empty string: every password of white space only is then accepted,
    except the empty one, and no other password is. *)
Theorem verifyAdminPassword_blank_configuration
    (e : gmap string string) (configured password : string) :
  e !! "ADMIN_PASSWORD" = Some configured →
  configured ≠ EmptyString → blank configured = true →
  (verifyAdminPassword e password = true
   ↔ password ≠ EmptyString ∧ blank password = true).
Proof.
  intros He Hne Hblank.
  assert (ADMIN_PASSWORD e = EmptyString) as Hpw.
  { unfold ADMIN_PASSWORD, or_else. rewrite He. simpl.
    destruct (String.eqb configured EmptyString) eqn:Hq.
    - by apply String.eqb_eq in Hq.
    - simpl. by apply trim_empty. }
  rewrite verifyAdminPassword_spec, Hpw, trim_empty. done.
Qed.

(** Whether the cookie store of the request shows the admin session. *)
Definition is_admin (w : World) : bool :=
  match cookie_jar w with
  | Some store => bool_decide (store !! ADMIN_COOKIE_NAME = Some "authenticated")
  | None => false
  end.

Lemma isAdminServer_run (w : World) : isAdminServer w = (Return (is_admin w), w).
Proof.
  unfold isAdminServer, is_admin, try_catch, bind, cookies, ret.
  by destruct (cookie_jar w).
Qed.

(** X18. The session is written and read under one cookie name:
    after [setAdminSession] the check answers [true], after
    [clearAdminSession] it answers [false], and the other cookies of
    the store are as they were; when [cookies()] rejects, both throw,
    where [isAdminServer] answers [false]. *)
Theorem admin_session_set_and_cleared (w : World) :
  (∀ store, cookie_jar w = Some store →
     ∃ w1 w2,
       setAdminSession w = (Return tt, w1)
       ∧ isAdminServer w1 = (Return true, w1)
       ∧ clearAdminSession w1 = (Return tt, w2)
       ∧ isAdminServer w2 = (Return false, w2)
       ∧ ∀ other, other ≠ ADMIN_COOKIE_NAME →
           (cookie_jar w1 ≫= lookup other) = store !! other
           ∧ (cookie_jar w2 ≫= lookup other) = store !! other)
  ∧ (cookie_jar w = None →
     (∃ e, setAdminSession w = (Throw e, w))
     ∧ (∃ e, clearAdminSession w = (Throw e, w))
     ∧ isAdminServer w = (Return false, w)).
Proof.
  split.
  - intros store Hjar.
    set (w1 := set_cookie_jar (Some (<[ADMIN_COOKIE_NAME := "authenticated"]> store)) w).
    set (w2 := set_cookie_jar
                 (Some (delete ADMIN_COOKIE_NAME
                          (<[ADMIN_COOKIE_NAME := "authenticated"]> store))) w1).
    exists w1, w2. rewrite !isAdminServer_run.
    unfold setAdminSession, clearAdminSession, bind, cookies, cookieStore_set,
      cookieStore_delete, is_admin. rewrite Hjar. cbn.
    rewrite lookup_insert_eq, lookup_delete_eq, Hjar.
    split; [done|]. split; [by rewrite bool_decide_true|]. split; [done|].
    split; [by rewrite bool_decide_false|].
    intros other Hother.
    rewrite lookup_delete_ne, !lookup_insert_ne by done. done.
  - intros Hjar.
    unfold setAdminSession, clearAdminSession, bind, cookies. rewrite Hjar.
    split; [by eexists|]. split; [by eexists|].
    rewrite isAdminServer_run. unfold is_admin. by rewrite Hjar.
Qed.

End admin.

(** ** The route handlers of [/api/projects] *)

Section route.
Import ProjectsServer AuthServer ProjectsRoute.

Definition unauthorized : NextResponse :=
  mkResponse (ErrorPayload "Unauthorized. Admin access required.") 403.
Definition invalid_body : NextResponse :=
  mkResponse (ErrorPayload "Invalid request body. Expected JSON.") 400.
Definition name_required : NextResponse :=
  mkResponse (ErrorPayload "Project name is required") 400.
Definition create_failed : NextResponse :=
  mkResponse (ErrorPayload "Failed to create project") 500.
Definition fetch_failed : NextResponse :=
  mkResponse (ErrorPayload "Failed to fetch projects") 500.

(** The name check lets through the strings that have a character
    other than white space, and nothing else. *)
Lemma name_missing_false (v : option JsValue) :
  name_missing v = false ↔ ∃ s, v = Some (JString s) ∧ blank s = false.
Proof.
  destruct v as [[|s|]|]; simpl; try (split; [done|by intros (? & ? & ?)]).
  split.
  - intros [_ Hlen]%orb_false_iff. exists s. split; [done|].
    destruct (blank s) eqn:Hs; [|done]. apply trim_empty in Hs. by rewrite Hs in Hlen.
  - intros (s' & [= <-] & Hs). apply orb_false_iff. split.
    + by destruct s.
    + destruct (trim s) eqn:Ht; [|done]. apply trim_empty in Ht. congruence.
Qed.

(** X19. [POST] without the admin session cookie is answered 403
    whatever the request carries: the body is not read and the world,
    the stores included, is as before. *)
Theorem POST_without_admin_session (request : NextRequest) (w : World) :
  is_admin w = false → POST request w = (Return unauthorized, w).
Proof.
  intros Hadmin. unfold POST, try_catch, bind. rewrite isAdminServer_run, Hadmin.
  reflexivity.
Qed.

(** X20. With the admin session, [POST] answers 400 and touches
    nothing when the body is not JSON, when it is a JSON value other
    than an object or [null], and when the [name] of the object is
    absent, not a string, or a string of white space only. *)
Theorem POST_bad_request (request : NextRequest) (w : World) :
  is_admin w = true →
  (json request = None → POST request w = (Return invalid_body, w))
  ∧ (json request = Some BodyOther → POST request w = (Return name_required, w))
  ∧ (∀ properties,
       json request = Some (BodyObject properties) →
       (∀ s, properties !! "name" = Some (JString s) → blank s = true) →
       POST request w = (Return name_required, w)).
Proof.
  intros Hadmin.
  unfold POST, try_catch, bind, request_json. rewrite isAdminServer_run, Hadmin.
  split; [by intros ->|]. split; [by intros ->|].
  intros properties -> Hname. cbn [negb destructure ret].
  destruct (name_missing (properties !! "name")) eqn:Hmiss; [done|].
  apply name_missing_false in Hmiss as (s & Hs & Hblank).
  rewrite (Hname s Hs) in Hblank. done.
Qed.

(** X21. With the admin session, a body that is JSON [null], and an
    object whose name is good but whose [description], [moduleName] or
    [supervisorName] is neither a string nor [null], are answered 500
    and not 400: the [TypeError] is caught by the outer handler, before
    the store is touched. *)
Theorem POST_malformed_values (request : NextRequest) (w : World) :
  is_admin w = true →
  (json request = Some BodyNull → POST request w = (Return create_failed, w))
  ∧ (∀ properties s key,
       json request = Some (BodyObject properties) →
       properties !! "name" = Some (JString s) → blank s = false →
       key ∈ ["description"; "moduleName"; "supervisorName"] →
       properties !! key = Some JOther →
       POST request w = (Return create_failed, w)).
Proof.
  intros Hadmin.
  unfold POST, try_catch, bind, request_json. rewrite isAdminServer_run, Hadmin.
  split; [by intros ->|].
  intros properties s key -> Hs Hblank Hkey Hother. cbn [negb destructure ret].
  assert (name_missing (properties !! "name") = false) as ->.
  { apply name_missing_false. by exists s. }
  rewrite Hs. cbn [method_trim ret].
  destruct (properties !! "description") as [[|d|]|] eqn:Hd; cbn [optional_trim ret throw];
    try reflexivity;
  (destruct (properties !! "moduleName") as [[|m|]|] eqn:Hm; cbn [optional_trim ret throw];
    try reflexivity);
  (destruct (properties !! "supervisorName") as [[|sv|]|] eqn:Hsv; cbn [optional_trim ret throw];
    try reflexivity);
  exfalso; repeat (apply elem_of_cons in Hkey as [->|Hkey]; [congruence|]);
  by apply elem_of_nil in Hkey.
Qed.

(** A [createProject] call that throws has stored nothing. *)
Lemma createProject_throw
    (w : World) (title : string) (about module_ supervisor : option string) e w1 :
  createProject title about module_ supervisor w = (Throw e, w1) →
  kv w1 = kv w ∧ local_projects (fs w1) = local_projects (fs w).
Proof.
  intros Hrun. unfold createProject, bind, Date_now in Hrun.
  destruct (getAllProjectsFromKV w) as [[projects|e0] w0] eqn:Hread;
    apply getAllProjectsFromKV_any in Hread as (_ & Hkv & Hl & _).
  - simpl in Hrun.
    match type of Hrun with
    | (let (_, _) := saveProjectsToKV ?ps ?w3 in _) = _ =>
        destruct (saveProjectsToKV ps w3) as [[[]|e3] w3'] eqn:Hsave; [done|]
    end.
    injection Hrun as <- <-. apply saveProjectsToKV_throw in Hsave as [Hk Hf].
    cbn in Hk, Hf. rewrite Hk, Hf. done.
  - injection Hrun as <- <-. done.
Qed.

(** Off the managed platform the read of the projects returns. *)
Lemma getAllProjectsFromKV_returns_off_managed (w : World) :
  isVercelPlatform (env w) = false →
  ∃ projects w1, getAllProjectsFromKV w = (Return projects, w1).
Proof.
  intros Hv. destruct (getRedisConfig (env w)) as [[u t]|] eqn:Hc.
  - destruct (kv_faults w) as [|[msg|] rest] eqn:Hf.
    + destruct (projects_remote_ok w [] u t [] Hc (or_intror Hf)) as [-> _]. eauto.
    + destruct (projects_remote_failure_unmanaged w [] u t msg rest Hv Hc Hf) as [-> _].
      match goal with |- ∃ _ _, getAllProjectsLocal ?w0 = _ =>
        destruct (getAllProjectsLocal_total w0) as (f & evs & -> & _)
      end. eauto.
    + destruct (projects_remote_ok w [] u t rest Hc (or_introl Hf)) as [-> _]. eauto.
  - rewrite projects_unmanaged_without_credentials by done.
    destruct (getAllProjectsLocal_total w) as (f & evs & -> & _). eauto.
Qed.

(** X22. With the admin session and a store that works, a body whose
    [name] has a character other than white space creates a project:
    the answer is 201 with the new record, whose name and optional
    fields are the strings of the body with the white space around them
    removed (an optional field of white space only is stored as the
    empty string), and the record is appended to the collection. *)
Theorem POST_creates_trimmed_project
    (request : NextRequest) (w : World) (properties : gmap string JsValue)
    (s : string) (about module_ supervisor : option string) :
  is_admin w = true →
  projects_store_ok w →
  json request = Some (BodyObject properties) →
  properties !! "name" = Some (JString s) → blank s = false →
  properties !! "description" = JString <$> about →
  properties !! "moduleName" = JString <$> module_ →
  properties !! "supervisorName" = JString <$> supervisor →
  ∃ p w',
    POST request w = (Return (mkResponse (ProjectCreated p) 201), w')
    ∧ name p = trim s
    ∧ description p = trim <$> about
    ∧ moduleName p = trim <$> module_
    ∧ supervisorName p = trim <$> supervisor
    ∧ projects_collection w' = projects_collection w ++ [p].
Proof.
  intros Hadmin Hok Hjson Hs Hblank Hd Hm Hsv.
  destruct (createProject_ok w (trim s) (trim <$> about) (trim <$> module_)
              (trim <$> supervisor) Hok) as (w' & Hrun & Hcol & _).
  eexists _, w'. split; [|split; [|split; [|split; [|split; [|exact Hcol]]]]]; [|done..].
  unfold POST, try_catch, bind, request_json. rewrite isAdminServer_run, Hadmin, Hjson.
  cbn [negb destructure ret].
  assert (name_missing (properties !! "name") = false) as ->.
  { apply name_missing_false. by exists s. }
  rewrite Hs, Hd, Hm, Hsv. cbn [method_trim ret].
  destruct about, module_, supervisor; cbn [fmap option_fmap option_map optional_trim ret];
    cbn [fmap option_fmap option_map] in Hrun; by rewrite Hrun.
Qed.

(** X23. [POST] never throws: it answers 201, 400, 403 or 500; 201 is
    answered only with the admin session and carries the record
    [createProject] returned; and with any other answer the projects
    held remotely and on disk are what they were before the request. *)
Theorem POST_always_answers (request : NextRequest) (w : World) :
  ∃ response w1,
    POST request w = (Return response, w1)
    ∧ status response ∈ [201; 400; 403; 500]
    ∧ (status response = 201 →
       is_admin w = true ∧ ∃ p, payload response = ProjectCreated p)
    ∧ (status response ≠ 201 →
       kv w1 = kv w ∧ local_projects (fs w1) = local_projects (fs w)).
Proof.
  assert (∀ response : NextResponse,
            status response ∈ [400; 403; 500] →
            ∃ response' w1,
              (Return response, w) = (Return response', w1)
              ∧ status response' ∈ [201; 400; 403; 500]
              ∧ (status response' = 201 →
                 is_admin w = true ∧ ∃ p, payload response' = ProjectCreated p)
              ∧ (status response' ≠ 201 →
                 kv w1 = kv w ∧ local_projects (fs w1) = local_projects (fs w)))
    as Hquiet.
  { intros response Hst. exists response, w. split; [done|]. split.
    - by right.
    - split; [|done]. intros H201. rewrite H201 in Hst.
      repeat (apply elem_of_cons in Hst as [[=]|Hst]). by apply elem_of_nil in Hst. }
  unfold POST, try_catch, bind, request_json. rewrite isAdminServer_run.
  destruct (is_admin w) eqn:Hadmin; cbn [negb]; [|apply Hquiet; by repeat constructor].
  destruct (json request) as [[|properties|]|]; cbn [destructure ret throw];
    try (apply Hquiet; by repeat constructor).
  destruct (name_missing (properties !! "name")); [apply Hquiet; by repeat constructor|].
  destruct (properties !! "name") as [[|s|]|]; cbn [method_trim ret throw];
    try (apply Hquiet; by repeat constructor).
  destruct (properties !! "description") as [[|d|]|]; cbn [optional_trim ret throw];
    try (apply Hquiet; by repeat constructor);
  (destruct (properties !! "moduleName") as [[|m|]|]; cbn [optional_trim ret throw];
    try (apply Hquiet; by repeat constructor));
  (destruct (properties !! "supervisorName") as [[|sv|]|]; cbn [optional_trim ret throw];
    try (apply Hquiet; by repeat constructor));
  match goal with
  | |- context [createProject ?a ?b ?c ?d w] =>
      pose proof (createProject_throw w a b c d) as Hkept;
      destruct (createProject a b c d w) as [[p|e] w']
  end.
  all: do 2 eexists; (split; [reflexivity|]); cbn [status payload create_failed].
  all: split; [by repeat constructor|].
  all: split; [by eauto|].
  all: try done.
  all: intros _; by eapply Hkept.
Qed.

(** X24. [GET] never throws: it answers 200 with the remote collection
    or the local one, or 500; off the managed platform it always
    answers 200; on the managed platform without the credential pair it
    answers 500; and neither store is changed. *)
Theorem GET_always_answers (w : World) :
  ∃ response w1,
    GET w = (Return response, w1)
    ∧ ((∃ projects,
          response = mkResponse (ProjectList projects) 200
          ∧ (projects = default [] (kv_projects (kv w))
             ∨ projects = local_projects (fs w)))
       ∨ response = fetch_failed)
    ∧ (isVercelPlatform (env w) = false → status response = 200)
    ∧ (isVercelPlatform (env w) = true → getRedisConfig (env w) = None →
       response = fetch_failed)
    ∧ kv w1 = kv w
    ∧ local_projects (fs w1) = local_projects (fs w).
Proof.
  unfold GET, getAllProjects, try_catch, bind.
  destruct (getAllProjectsFromKV w) as [[projects|e] w1] eqn:Hread.
  - pose proof (getAllProjectsFromKV_any _ _ _ Hread) as (_ & Hkv & Hl & Hfrom & _).
    eexists _, w1. split; [reflexivity|]. split; [left; eexists; split; [done|by apply Hfrom]|].
    split; [done|]. split; [|done].
    intros Hv Hc. destruct (projects_managed_without_credentials w [] Hv Hc) as [Hg _].
    rewrite Hg in Hread. discriminate Hread.
  - pose proof (getAllProjectsFromKV_any _ _ _ Hread) as (_ & Hkv & Hl & _).
    exists fetch_failed, w1. split; [reflexivity|]. split; [by right|].
    split; [|done].
    intros Hv. destruct (getAllProjectsFromKV_returns_off_managed w Hv) as (ps & w2 & Hg).
    rewrite Hg in Hread. discriminate Hread.
Qed.

End route.

(** ** The further properties at concrete worlds *)

Section further_witnesses.
Import ProjectsServer Files AuthServer ProjectsRoute fs_prim.

(** The development host within a request that carries the admin
    session cookie. *)
Definition admin_host : World :=
  set_cookie_jar (Some {[ "admin_session" := "authenticated" ]}) development_host.

Lemma admin_host_ok : projects_store_ok admin_host.
Proof. split; [constructor|]. split; [done|]. by vm_compute. Defined.

Lemma development_files_ok : files_store_ok development_host.
Proof. split; [constructor|done]. Defined.

Lemma uploaded_host_ok : files_store_ok uploaded_host.
Proof. split; [constructor|done]. Defined.

(** The path of the stored record on that host: a regular file below
    [uploads]. *)
Lemma draft_is_uploaded :
  upload_path (fs uploaded_host)
    (getFilePath "1700000000000" "reports" "1700000000123-draft.pdf").
Proof. apply upload_path_names; by vm_compute. Defined.

(** A body with white space around its strings. *)
Definition padded_body : gmap string JsValue :=
  {[ "name" := JString "  Essay ";
     "description" := JString " Second term  ";
     "supervisorName" := JString "   " ]}.

(** X1 on the development host. *)
Lemma getAllProjects_never_throws_off_managed_witness :
  isVercelPlatform (env development_host) = false
  ∧ ∃ projects w1,
      getAllProjects development_host = (Return projects, w1)
      ∧ (projects = default [] (kv_projects (kv development_host))
         ∨ projects = local_projects (fs development_host))
      ∧ kv w1 = kv development_host
      ∧ local_projects (fs w1) = local_projects (fs development_host).
Proof.
  split; [reflexivity|].
  apply (getAllProjects_never_throws_off_managed development_host). reflexivity.
Defined.

(** X2 on the managed host whose Redis request is rejected. *)
Lemma projects_store_managed_leaves_disk_alone_witness :
  let w := managed_world_redis_down in
  isVercelPlatform (env w) = true
  ∧ fs (snd (getAllProjectsFromKV w)) = fs w
  ∧ ∃ evs, log (snd (getAllProjectsFromKV w)) = log w ++ evs
           ∧ Forall (λ ev, fs_event ev = false) evs.
Proof.
  cbv zeta. split; [reflexivity|].
  apply (projects_store_managed_leaves_disk_alone managed_world_redis_down []
           (fst (getAllProjectsFromKV managed_world_redis_down)) (Return tt)
           (snd (getAllProjectsFromKV managed_world_redis_down))).
  - reflexivity.
  - left. apply surjective_pairing.
Defined.

(** X5 on the managed host with its read-only disk. *)
Lemma files_store_throws_only_filesystem_errors_witness :
  let w := managed_read_only in
  getAllFilesFromKV w = (Throw (FsError "EROFS" "data"), snd (getAllFilesFromKV w))
  ∧ read_only (fs w) = true
  ∧ kv (snd (getAllFilesFromKV w)) = kv w
  ∧ fs (snd (getAllFilesFromKV w)) = fs w.
Proof.
  cbv zeta.
  assert (getAllFilesFromKV managed_read_only
          = (Throw (FsError "EROFS" "data"), snd (getAllFilesFromKV managed_read_only)))
    as Hrun.
  { rewrite (surjective_pairing (getAllFilesFromKV managed_read_only)) at 1.
    f_equal. }
  split; [exact Hrun|].
  destruct (files_store_throws_only_filesystem_errors managed_read_only [] _ _
              (or_introl Hrun)) as (Hro & _ & Hkv & Hfs).
  by split.
Defined.

(** X6 on the managed host without credentials. *)
Lemma failed_project_call_stores_nothing_witness :
  let w := managed_read_only in
  createProject "Thesis" None None None w
  = (Throw ConfigurationMissing, snd (createProject "Thesis" None None None w))
  ∧ kv (snd (createProject "Thesis" None None None w)) = kv w
  ∧ local_projects (fs (snd (createProject "Thesis" None None None w)))
    = local_projects (fs w).
Proof.
  cbv zeta.
  assert (createProject "Thesis" None None None managed_read_only
          = (Throw ConfigurationMissing,
             snd (createProject "Thesis" None None None managed_read_only)))
    as Hrun.
  { rewrite (surjective_pairing (createProject "Thesis" None None None managed_read_only))
      at 1.
    f_equal. }
  split; [exact Hrun|].
  exact (failed_project_call_stores_nothing managed_read_only "Thesis" None None None
           "1700000000000" rename _ _ (or_introl Hrun)).
Defined.

(** X7 on the development host. *)
Lemma getAllProjects_after_createProject_witness :
  projects_store_ok development_host
  ∧ ∃ p w' w'',
      createProject "Essay" None None None development_host = (Return p, w')
      ∧ name p = "Essay"
      ∧ getAllProjects w' = (Return ([thesis] ++ [p]), w'').
Proof.
  split; [exact development_host_ok|].
  exact (getAllProjects_after_createProject development_host "Essay" None None None
           development_host_ok).
Defined.

(** X8 on the development host. *)
Lemma getProject_after_createProject_witness :
  projects_store_ok development_host
  ∧ ∃ p w' found w'',
      createProject "Essay" None None None development_host = (Return p, w')
      ∧ getProject (id p) w' = (Return (Some found), w'')
      ∧ id found = id p.
Proof.
  split; [exact development_host_ok|].
  destruct (getProject_after_createProject development_host "Essay" None None None
              development_host_ok) as (p & w' & found & w'' & Hrun & Hget & Hid & _).
  by exists p, w', found, w''.
Defined.

(** X9 on the development host. *)
Lemma getProject_after_updateProject_witness :
  projects_store_ok development_host
  ∧ (∃ q, q ∈ projects_collection development_host ∧ id q = "1700000000000")
  ∧ ∃ updated w' w'',
      updateProject "1700000000000" rename development_host = (Return (Some updated), w')
      ∧ getProject "1700000000000" w' = (Return (Some updated), w'').
Proof.
  assert (∃ q, q ∈ projects_collection development_host ∧ id q = "1700000000000") as Hex.
  { exists thesis. split; [|done]. by left. }
  split; [exact development_host_ok|]. split; [exact Hex|].
  exact (getProject_after_updateProject development_host "1700000000000" rename
           development_host_ok Hex).
Defined.

(** X10 on the development host. *)
Lemma getFilesByCategory_after_saveFileMetadata_witness :
  files_store_ok development_host
  ∧ ∃ w' w'',
      saveFileMetadata sample_file development_host = (Return tt, w')
      ∧ files_collection w' = [sample_file; sample_file]
      ∧ getFilesByCategory "1700000000000" "reports" w'
        = (Return [sample_file; sample_file], w'').
Proof.
  split; [exact development_files_ok|].
  destruct (getFilesByCategory_after_saveFileMetadata development_host sample_file
              development_files_ok) as (w' & w'' & Hsave & Hcol & Hlist).
  exists w', w''. split; [exact Hsave|]. split; [exact Hcol|]. exact Hlist.
Defined.

(** X11 on the host with the content in place. *)
Lemma deleteFile_after_saveFileMetadata_witness :
  files_store_ok uploaded_host
  ∧ upload_path (fs uploaded_host)
      (getFilePath (projectId sample_file) (categoryId sample_file) (filename sample_file))
  ∧ ∃ w1 w2 w3,
      saveFileMetadata sample_file uploaded_host = (Return tt, w1)
      ∧ deleteFile "1700000000000" "reports" "1700000000123-draft.pdf" w1 = (Return tt, w2)
      ∧ files_collection w2 = []
      ∧ getFileBlobUrl "1700000000000" "reports" "1700000000123-draft.pdf" w2
        = (Return None, w3).
Proof.
  split; [exact uploaded_host_ok|]. split; [exact draft_is_uploaded|].
  destruct (deleteFile_after_saveFileMetadata uploaded_host sample_file
              uploaded_host_ok (λ _, draft_is_uploaded))
    as (w1 & w2 & w3 & Hsave & Hdel & Hcol & Hurl).
  exists w1, w2, w3. split; [exact Hsave|]. split; [exact Hdel|]. split; [|exact Hurl].
  rewrite Hcol. by vm_compute.
Defined.

(** X12 on the host with the content in place, for a key no record
    carries. *)
Lemma deleteFile_without_record_witness :
  let w := uploaded_host in
  let place := ["srv"; "app"; "uploads"; "1700000000000"; "slides"; "missing.pdf"] in
  files_store_ok w
  ∧ nodes (tree (fs w)) !! place = None
  ∧ ∃ w',
      deleteFile "1700000000000" "slides" "missing.pdf" w = (Return tt, w')
      ∧ files_collection w' = [sample_file]
      ∧ nodes (tree (fs w')) !! place = None.
Proof.
  cbv zeta. split; [exact uploaded_host_ok|].
  assert (nodes (tree (fs uploaded_host))
            !! ["srv"; "app"; "uploads"; "1700000000000"; "slides"; "missing.pdf"] = None)
    as Hfree by (by vm_compute).
  split; [exact Hfree|].
  assert (∀ m, m ∈ files_collection uploaded_host →
               ¬ is_file "1700000000000" "slides" "missing.pdf" m) as Hnone.
  { intros m Hm. change (m ∈ [sample_file]) in Hm.
    apply list_elem_of_singleton in Hm. subst m. by intros (_ & [=] & _). }
  destruct (deleteFile_without_record uploaded_host "1700000000000" "slides" "missing.pdf"
              uploaded_host_ok eq_refl eq_refl eq_refl) as (w' & Hdel & Hcol & _ & Hgone).
  { change (nodes (tree (fs uploaded_host))
              !! ["srv"; "app"; "uploads"; "1700000000000"; "slides"; "missing.pdf"]
            ≠ Some Directory). by rewrite Hfree. }
  { exact Hnone. }
  exists w'. split; [exact Hdel|]. split; [exact Hcol|]. by apply Hgone.
Defined.

(** X13 on the host with the content in place. *)
Lemma deleteFile_twice_witness :
  files_store_ok uploaded_host
  ∧ upload_path (fs uploaded_host)
      (getFilePath "1700000000000" "reports" "1700000000123-draft.pdf")
  ∧ ∃ w1 w2,
      deleteFile "1700000000000" "reports" "1700000000123-draft.pdf" uploaded_host
      = (Return tt, w1)
      ∧ deleteFile "1700000000000" "reports" "1700000000123-draft.pdf" w1 = (Return tt, w2)
      ∧ files_collection w2 = files_collection w1.
Proof.
  split; [exact uploaded_host_ok|]. split; [exact draft_is_uploaded|].
  exact (deleteFile_twice uploaded_host "1700000000000" "reports"
           "1700000000123-draft.pdf" uploaded_host_ok (λ _, draft_is_uploaded)).
Defined.

(** X25 on the host with the content in place: the empty filename
    addresses the directory of the category. *)
Lemma deleteFile_of_directory_throws_witness :
  let w := uploaded_host in
  files_store_ok w
  ∧ isVercelEnvironment (env w) = false
  ∧ getFilePath "1700000000000" "reports" EmptyString = "uploads/1700000000000/reports"
  ∧ entry_at (fs w) "uploads/1700000000000/reports" = Some Directory
  ∧ ∃ code w',
      deleteFile "1700000000000" "reports" EmptyString w
      = (Throw (FsError code "uploads/1700000000000/reports"), w')
      ∧ files_collection w' = [sample_file]
      ∧ tree (fs w') = tree (fs w).
Proof.
  cbv zeta. split; [exact uploaded_host_ok|]. split; [reflexivity|].
  assert (getFilePath "1700000000000" "reports" EmptyString
          = "uploads/1700000000000/reports") as Hpath by (by vm_compute).
  assert (entry_at (fs uploaded_host) "uploads/1700000000000/reports" = Some Directory)
    as Hdir by (by vm_compute).
  split; [exact Hpath|]. split; [exact Hdir|].
  destruct (deleteFile_of_directory_throws uploaded_host "1700000000000" "reports"
              EmptyString uploaded_host_ok eq_refl) as [(code & w' & Hrun & Hcol & Htree) _].
  { by rewrite Hpath. }
  exists code, w'. rewrite Hpath in Hrun. split; [exact Hrun|]. split; [|exact Htree].
  rewrite Hcol. by vm_compute.
Defined.

(** X14 on the development host, whose record has no blob URL. *)
Lemma getFileBlobUrl_answer_witness :
  files_store_ok development_host
  ∧ ∃ w1,
      getFileBlobUrl "1700000000000" "reports" "1700000000123-draft.pdf" development_host
      = (Return None, w1).
Proof.
  split; [exact development_files_ok|].
  destruct (getFileBlobUrl_answer development_host "1700000000000" "reports"
              "1700000000123-draft.pdf" development_files_ok)
    as (answer & w1 & Hrun & _ & Hnone).
  exists w1. rewrite Hrun, Hnone; [done|].
  intros m Hm _. change (m ∈ [sample_file]) in Hm.
  apply list_elem_of_singleton in Hm. by subst m.
Defined.

(** X16 with no environment variable set. *)
Lemma verifyAdminPassword_default_witness :
  truthy ((∅ : gmap string string) !! "ADMIN_PASSWORD") = false
  ∧ verifyAdminPassword ∅ "admin123" = true
  ∧ (verifyAdminPassword ∅ " admin123 " = true ↔ trim " admin123 " = "admin123").
Proof.
  split; [reflexivity|].
  apply (verifyAdminPassword_default ∅ " admin123 "). reflexivity.
Defined.

(** X17 with a configured password of two spaces. *)
Lemma verifyAdminPassword_blank_configuration_witness :
  let e : gmap string string := {[ "ADMIN_PASSWORD" := "  " ]} in
  e !! "ADMIN_PASSWORD" = Some "  "
  ∧ (verifyAdminPassword e " " = true ↔ " " ≠ EmptyString ∧ blank " " = true).
Proof.
  cbv zeta. split; [reflexivity|].
  apply (verifyAdminPassword_blank_configuration {[ "ADMIN_PASSWORD" := "  " ]} "  " " ").
  - reflexivity.
  - discriminate.
  - reflexivity.
Defined.

(** X19 on the development host, outside the admin session. *)
Lemma POST_without_admin_session_witness :
  is_admin development_host = false
  ∧ POST (mkRequest (Some (BodyObject padded_body))) development_host
    = (Return unauthorized, development_host).
Proof.
  split; [reflexivity|].
  apply (POST_without_admin_session _ development_host). reflexivity.
Defined.

(** X20 within the admin session: a name of white space only. *)
Lemma POST_bad_request_witness :
  is_admin admin_host = true
  ∧ POST (mkRequest (Some (BodyObject {[ "name" := JString "   " ]}))) admin_host
    = (Return name_required, admin_host).
Proof.
  split; [reflexivity|].
  destruct (POST_bad_request (mkRequest (Some (BodyObject {[ "name" := JString "   " ]})))
              admin_host eq_refl) as (_ & _ & Hname).
  apply (Hname _ eq_refl). intros s Hs.
  change (Some (JString "   ") = Some (JString s)) in Hs. by injection Hs as <-.
Defined.

(** X21 within the admin session: the body [null]. *)
Lemma POST_malformed_values_witness :
  is_admin admin_host = true
  ∧ POST (mkRequest (Some BodyNull)) admin_host = (Return create_failed, admin_host)
  ∧ POST (mkRequest (Some (BodyObject {[ "name" := JString "Essay";
                                         "moduleName" := JOther ]}))) admin_host
    = (Return create_failed, admin_host).
Proof.
  split; [reflexivity|].
  destruct (POST_malformed_values (mkRequest (Some BodyNull)) admin_host eq_refl)
    as (Hnull & _).
  split; [by apply Hnull|].
  destruct (POST_malformed_values
              (mkRequest (Some (BodyObject {[ "name" := JString "Essay";
                                              "moduleName" := JOther ]})))
              admin_host eq_refl) as (_ & Hfield).
  apply (Hfield _ "Essay" "moduleName" eq_refl); [reflexivity|reflexivity| |reflexivity].
  right. by left.
Defined.

(** X22 within the admin session, on the development host. *)
Lemma POST_creates_trimmed_project_witness :
  is_admin admin_host = true
  ∧ projects_store_ok admin_host
  ∧ ∃ p w',
      POST (mkRequest (Some (BodyObject padded_body))) admin_host
      = (Return (mkResponse (ProjectCreated p) 201), w')
      ∧ name p = "Essay"
      ∧ description p = Some "Second term"
      ∧ moduleName p = None
      ∧ supervisorName p = Some EmptyString
      ∧ projects_collection w' = [thesis; p].
Proof.
  split; [reflexivity|]. split; [exact admin_host_ok|].
  exact (POST_creates_trimmed_project (mkRequest (Some (BodyObject padded_body))) admin_host
           padded_body "  Essay " (Some " Second term  ") None (Some "   ")
           eq_refl admin_host_ok eq_refl eq_refl eq_refl eq_refl eq_refl eq_refl).
Defined.

End further_witnesses.
